(** * Nature Remo air-conditioner entity

    A shallow embedding of [custom_components/nature_remo/climate.py]:
    the mode tables, the capability resolver ([min_temp], [max_temp],
    [target_temperature_step]), the settings reconciler
    ([set_temperature], [_on_settings_update]) and the debounced dispatch
    ([_set_settings], [_on_post]), followed by the properties proved of them.

    Python values are modelled as follows.
    - [str] is [string]; the vendor API sends ASCII text, and the bytes
      above 127 are never digits or blanks here.
    - [float] is IEEE binary64, as the Standard Library's [spec_float]
      with precision 53 and maximal exponent 1024.
    - [int] is [Z].
    - a [dict] is a [gmap]; [d[k]] on a missing key raises [KeyError].
    - an exception is the [Raise] outcome of the monad [M], which threads
      the explicit world state through every method. *)

From Stdlib Require Import ZArith String Ascii List Bool Lia DecimalString.
From Stdlib Require Import Floats.SpecFloat.
From stdpp Require Import base option list gmap strings.

Local Open Scope Z_scope.

(** ** Python's [float] and the built-ins the entity applies to it *)

Module PyFloat.

Definition prec : Z := 53.
Definition emax : Z := 1024.

Abbreviation float := spec_float.

Definition nan : float := S754_nan.
Definition inf (neg : bool) : float := S754_infinity neg.

(** [x - y], [x < y], [x > y] and [x == y] on floats. *)
Definition sub (x y : float) : float := SFsub prec emax x y.
Definition ltb (x y : float) : bool := SFltb x y.
Definition gtb (x y : float) : bool := SFltb y x.
Definition leb (x y : float) : bool := SFleb x y.
Definition eqb (x y : float) : bool := SFeqb x y.

Definition is_nan (x : float) : bool :=
  match x with S754_nan => true | _ => false end.

(** The float nearest to [d * 10^e10] (ties to even), signed by [neg]:
    what [strtod] returns for the decimal numeral with digits [d] and
    decimal exponent [e10]. *)
Definition of_decimal (neg : bool) (d : Z) (e10 : Z) : float :=
  match d with
  | Zpos p =>
      if 0 <=? e10 then
        match d * 10 ^ e10 with
        | Zpos q => binary_round prec emax neg q 0
        | _ => S754_zero neg
        end
      else
        SFdiv prec emax (S754_finite neg p 0)
              (S754_finite false (Z.to_pos (10 ^ (- e10))) 0)
  | _ => S754_zero neg
  end.

Definition of_Z (z : Z) : float := of_decimal (z <? 0) (Z.abs z) 0.

(** *** [float(s)] for a string [s] *)

Definition code (c : ascii) : nat := nat_of_ascii c.

Definition between (lo hi : nat) (c : ascii) : bool :=
  (Nat.leb lo (code c) && Nat.leb (code c) hi)%bool.

(** Blanks that [float] strips: TAB, LF, VT, FF, CR and the space. *)
Definition is_space (c : ascii) : bool :=
  (between 9 13 c || between 32 32 c)%bool.

Definition is_digit (c : ascii) : bool := between 48 57 c.

Definition digit_val (c : ascii) : Z := Z.of_nat (code c - 48).

Definition lower (c : ascii) : ascii :=
  if between 65 90 c then ascii_of_nat (code c + 32) else c.

Definition is_char (a c : ascii) : bool := Ascii.eqb a c.

Fixpoint lstrip (s : list ascii) : list ascii :=
  match s with
  | c :: r => if is_space c then lstrip r else s
  | [] => []
  end.

Definition strip (s : list ascii) : list ascii :=
  rev (lstrip (rev (lstrip s))).

(** An underscore is accepted only between two digits, and dropped. *)
Fixpoint drop_underscores (prev : option ascii) (s : list ascii)
  : option (list ascii) :=
  match s with
  | [] =>
      match prev with
      | Some p => if is_char "_" p then None else Some []
      | None => Some []
      end
  | c :: r =>
      if is_char "_" c then
        match prev with
        | Some p => if is_digit p then drop_underscores (Some c) r else None
        | None => None
        end
      else
        match prev with
        | Some p =>
            if (is_char "_" p && negb (is_digit c))%bool then None
            else cons c <$> drop_underscores (Some c) r
        | None => cons c <$> drop_underscores (Some c) r
        end
  end.

(** The leading digits of [s], and what follows them. *)
Fixpoint span_digits (s : list ascii) : list ascii * list ascii :=
  match s with
  | c :: r =>
      if is_digit c then let '(ds, t) := span_digits r in (c :: ds, t)
      else ([], s)
  | [] => ([], [])
  end.

Definition digits_value (ds : list ascii) : Z :=
  fold_left (fun acc c => 10 * acc + digit_val c) ds 0.

Definition split_sign (s : list ascii) : bool * list ascii :=
  match s with
  | c :: r =>
      if is_char "-" c then (true, r)
      else if is_char "+" c then (false, r)
      else (false, s)
  | [] => (false, [])
  end.

(** The exponent part: nothing, or [e] or [E], a sign, and digits. *)
Definition parse_exponent (s : list ascii) : option Z :=
  match s with
  | [] => Some 0
  | c :: r =>
      if is_char "e" (lower c) then
        let '(neg, r') := split_sign r in
        match span_digits r' with
        | ((_ :: _) as ds, []) =>
            Some (if neg then - digits_value ds else digits_value ds)
        | _ => None
        end
      else None
  end.

(** A numeral without sign: digits, a point, digits (one digit at
    least), then the exponent part. *)
Definition parse_number (neg : bool) (s : list ascii) : option float :=
  let '(ip, r) := span_digits s in
  let '(fp, r') :=
    match r with
    | c :: t => if is_char "." c then span_digits t else ([], r)
    | [] => ([], [])
    end in
  match ip ++ fp with
  | [] => None
  | ds =>
      e ← parse_exponent r';
      Some (of_decimal neg (digits_value ds) (e - Z.of_nat (length fp)))
  end.

Definition parse_inf_or_nan (neg : bool) (s : list ascii) : option float :=
  let w := string_of_list_ascii (map lower s) in
  if (String.eqb w "inf" || String.eqb w "infinity")%bool then Some (inf neg)
  else if String.eqb w "nan" then Some nan
  else None.

(** [float(s)]: [None] stands for the [ValueError] it raises. *)
Definition of_str (s : string) : option float :=
  t ← drop_underscores None (strip (list_ascii_of_string s));
  let '(neg, r) := split_sign t in
  match parse_number neg r with
  | Some x => Some x
  | None => parse_inf_or_nan neg r
  end.

(** *** [round(x, 1)]

    The exact value of [x] is rounded to one decimal, ties to even, and
    the decimal read back as a float; zeros, infinities and NaN round
    to themselves. *)

(** The integer nearest to [n / d], ties to even, for [0 <= n], [0 < d]. *)
Definition div_half_even (n d : Z) : Z :=
  let q := n / d in
  let r := n mod d in
  match 2 * r ?= d with
  | Lt => q
  | Gt => q + 1
  | Eq => if Z.even q then q else q + 1
  end.

Definition round1 (x : float) : float :=
  match x with
  | S754_finite s m e =>
      let tenths :=
        if 0 <=? e then Zpos m * 2 ^ e * 10
        else div_half_even (Zpos m * 10) (2 ^ (- e)) in
      of_decimal s tenths (-1)
  | _ => x
  end.

(** *** [x.is_integer()] and [int(x)] *)

Definition is_integer (x : float) : bool :=
  match x with
  | S754_zero _ => true
  | S754_finite _ m e => (0 <=? e) || (Zpos m mod 2 ^ (- e) =? 0)
  | _ => false
  end.

(** [int(x)] truncates towards zero; [None] stands for the
    [OverflowError] or [ValueError] raised on an infinity or a NaN. *)
Definition to_int (x : float) : option Z :=
  match x with
  | S754_zero _ => Some 0
  | S754_finite s m e =>
      let a := if 0 <=? e then Zpos m * 2 ^ e else Zpos m / 2 ^ (- e) in
      Some (if s then - a else a)
  | _ => None
  end.

(** *** [str(n)] for an int and [repr(x)] for a float *)

Definition str_of_int (n : Z) : string := NilZero.string_of_int (Z.to_int n).

Definition same (x y : float) : bool :=
  match x, y with
  | S754_nan, S754_nan => true
  | S754_zero s, S754_zero t => Bool.eqb s t
  | S754_infinity s, S754_infinity t => Bool.eqb s t
  | S754_finite s m e, S754_finite t n f =>
      (Bool.eqb s t && Pos.eqb m n && Z.eqb e f)%bool
  | _, _ => false
  end.

(** [num / den < 10^k] *)
Definition lt_pow10 (num den k : Z) : bool :=
  if 0 <=? k then num <? den * 10 ^ k else num * 10 ^ (- k) <? den.

(** The position of the decimal point of [num / den]: the [k] with
    [10^(k-1) <= num / den < 10^k]. *)
Definition decpt_of (num den : Z) : Z :=
  let est := (Z.log2 num - Z.log2 den) * 30103 / 100000 in
  match filter (fun k => lt_pow10 num den k)
               (map (fun i => est - 2 + i) [0; 1; 2; 3; 4; 5; 6]) with
  | k :: _ => k
  | [] => est
  end.

(** [num / den * 10^s] as a fraction. *)
Definition scale10 (num den s : Z) : Z * Z :=
  if 0 <=? s then (num * 10 ^ s, den) else (num, den * 10 ^ (- s)).

(** The integer [d] of [n] digits for which [d * 10^(k-n)] reads back as
    [x] and is nearest to [x = num / den], when there is one. *)
Definition candidate (x : float) (num den k n : Z) : option Z :=
  let '(yn, yd) := scale10 num den (n - k) in
  let f := yn / yd in
  let ok d := same (of_decimal false d (k - n)) x in
  match ok f, ok (f + 1) with
  | true, true => Some (if (2 * f + 1) * yd <? 2 * yn then f + 1 else f)
  | true, false => Some f
  | false, true => Some (f + 1)
  | false, false => None
  end.

(** The shortest digits that read back as [x], tried from [n] digits
    on; 17 digits always do. *)
Fixpoint shortest (x : float) (num den k : Z) (n : Z) (fuel : nat)
  : Z * Z :=
  match fuel with
  | O => let '(yn, yd) := scale10 num den (n - k) in
         (div_half_even yn yd, n)
  | S fuel' =>
      match candidate x num den k n with
      | Some d => (d, n)
      | None => shortest x num den k (n + 1) fuel'
      end
  end.

Fixpoint rstrip_zeros (ds : list ascii) : list ascii :=
  match ds with
  | [] => []
  | c :: r =>
      match rstrip_zeros r with
      | [] => if is_char "0" c then [] else [c]
      | r' => c :: r'
      end
  end.

Definition zeros (n : Z) : list ascii := repeat "0"%char (Z.to_nat n).

(** The layout of [repr]: digits [ds] with the decimal point after the
    first [decpt] of them; an exponent when [decpt] is below -3 or
    above 16. *)
Definition layout (ds : list ascii) (decpt : Z) : list ascii :=
  let n := Z.of_nat (length ds) in
  if ((decpt <=? -4) || (16 <? decpt))%bool then
    let e := decpt - 1 in
    let es := list_ascii_of_string (str_of_int (Z.abs e)) in
    take 1 ds
      ++ (match drop 1 ds with [] => [] | r => "."%char :: r end)
      ++ "e"%char :: (if e <? 0 then "-"%char else "+"%char)
      :: (if Z.abs e <? 10 then "0"%char :: es else es)
  else if decpt <=? 0 then
    "0"%char :: "."%char :: zeros (- decpt) ++ ds
  else if n <=? decpt then
    ds ++ zeros (decpt - n) ++ "."%char :: ["0"%char]
  else
    take (Z.to_nat decpt) ds ++ "."%char :: drop (Z.to_nat decpt) ds.

Definition repr_abs (x : float) : list ascii :=
  match x with
  | S754_nan => list_ascii_of_string "nan"
  | S754_infinity _ => list_ascii_of_string "inf"
  | S754_zero _ => list_ascii_of_string "0.0"
  | S754_finite _ m e =>
      let num := if 0 <=? e then Zpos m * 2 ^ e else Zpos m in
      let den := if 0 <=? e then 1 else 2 ^ (- e) in
      let k := decpt_of num den in
      let '(d, n) := shortest (S754_finite false m e) num den k 1 16 in
      let ds := list_ascii_of_string (str_of_int d) in
      layout (rstrip_zeros ds) (Z.of_nat (length ds) + (k - n))
  end.

Definition sign_of (x : float) : bool :=
  match x with
  | S754_zero s | S754_infinity s | S754_finite s _ _ => s
  | S754_nan => false
  end.

(** [repr(x)], which is also what an f-string prints for a float. *)
Definition repr (x : float) : string :=
  string_of_list_ascii
    (if sign_of x then "-"%char :: repr_abs x else repr_abs x).

End PyFloat.

Import PyFloat.

(** ** The built-ins [min] and [max]

    Both keep the first item and replace it by a later one that compares
    strictly below ([min]) or strictly above ([max]) it. *)

Definition py_min (x : float) (xs : list float) : float :=
  fold_left (fun best y => if PyFloat.ltb y best then y else best) xs x.

Definition py_max (x : float) (xs : list float) : float :=
  fold_left (fun best y => if PyFloat.gtb y best then y else best) xs x.

(** A number returned by a property: an [int] or a [float]. *)
Inductive number :=
  | NInt (n : Z)
  | NFloat (x : float).

(** ** The tables of the module *)

Inductive HVACMode := OFF | HEAT | COOL | HEAT_COOL | AUTO | DRY | FAN_ONLY.

Inductive UnitOfTemperature := CELSIUS | FAHRENHEIT | KELVIN.

#[global] Instance HVACMode_eq_dec : EqDecision HVACMode.
Proof. solve_decision. Defined.

Definition MODE_HA_TO_REMO (m : HVACMode) : option string :=
  match m with
  | AUTO => Some "auto"
  | FAN_ONLY => Some "blow"
  | COOL => Some "cool"
  | DRY => Some "dry"
  | HEAT => Some "warm"
  | OFF => Some "power-off"
  | HEAT_COOL => None
  end.

Definition MODE_REMO_TO_HA (s : string) : option HVACMode :=
  match s with
  | "auto" => Some AUTO
  | "blow" => Some FAN_ONLY
  | "cool" => Some COOL
  | "dry" => Some DRY
  | "warm" => Some HEAT
  | "power-off" => Some OFF
  | _ => None
  end.

Definition TEMP_UNIT_REMO_TO_HA (s : string) : option UnitOfTemperature :=
  match s with
  | "c" => Some CELSIUS
  | "f" => Some FAHRENHEIT
  | _ => None
  end.

Definition DEFAULT_TEMP (m : HVACMode) : option Z :=
  match m with
  | AUTO | FAN_ONLY | COOL | DRY | HEAT => Some 23
  | OFF | HEAT_COOL => None
  end.

(** ** The data *)

(** A value of an outbound payload: the staged fields are strings, but
    for the default temperature, which is staged as the int of
    [DEFAULT_TEMP]. *)
Inductive value :=
  | VStr (s : string)
  | VInt (n : Z).

#[global] Instance value_eq_dec : EqDecision value.
Proof. solve_decision. Defined.

(** One entry of [appliance["aircon"]["range"]["modes"]]. *)
Record ModeRange := {
  temp : list string;
  vol : list string;
  dir : list string;
}.

(** The attributes of an [AirconEntity] instance. [_last_target_temperature]
    is [None] as long as the instance has no attribute of that name of its
    own, and reads and writes go to the class attribute. *)
Record AirconEntity := {
  _remo_id : string;
  _modes : gmap string ModeRange;
  _remo_mode : option string;
  _attr_target_temperature : option float;
  _attr_hvac_mode : option HVACMode;
  _attr_fan_mode : option string;
  _attr_swing_mode : option string;
  _attr_temperature_unit : option UnitOfTemperature;
  _updated_at : option string;
  _last_target_temperature : option (gmap string string);
  _next_settings : option (gmap string value);
  _post_cancel : option nat;
}.

(** A call scheduled on the event loop by [async_call_later]: [_on_post]
    of the entity [owner], due at time [due] (in milliseconds). *)
Record Timer := {
  handle : nat;
  due : nat;
  owner : string;
}.

(** The world a method runs in: the class attribute shared by all
    instances, the instances by appliance id, the event loop with its
    clock and scheduled calls, the requests handed to the transport
    (path and data), and the entities listening to device updates. *)
Record World := {
  class_last_target_temperature : gmap string string;
  entities : gmap string AirconEntity;
  timers : list Timer;
  next_handle : nat;
  now : nat;
  posted : list (string * option (gmap string value));
  device_listeners : gset string;
}.

(** *** Attribute assignment *)

Definition set_remo_mode (v : option string) (e : AirconEntity) :=
  {| _remo_id := _remo_id e; _modes := _modes e; _remo_mode := v;
     _attr_target_temperature := _attr_target_temperature e;
     _attr_hvac_mode := _attr_hvac_mode e; _attr_fan_mode := _attr_fan_mode e;
     _attr_swing_mode := _attr_swing_mode e;
     _attr_temperature_unit := _attr_temperature_unit e;
     _updated_at := _updated_at e;
     _last_target_temperature := _last_target_temperature e;
     _next_settings := _next_settings e; _post_cancel := _post_cancel e |}.

Definition set_attr_target_temperature (v : option float) (e : AirconEntity) :=
  {| _remo_id := _remo_id e; _modes := _modes e; _remo_mode := _remo_mode e;
     _attr_target_temperature := v;
     _attr_hvac_mode := _attr_hvac_mode e; _attr_fan_mode := _attr_fan_mode e;
     _attr_swing_mode := _attr_swing_mode e;
     _attr_temperature_unit := _attr_temperature_unit e;
     _updated_at := _updated_at e;
     _last_target_temperature := _last_target_temperature e;
     _next_settings := _next_settings e; _post_cancel := _post_cancel e |}.

Definition set_attr_hvac_mode (v : option HVACMode) (e : AirconEntity) :=
  {| _remo_id := _remo_id e; _modes := _modes e; _remo_mode := _remo_mode e;
     _attr_target_temperature := _attr_target_temperature e;
     _attr_hvac_mode := v; _attr_fan_mode := _attr_fan_mode e;
     _attr_swing_mode := _attr_swing_mode e;
     _attr_temperature_unit := _attr_temperature_unit e;
     _updated_at := _updated_at e;
     _last_target_temperature := _last_target_temperature e;
     _next_settings := _next_settings e; _post_cancel := _post_cancel e |}.

Definition set_attr_fan_mode (v : option string) (e : AirconEntity) :=
  {| _remo_id := _remo_id e; _modes := _modes e; _remo_mode := _remo_mode e;
     _attr_target_temperature := _attr_target_temperature e;
     _attr_hvac_mode := _attr_hvac_mode e; _attr_fan_mode := v;
     _attr_swing_mode := _attr_swing_mode e;
     _attr_temperature_unit := _attr_temperature_unit e;
     _updated_at := _updated_at e;
     _last_target_temperature := _last_target_temperature e;
     _next_settings := _next_settings e; _post_cancel := _post_cancel e |}.

Definition set_attr_swing_mode (v : option string) (e : AirconEntity) :=
  {| _remo_id := _remo_id e; _modes := _modes e; _remo_mode := _remo_mode e;
     _attr_target_temperature := _attr_target_temperature e;
     _attr_hvac_mode := _attr_hvac_mode e; _attr_fan_mode := _attr_fan_mode e;
     _attr_swing_mode := v;
     _attr_temperature_unit := _attr_temperature_unit e;
     _updated_at := _updated_at e;
     _last_target_temperature := _last_target_temperature e;
     _next_settings := _next_settings e; _post_cancel := _post_cancel e |}.

Definition set_attr_temperature_unit (v : option UnitOfTemperature)
    (e : AirconEntity) :=
  {| _remo_id := _remo_id e; _modes := _modes e; _remo_mode := _remo_mode e;
     _attr_target_temperature := _attr_target_temperature e;
     _attr_hvac_mode := _attr_hvac_mode e; _attr_fan_mode := _attr_fan_mode e;
     _attr_swing_mode := _attr_swing_mode e;
     _attr_temperature_unit := v;
     _updated_at := _updated_at e;
     _last_target_temperature := _last_target_temperature e;
     _next_settings := _next_settings e; _post_cancel := _post_cancel e |}.

Definition set_updated_at (v : option string) (e : AirconEntity) :=
  {| _remo_id := _remo_id e; _modes := _modes e; _remo_mode := _remo_mode e;
     _attr_target_temperature := _attr_target_temperature e;
     _attr_hvac_mode := _attr_hvac_mode e; _attr_fan_mode := _attr_fan_mode e;
     _attr_swing_mode := _attr_swing_mode e;
     _attr_temperature_unit := _attr_temperature_unit e;
     _updated_at := v;
     _last_target_temperature := _last_target_temperature e;
     _next_settings := _next_settings e; _post_cancel := _post_cancel e |}.

Definition set_last_target_temperature (v : option (gmap string string))
    (e : AirconEntity) :=
  {| _remo_id := _remo_id e; _modes := _modes e; _remo_mode := _remo_mode e;
     _attr_target_temperature := _attr_target_temperature e;
     _attr_hvac_mode := _attr_hvac_mode e; _attr_fan_mode := _attr_fan_mode e;
     _attr_swing_mode := _attr_swing_mode e;
     _attr_temperature_unit := _attr_temperature_unit e;
     _updated_at := _updated_at e;
     _last_target_temperature := v;
     _next_settings := _next_settings e; _post_cancel := _post_cancel e |}.

Definition set_next_settings (v : option (gmap string value))
    (e : AirconEntity) :=
  {| _remo_id := _remo_id e; _modes := _modes e; _remo_mode := _remo_mode e;
     _attr_target_temperature := _attr_target_temperature e;
     _attr_hvac_mode := _attr_hvac_mode e; _attr_fan_mode := _attr_fan_mode e;
     _attr_swing_mode := _attr_swing_mode e;
     _attr_temperature_unit := _attr_temperature_unit e;
     _updated_at := _updated_at e;
     _last_target_temperature := _last_target_temperature e;
     _next_settings := v; _post_cancel := _post_cancel e |}.

Definition set_post_cancel (v : option nat) (e : AirconEntity) :=
  {| _remo_id := _remo_id e; _modes := _modes e; _remo_mode := _remo_mode e;
     _attr_target_temperature := _attr_target_temperature e;
     _attr_hvac_mode := _attr_hvac_mode e; _attr_fan_mode := _attr_fan_mode e;
     _attr_swing_mode := _attr_swing_mode e;
     _attr_temperature_unit := _attr_temperature_unit e;
     _updated_at := _updated_at e;
     _last_target_temperature := _last_target_temperature e;
     _next_settings := _next_settings e; _post_cancel := v |}.

Definition with_class_last_target_temperature (v : gmap string string)
    (w : World) :=
  {| class_last_target_temperature := v; entities := entities w;
     timers := timers w; next_handle := next_handle w; now := now w;
     posted := posted w; device_listeners := device_listeners w |}.

Definition with_entities (v : gmap string AirconEntity) (w : World) :=
  {| class_last_target_temperature := class_last_target_temperature w;
     entities := v;
     timers := timers w; next_handle := next_handle w; now := now w;
     posted := posted w; device_listeners := device_listeners w |}.

Definition with_timers (v : list Timer) (w : World) :=
  {| class_last_target_temperature := class_last_target_temperature w;
     entities := entities w;
     timers := v; next_handle := next_handle w; now := now w;
     posted := posted w; device_listeners := device_listeners w |}.

Definition with_next_handle (v : nat) (w : World) :=
  {| class_last_target_temperature := class_last_target_temperature w;
     entities := entities w;
     timers := timers w; next_handle := v; now := now w;
     posted := posted w; device_listeners := device_listeners w |}.

Definition with_now (v : nat) (w : World) :=
  {| class_last_target_temperature := class_last_target_temperature w;
     entities := entities w;
     timers := timers w; next_handle := next_handle w; now := v;
     posted := posted w; device_listeners := device_listeners w |}.

Definition with_posted (v : list (string * option (gmap string value)))
    (w : World) :=
  {| class_last_target_temperature := class_last_target_temperature w;
     entities := entities w;
     timers := timers w; next_handle := next_handle w; now := now w;
     posted := v; device_listeners := device_listeners w |}.

Definition with_device_listeners (v : gset string) (w : World) :=
  {| class_last_target_temperature := class_last_target_temperature w;
     entities := entities w;
     timers := timers w; next_handle := next_handle w; now := now w;
     posted := posted w; device_listeners := v |}.

(** ** The monad of methods: world state and exceptions *)

Inductive exn :=
  | KeyError (key : string)
  | ValueError
  | OverflowError
  | ReferenceError.

Inductive outcome (A : Type) :=
  | Ok (a : A)
  | Raise (e : exn).
Arguments Ok {A} a.
Arguments Raise {A} e.

Definition M (A : Type) : Type := World -> outcome A * World.

#[global] Instance M_ret : MRet M := fun A a w => (Ok a, w).

#[global] Instance M_bind : MBind M := fun A B f m w =>
  match m w with
  | (Ok a, w') => f a w'
  | (Raise e, w') => (Raise e, w')
  end.

Definition raise {A} (e : exn) : M A := fun w => (Raise e, w).

Definition get_world : M World := fun w => (Ok w, w).

Definition modify_world (f : World -> World) : M unit := fun w => (Ok tt, f w).

(** [d[k]] *)
Definition getitem {A} (d : gmap string A) (k : string) : M A :=
  match d !! k with
  | Some v => mret v
  | None => raise (KeyError k)
  end.

(** A lookup in one of the tables of the module. *)
Definition table {A} (o : option A) (k : string) : M A :=
  match o with
  | Some v => mret v
  | None => raise (KeyError k)
  end.

(** [s or None] *)
Definition or_None (s : string) : option string :=
  if decide (s = "") then None else Some s.

(** The instance [self]; a method is only ever called on an instance
    that exists. *)
Definition self_get (self : string) : M AirconEntity := fun w =>
  match entities w !! self with
  | Some e => (Ok e, w)
  | None => (Raise ReferenceError, w)
  end.

(** [self.attr = v], for the assignment [f] of one attribute. *)
Definition self_set (self : string) (f : AirconEntity -> AirconEntity)
  : M unit :=
  e ← self_get self;
  modify_world (fun w => with_entities (<[self := f e]> (entities w)) w).

(** [self._last_target_temperature]: the instance attribute when the
    instance has one, the class attribute otherwise. *)
Definition last_target_temperature_of (w : World) (e : AirconEntity)
  : gmap string string :=
  match _last_target_temperature e with
  | Some d => d
  | None => class_last_target_temperature w
  end.

Definition self_last_target_temperature (self : string)
  : M (gmap string string) :=
  e ← self_get self;
  w ← get_world;
  mret (last_target_temperature_of w e).

(** [self._last_target_temperature[k] = v]: the dict that the attribute
    lookup finds is updated in place. *)
Definition setitem_last_target_temperature (self k v : string) : M unit :=
  e ← self_get self;
  match _last_target_temperature e with
  | Some d => self_set self (set_last_target_temperature (Some (<[k := v]> d)))
  | None =>
      modify_world (fun w =>
        with_class_last_target_temperature
          (<[k := v]> (class_last_target_temperature w)) w)
  end.

(** ** The event loop *)

(** [async_call_later(hass, timedelta(milliseconds=100), self._on_post)]:
    returns the handle by which the call is cancelled. *)
Definition async_call_later (delay : nat) (self : string) : M nat := fun w =>
  let h := next_handle w in
  (Ok h,
   with_next_handle (S h)
     (with_timers
        (timers w ++ [{| handle := h; due := (now w + delay)%nat;
                         owner := self |}]) w)).

(** Calling the handle cancels the scheduled call. *)
Definition cancel (h : nat) : M unit :=
  modify_world (fun w =>
    with_timers (filter (fun t => handle t ≠ h) (timers w)) w).

(** ** The capability resolver *)

Definition _current_mode_temp_range (e : AirconEntity) : outcome (list float) :=
  match _remo_mode e with
  | None => Raise (KeyError "None")
  | Some mode =>
      match _modes e !! mode with
      | None => Raise (KeyError mode)
      | Some r =>
          match mapM PyFloat.of_str (filter (fun s => s ≠ "") (temp r)) with
          | Some xs => Ok xs
          | None => Raise ValueError
          end
      end
  end.

Definition min_temp (e : AirconEntity) : outcome number :=
  match _current_mode_temp_range e with
  | Raise x => Raise x
  | Ok [] => Ok (NInt 0)
  | Ok (x :: xs) => Ok (NFloat (py_min x xs))
  end.

Definition max_temp (e : AirconEntity) : outcome number :=
  match _current_mode_temp_range e with
  | Raise x => Raise x
  | Ok [] => Ok (NInt 0)
  | Ok (x :: xs) => Ok (NFloat (py_max x xs))
  end.

Definition one : float := Eval vm_compute in PyFloat.of_Z 1.
Definition half : float := Eval vm_compute in PyFloat.of_decimal false 5 (-1).

Definition target_temperature_step (e : AirconEntity) : outcome number :=
  match _current_mode_temp_range e with
  | Raise x => Raise x
  | Ok (t0 :: t1 :: _) =>
      let step := PyFloat.round1 (PyFloat.sub t1 t0) in
      if (PyFloat.eqb step one || PyFloat.eqb step half)%bool
      then Ok (NFloat step)
      else Ok (NInt 1)
  | Ok _ => Ok (NInt 1)
  end.

(** [hvac_modes], for [remo_modes] the keys of [self._modes] in the order
    the dict lists them: each key translated, then [HVACMode.OFF]. *)
Fixpoint translate_modes (remo_modes : list string) : outcome (list HVACMode) :=
  match remo_modes with
  | [] => Ok []
  | k :: r =>
      match MODE_REMO_TO_HA k with
      | None => Raise (KeyError k)
      | Some m =>
          match translate_modes r with
          | Ok ms => Ok (m :: ms)
          | Raise x => Raise x
          end
      end
  end.

Definition hvac_modes (remo_modes : list string) : outcome (list HVACMode) :=
  match translate_modes remo_modes with
  | Ok ms => Ok (ms ++ [OFF])
  | Raise x => Raise x
  end.

Definition fan_modes (e : AirconEntity) : outcome (list string) :=
  match _remo_mode e with
  | None => Raise (KeyError "None")
  | Some mode =>
      match _modes e !! mode with
      | None => Raise (KeyError mode)
      | Some r => Ok (vol r)
      end
  end.

Definition swing_modes (e : AirconEntity) : outcome (list string) :=
  match _remo_mode e with
  | None => Raise (KeyError "None")
  | Some mode =>
      match _modes e !! mode with
      | None => Raise (KeyError mode)
      | Some r => Ok (dir r)
      end
  end.

(** The values of [extra_state_attributes]: the dict of targets, and the
    time of the last update or [None]. *)
Inductive attribute :=
  | Targets (d : gmap string string)
  | UpdatedAt (a : option string).

(** [extra_state_attributes] *)
Definition extra_state_attributes (self : string)
  : M (gmap string attribute) :=
  d ← self_last_target_temperature self;
  e ← self_get self;
  mret ({[ "previous_target_temperature" := Targets d;
           "updated_at" := UpdatedAt (_updated_at e) ]}
        : gmap string attribute).

(** ** The settings reconciler and the debounced dispatch *)

Definition _set_settings (self : string) (data : gmap string value) : M unit :=
  e ← self_get self;
  match _next_settings e with
  | None => self_set self (set_next_settings (Some data))
  | Some d => self_set self (set_next_settings (Some (data ∪ d)))
  end;;
  match _post_cancel e with
  | Some h => cancel h
  | None => mret tt
  end;;
  h ← async_call_later 100 self;
  self_set self (set_post_cancel (Some h)).

(** The fields that the [hvac_mode] branch of [set_temperature] stages. *)
Definition stage_hvac_mode (self : string) (hvac_mode : HVACMode)
  : M (gmap string value) :=
  mode ← table (MODE_HA_TO_REMO hvac_mode) "hvac_mode";
  if decide (mode = "power-off") then
    mret {[ "button" := VStr mode ]}
  else
    d ← self_last_target_temperature self;
    let data : gmap string value := {[ "operation_mode" := VStr mode ]} in
    let default :=
      match DEFAULT_TEMP hvac_mode with
      | Some n => if decide (n = 0) then data else <["temperature" := VInt n]> data
      | None => data
      end in
    match d !! mode with
    | Some t =>
        if decide (t = "") then mret default
        else mret (<["temperature" := VStr t]> data)
    | None => mret default
    end.

(** The string staged for a commanded temperature: the f-string of the
    int when the float is whole, of the float otherwise. *)
Definition stage_temperature (temperature : float) : M string :=
  if PyFloat.is_integer temperature then
    match PyFloat.to_int temperature with
    | Some n => mret (PyFloat.str_of_int n)
    | None => raise OverflowError
    end
  else mret (PyFloat.repr temperature).

(** The dict [data] that [set_temperature] builds. *)
Definition set_temperature_data (self : string)
    (temperature : option float) (hvac_mode : option HVACMode)
  : M (gmap string value) :=
  data ← match hvac_mode with
         | Some m => stage_hvac_mode self m
         | None => mret ∅
         end;
  match temperature with
  | Some t =>
      s ← stage_temperature t;
      mret (<["temperature" := VStr s]> data)
  | None => mret data
  end.

Definition set_temperature (self : string)
    (temperature : option float) (hvac_mode : option HVACMode) : M unit :=
  data ← set_temperature_data self temperature hvac_mode;
  _set_settings self data.

Definition set_hvac_mode (self : string) (hvac_mode : HVACMode) : M unit :=
  set_temperature self None (Some hvac_mode).

Definition set_fan_mode (self : string) (fan_mode : string) : M unit :=
  _set_settings self {[ "air_volume" := VStr fan_mode ]}.

Definition set_swing_mode (self : string) (swing_mode : string) : M unit :=
  _set_settings self {[ "air_direction" := VStr swing_mode ]}.

Definition _on_settings_update (self : string) (ac_settings : gmap string string)
  : M unit :=
  mode ← getitem ac_settings "mode";
  self_set self (set_remo_mode (Some mode));;
  match ac_settings !! "temp" with
  | Some t =>
      match PyFloat.of_str t with
      | Some x =>
          self_set self (set_attr_target_temperature (Some x));;
          setitem_last_target_temperature self mode t
      | None => self_set self (set_attr_target_temperature None)
      end
  | None => self_set self (set_attr_target_temperature None)
  end;;
  button ← getitem ac_settings "button";
  (if decide (button = "power-off") then
     self_set self (set_attr_hvac_mode (Some OFF))
   else
     m ← table (MODE_REMO_TO_HA mode) mode;
     self_set self (set_attr_hvac_mode (Some m)));;
  v ← getitem ac_settings "vol";
  self_set self (set_attr_fan_mode (or_None v));;
  d ← getitem ac_settings "dir";
  self_set self (set_attr_swing_mode (or_None d));;
  u ← getitem ac_settings "temp_unit";
  unit ← table (TEMP_UNIT_REMO_TO_HA u) u;
  self_set self (set_attr_temperature_unit (Some unit));;
  a ← getitem ac_settings "updated_at";
  self_set self (set_updated_at (or_None a)).

(** [_on_post] up to its [await]: the request is handed to the transport. *)
Definition _on_post (self : string) : M unit :=
  self_set self (set_post_cancel None);;
  e ← self_get self;
  let data := _next_settings e in
  self_set self (set_next_settings None);;
  modify_world (fun w =>
    with_posted
      (posted w ++ [("appliances/" +:+ _remo_id e +:+ "/aircon_settings", data)])
      w).

(** [_on_post] from its [await] on, once the transport has answered with
    [ac_settings]. *)
Definition _on_post_resume (self : string) (ac_settings : gmap string string)
  : M unit :=
  _on_settings_update self ac_settings.

(** [async_added_to_hass]: [attributes] are those of the last state the
    host restores, if any. *)
Definition async_added_to_hass (self : string)
    (attributes : option (gmap string (gmap string string))) : M unit :=
  match attributes with
  | Some a =>
      d ← getitem a "previous_target_temperature";
      self_set self (set_last_target_temperature (Some d))
  | None => mret tt
  end.

(** [__init__], for the appliance record the coordinator supplies. The
    base class [NatureEntity] is taken to keep the appliance id as
    [_remo_id]; its [_on_data_update] and the telemetry that
    [_on_device_update] reads touch no attribute kept here. *)
Record Appliance := {
  id : string;
  range_modes : gmap string ModeRange;
  settings : gmap string string;
}.

Definition init (appliance : Appliance) : M unit :=
  let self := id appliance in
  modify_world (fun w =>
    with_entities
      (<[self := {| _remo_id := self; _modes := range_modes appliance;
                    _remo_mode := None; _attr_target_temperature := None;
                    _attr_hvac_mode := None; _attr_fan_mode := None;
                    _attr_swing_mode := None; _attr_temperature_unit := None;
                    _updated_at := None; _last_target_temperature := None;
                    _next_settings := None; _post_cancel := None |}]>
         (entities w)) w);;
  modify_world (fun w =>
    with_device_listeners ({[self]} ∪ device_listeners w) w);;
  _on_settings_update self (settings appliance).

(** ** The host

    The host drives the entity: it calls the command methods, lets time
    pass on the event loop, delivers the answers of the transport, and
    removes entities. *)

(** One millisecond passes: the calls that are due run in the order they
    were scheduled, and leave the loop. *)
Definition tick (w : World) : World :=
  let t := S (now w) in
  let ready := filter (fun c => due c ≤ t)%nat (timers w) in
  let later := filter (fun c => ¬ (due c ≤ t)%nat) (timers w) in
  fold_left (fun w c => snd (_on_post (owner c) w)) ready
            (with_now t (with_timers later w)).

(** The removal of an entity runs the callbacks it registered with
    [async_on_remove]; the constructor registers one, which unsubscribes
    [_on_device_update] from the device coordinator. *)
Definition async_remove (self : string) : M unit :=
  modify_world (fun w =>
    with_device_listeners (device_listeners w ∖ {[self]}) w).

Inductive command :=
  | SetTemperature (temperature : option float) (hvac_mode : option HVACMode)
  | SetHvacMode (hvac_mode : HVACMode)
  | SetFanMode (fan_mode : string)
  | SetSwingMode (swing_mode : string).

Definition issue (self : string) (c : command) : M unit :=
  match c with
  | SetTemperature t m => set_temperature self t m
  | SetHvacMode m => set_hvac_mode self m
  | SetFanMode f => set_fan_mode self f
  | SetSwingMode s => set_swing_mode self s
  end.

Inductive event :=
  | Command (self : string) (c : command)
  | Tick
  | Response (self : string) (ac_settings : gmap string string)
  | Remove (self : string).

(** An exception raised by a method is logged by the host, and the loop
    goes on from the state the method left. *)
Definition exec (w : World) (ev : event) : World :=
  match ev with
  | Command self c => snd (issue self c w)
  | Tick => tick w
  | Response self ac_settings => snd (_on_post_resume self ac_settings w)
  | Remove self => snd (async_remove self w)
  end.

Definition run (evs : list event) (w : World) : World :=
  fold_left exec evs w.

Definition ticks (n : nat) : list event := repeat Tick n.

(** The world before any entity is constructed. *)
Definition fresh : World :=
  {| class_last_target_temperature := ∅; entities := ∅; timers := [];
     next_handle := 0%nat; now := 0%nat; posted := [];
     device_listeners := ∅ |}.

(** The platform is set up: each appliance is constructed, then added to
    the host with the attributes of the state the host restores for it,
    if any. An instance whose construction or restoration raises stays as
    the exception left it. *)
Definition setup
    (apps : list (Appliance * option (gmap string (gmap string string))))
  : World :=
  fold_left
    (fun w a => snd (async_added_to_hass (id (fst a)) (snd a) (snd (init (fst a) w))))
    apps fresh.

(** * The vocabulary of the properties *)

(** ** Worlds, and what a method keeps *)

(** [upd self e w] is the world [w] with the instance [self] set to [e]. *)
Definition upd (self : string) (e : AirconEntity) (w : World) : World :=
  with_entities (<[self := e]> (entities w)) w.

(** The method [m] keeps the property [P] of the world, whether it returns
    or raises. *)
Definition preserves {A} (P : World -> Prop) (m : M A) : Prop :=
  forall w, P w -> P (snd (m w)).

(** What [_last_target_temperature] holds, for the class and for every
    instance. *)
Definition targets_view (w : World)
  : gmap string string * gmap string (option (gmap string string)) :=
  (class_last_target_temperature w,
   _last_target_temperature <$> entities w).

(** The method [m] writes to no [_last_target_temperature]. *)
Definition keeps_targets {A} (m : M A) : Prop :=
  forall v, preserves (fun w => targets_view w = v) m.

(** The targets as the instance [self] reads them. *)
Definition targets_read (self : string) (w : World)
  : outcome (gmap string string) :=
  match entities w !! self with
  | Some e => Ok (last_target_temperature_of w e)
  | None => Raise ReferenceError
  end.

(** What the entity [self] has recorded for [mode]. *)
Definition target_read (self mode : string) (w : World) : option string :=
  match targets_read self w with
  | Ok d => d !! mode
  | Raise _ => None
  end.

(** The world after [self._last_target_temperature[k] = t]. *)
Definition record_target (self k t : string) (e : AirconEntity) (w : World)
  : World :=
  match _last_target_temperature e with
  | Some d => upd self (set_last_target_temperature (Some (<[k := t]> d)) e) w
  | None =>
      upd self e
        (with_class_last_target_temperature
           (<[k := t]> (class_last_target_temperature w)) w)
  end.

(** Every target of the dict [d] is a string that [float] accepts. *)
Definition recorded_ok (d : gmap string string) : Prop :=
  forall k t, d !! k = Some t -> is_Some (PyFloat.of_str t).

Definition recorded_view
    (v : gmap string string * gmap string (option (gmap string string)))
  : Prop :=
  recorded_ok (fst v) /\
  forall self d, snd v !! self = Some (Some d) -> recorded_ok d.

(** Every target recorded in the world [w], by the class or by an
    instance, is a string that [float] accepts. *)
Definition recorded (w : World) : Prop := recorded_view (targets_view w).

(** ** What a command stages *)

(** The default temperature of the mode, added to [data]. *)
Definition default_fields (hvac_mode : HVACMode) (data : gmap string value)
  : gmap string value :=
  match DEFAULT_TEMP hvac_mode with
  | Some n => if decide (n = 0) then data else <["temperature" := VInt n]> data
  | None => data
  end.

(** The fields staged by a mode change, for an instance that reads the
    targets [d]. *)
Definition staged_hvac_mode (d : outcome (gmap string string))
    (hvac_mode : HVACMode) : outcome (gmap string value) :=
  match MODE_HA_TO_REMO hvac_mode with
  | None => Raise (KeyError "hvac_mode")
  | Some mode =>
      if decide (mode = "power-off") then Ok {[ "button" := VStr mode ]}
      else
        match d with
        | Raise x => Raise x
        | Ok d =>
            let data : gmap string value :=
              {[ "operation_mode" := VStr mode ]} in
            match d !! mode with
            | Some t =>
                if decide (t = "") then Ok (default_fields hvac_mode data)
                else Ok (<["temperature" := VStr t]> data)
            | None => Ok (default_fields hvac_mode data)
            end
        end
  end.

(** The string staged for the commanded temperature [t]. *)
Definition staged_temperature (t : float) : outcome string :=
  if PyFloat.is_integer t then
    match PyFloat.to_int t with
    | Some n => Ok (PyFloat.str_of_int n)
    | None => Raise OverflowError
    end
  else Ok (PyFloat.repr t).

(** The dict that [set_temperature] stages, for an instance that reads
    the targets [d]. *)
Definition staged_data (d : outcome (gmap string string))
    (temperature : option float) (hvac_mode : option HVACMode)
  : outcome (gmap string value) :=
  match match hvac_mode with
        | Some m => staged_hvac_mode d m
        | None => Ok ∅
        end with
  | Raise x => Raise x
  | Ok data =>
      match temperature with
      | Some t =>
          match staged_temperature t with
          | Ok s => Ok (<["temperature" := VStr s]> data)
          | Raise x => Raise x
          end
      | None => Ok data
      end
  end.

(** The fields that a command stages, for an instance whose recorded
    targets are [d]. *)
Definition staged (d : gmap string string) (c : command)
  : outcome (gmap string value) :=
  match c with
  | SetTemperature t m => staged_data (Ok d) t m
  | SetHvacMode m => staged_data (Ok d) None (Some m)
  | SetFanMode f => Ok {[ "air_volume" := VStr f ]}
  | SetSwingMode s => Ok {[ "air_direction" := VStr s ]}
  end.

(** The merge of staged fields in arrival order, as [dict.update] does it. *)
Definition merged (ds : list (gmap string value)) : gmap string value :=
  fold_left (fun acc d => d ∪ acc) ds ∅.

(** The value of the field [k] after the writes [ds], in arrival order:
    that of the last write that has the field. *)
Fixpoint last_write (k : string) (ds : list (gmap string value))
  : option value :=
  match ds with
  | [] => None
  | d :: r =>
      match last_write k r with
      | Some v => Some v
      | None => d !! k
      end
  end.

(** An int literal: an optional minus sign, then one digit or more. *)
Definition all_digits (l : list ascii) : bool :=
  match l with
  | [] => false
  | _ => forallb PyFloat.is_digit l
  end.

Definition int_literal (s : string) : bool :=
  match list_ascii_of_string s with
  | c :: r => if PyFloat.is_char "-" c then all_digits r else all_digits (c :: r)
  | [] => false
  end.

(** ** The states of the debounced dispatch *)

(** A first command, then each further command after fewer than 100 ms,
    then a quiet time. *)
Definition burst (self : string) (c0 : command) (rest : list (nat * command))
    (quiet : nat) : list event :=
  Command self c0
    :: flat_map (fun gc => ticks (fst gc) ++ [Command self (snd gc)]) rest
    ++ ticks quiet.

(** The path that [_on_post] posts to. *)
Definition request_path (e : AirconEntity) : string :=
  "appliances/" +:+ _remo_id e +:+ "/aircon_settings".

(** The instance [e] with the fields [acc] pending and the timer [h] armed. *)
Definition pending (acc : gmap string value) (h : nat) (e : AirconEntity)
  : AirconEntity :=
  set_post_cancel (Some h) (set_next_settings (Some acc) e).

(** The instance [e] with nothing pending. *)
Definition idle (e : AirconEntity) : AirconEntity :=
  set_next_settings None (set_post_cancel None e).

(** The world [w] is [w0] but for the clock and the handles: the instance
    [self] has [acc] pending and its timer, due at [d], is the only call
    scheduled. *)
Definition armed (w0 : World) (self : string) (e : AirconEntity)
    (acc : gmap string value) (d : nat) (w : World) : Prop :=
  exists h,
    entities w = <[self := pending acc h e]> (entities w0) /\
    timers w = [{| handle := h; due := d; owner := self |}] /\
    class_last_target_temperature w = class_last_target_temperature w0 /\
    posted w = posted w0.

(** The world [w] is [w0] but for the clock and the handles: nothing is
    pending or scheduled, and the requests [sent] were sent. *)
Definition settled (w0 : World) (self : string) (e : AirconEntity)
    (sent : list (string * option (gmap string value))) (w : World) : Prop :=
  entities w = <[self := idle e]> (entities w0) /\
  timers w = [] /\
  class_last_target_temperature w = class_last_target_temperature w0 /\
  posted w = posted w0 ++ sent.

(** ** Sample units *)

(** An instance in mode cool whose capability table lists [temps] for
    that mode. *)
Definition table_of (temps : list string) : AirconEntity :=
  {| _remo_id := "A";
     _modes := {[ "cool" := {| temp := temps; vol := []; dir := [] |} ]};
     _remo_mode := Some "cool"; _attr_target_temperature := None;
     _attr_hvac_mode := None; _attr_fan_mode := None;
     _attr_swing_mode := None; _attr_temperature_unit := None;
     _updated_at := None; _last_target_temperature := None;
     _next_settings := None; _post_cancel := None |}.

(** A settings object as the vendor API returns it. *)
Definition ac_settings_of (mode t : string) : gmap string string :=
  {[ "mode" := mode; "temp" := t; "button" := ""; "vol" := "auto";
     "dir" := ""; "temp_unit" := "c"; "updated_at" := "2024-01-01T00:00:00Z" ]}.

Definition modes_of_unit : gmap string ModeRange :=
  {[ "cool" := {| temp := ["18"; "19"; "20"]; vol := ["auto"]; dir := [""] |};
     "warm" := {| temp := ["18"; "19"; "20"]; vol := ["auto"]; dir := [""] |} ]}.

Definition living_room : Appliance :=
  {| id := "living"; range_modes := modes_of_unit;
     settings := ac_settings_of "warm" "20" |}.

Definition bedroom : Appliance :=
  {| id := "bedroom"; range_modes := modes_of_unit;
     settings := ac_settings_of "warm" "22" |}.

(** The living room constructed, with no state to restore. *)
Definition one_room : World := snd (init living_room fresh).

(** Both appliances constructed, with no state to restore. *)
Definition two_rooms : World :=
  snd (init bedroom (snd (init living_room fresh))).

(** The living room after a confirmed update, cool at 25. *)
Definition cooled : World :=
  snd (_on_settings_update "living" (ac_settings_of "cool" "25") one_room).

(** Temperature taps and a fan command, each fewer than 100 ms after the
    command before. *)
Definition temperature_taps : list (nat * command) :=
  [ (30%nat, SetTemperature (Some (PyFloat.of_Z 25)) None);
    (20%nat, SetTemperature (Some (PyFloat.of_decimal false 255 (-1))) None);
    (99%nat, SetFanMode "auto") ].

(** ** What a method leaves alone *)

(** The confirmed state of an instance: every attribute but the pending
    command and the handle of its timer. *)
Definition confirmed_of (e : AirconEntity) :=
  (_remo_id e, _modes e, _remo_mode e, _attr_target_temperature e,
   _attr_hvac_mode e, _attr_fan_mode e, _attr_swing_mode e,
   _attr_temperature_unit e, _updated_at e, _last_target_temperature e).

(** What a command must leave alone: the confirmed state of every
    instance, the targets of the class, the requests sent and the
    listeners. *)
Definition confirmed_view (w : World) :=
  (confirmed_of <$> entities w, class_last_target_temperature w, posted w,
   device_listeners w).

(** The pending command of an instance and the handle of its timer. *)
Definition pending_of (e : AirconEntity) := (_next_settings e, _post_cancel e).

(** What a confirmation must leave alone: the pending command of every
    instance, and the event loop. *)
Definition pending_view (w : World) :=
  (pending_of <$> entities w, timers w, next_handle w, now w, posted w,
   device_listeners w).

(** ** The pending fields and the event loop *)

(** The pending commands and the event loop agree: the calls on the loop
    have distinct handles, all handed out already; every call is the one
    whose handle its owner keeps in [_post_cancel]; every handle kept is
    that of a call on the loop; and an instance has a command pending
    exactly when it keeps a handle. The list [calls] is the calls on the
    loop. *)
Definition consistent_with (calls : list Timer) (w : World) : Prop :=
  NoDup (handle <$> calls) /\
  (forall t, t ∈ calls -> (handle t < next_handle w)%nat) /\
  (forall t, t ∈ calls ->
     exists e, entities w !! owner t = Some e /\
               _post_cancel e = Some (handle t)) /\
  (forall self e h,
     entities w !! self = Some e -> _post_cancel e = Some h ->
     exists t, t ∈ calls /\ handle t = h /\ owner t = self) /\
  (forall self e,
     entities w !! self = Some e ->
     (_next_settings e = None <-> _post_cancel e = None)).

Definition loop_consistent (w : World) : Prop := consistent_with (timers w) w.


(** Nothing is pending or scheduled. *)
Definition at_rest (w : World) : Prop :=
  timers w = [] /\
  forall self e, entities w !! self = Some e ->
    _next_settings e = None /\ _post_cancel e = None.

(** Every request sent carries fields. *)
Definition sends_fields (w : World) : Prop :=
  Forall (fun r => is_Some (snd r)) (posted w).

(** Every scheduled call is due within the next [k] ms. *)
Definition due_within (k : nat) (w : World) : Prop :=
  forall t, t ∈ timers w -> (now w < due t <= now w + k)%nat.

Definition is_command (ev : event) : bool :=
  match ev with Command _ _ => true | _ => false end.

Definition is_tick (ev : event) : bool :=
  match ev with Tick => true | _ => false end.

(** The time that passes during [evs], in ms. *)
Definition elapsed (evs : list event) : nat :=
  length (List.filter is_tick evs).

(** The command turns the unit off. *)
Definition turns_off (c : command) : bool :=
  match c with
  | SetTemperature _ (Some OFF) | SetHvacMode OFF => true
  | _ => false
  end.

(** The confirmed updates [updates] of the instance [self], in order. *)
Definition confirmations (self : string)
    (updates : list (gmap string string)) (w : World) : World :=
  fold_left (fun w ac_settings => snd (_on_settings_update self ac_settings w))
            updates w.

(** ** Saved states *)

(** The attributes of a saved state as [async_added_to_hass] reads them:
    it looks up dicts of targets only. *)
Definition restorable (attributes : gmap string attribute)
  : gmap string (gmap string string) :=
  omap (fun v => match v with Targets d => Some d | UpdatedAt _ => None end)
       attributes.

(** The attributes of a saved state of the bedroom. *)
Definition saved_attributes : gmap string (gmap string string) :=
  {[ "previous_target_temperature" := {[ "cool" := "26" ]} ]}.

(** Both appliances constructed, and the bedroom restored. *)
Definition bedroom_restored : World :=
  snd (async_added_to_hass "bedroom" (Some saved_attributes) two_rooms).

(** The settings of a unit that is switched off, in mode cool. *)
Definition switched_off : gmap string string :=
  <["button" := "power-off"]> (ac_settings_of "cool" "25").

(** The living room set up by the platform, with no state to restore. *)
Definition platform : World := setup [(living_room, None)].

(** * Properties *)

(** ** Reasoning about methods *)

Lemma upd_id self e w : entities w !! self = Some e -> upd self e w = w.
Proof.
  intros H. destruct w. unfold upd, with_entities. simpl in *.
  by rewrite insert_id.
Qed.

Lemma upd_upd self e1 e2 w : upd self e2 (upd self e1 w) = upd self e2 w.
Proof. unfold upd, with_entities. simpl. by rewrite insert_insert_eq. Qed.

Lemma lookup_upd self e w : entities (upd self e w) !! self = Some e.
Proof. apply lookup_insert_eq. Qed.

Lemma lookup_upd_ne self other e w :
  self ≠ other -> entities (upd self e w) !! other = entities w !! other.
Proof. intros. by apply lookup_insert_ne. Qed.

Lemma self_get_ok self e w :
  entities w !! self = Some e -> self_get self w = (Ok e, w).
Proof. intros H. unfold self_get. by rewrite H. Qed.

Lemma self_get_missing self w :
  entities w !! self = None -> self_get self w = (Raise ReferenceError, w).
Proof. intros H. unfold self_get. by rewrite H. Qed.

Lemma self_set_ok self f e w :
  entities w !! self = Some e -> self_set self f w = (Ok tt, upd self (f e) w).
Proof.
  intros H. unfold self_set, mbind, M_bind. by rewrite (self_get_ok _ _ _ H).
Qed.

Lemma self_set_missing self f w :
  entities w !! self = None -> self_set self f w = (Raise ReferenceError, w).
Proof.
  intros H. unfold self_set, mbind, M_bind. by rewrite (self_get_missing _ _ H).
Qed.

Lemma bind_eq {A B} (m : M A) (f : A -> M B) w :
  (m ≫= f) w =
  match m w with (Ok a, w') => f a w' | (Raise e, w') => (Raise e, w') end.
Proof. reflexivity. Qed.

Lemma bind_ok {A B} (m : M A) (f : A -> M B) w a w' :
  m w = (Ok a, w') -> (m ≫= f) w = f a w'.
Proof. intros H. by rewrite bind_eq, H. Qed.

Lemma bind_raise {A B} (m : M A) (f : A -> M B) w x w' :
  m w = (Raise x, w') -> (m ≫= f) w = (Raise x, w').
Proof. intros H. by rewrite bind_eq, H. Qed.

Lemma bind_assoc {A B C} (m : M A) (f : A -> M B) (g : B -> M C) w :
  ((m ≫= f) ≫= g) w = (m ≫= fun a => f a ≫= g) w.
Proof. rewrite !bind_eq. by destruct (m w) as [[a|x] w']. Qed.

(** *** Properties of the world that a method keeps *)

Section Preserves.
Context (P : World -> Prop).

Lemma preserves_ret {A} (a : A) : preserves P (mret a).
Proof. by intros w H. Qed.

Lemma preserves_raise {A} x : preserves P (raise (A := A) x).
Proof. by intros w H. Qed.

Lemma preserves_bind {A B} (m : M A) (f : A -> M B) :
  preserves P m -> (forall a, preserves P (f a)) -> preserves P (m ≫= f).
Proof.
  intros Hm Hf w H. rewrite bind_eq. specialize (Hm w H).
  destruct (m w) as [[a|x] w']; simpl in *; [by apply Hf | done].
Qed.

Lemma preserves_getitem {A} (d : gmap string A) k : preserves P (getitem d k).
Proof. unfold getitem. by destruct (d !! k); intros w H. Qed.

Lemma preserves_table {A} (o : option A) k : preserves P (table o k).
Proof. by destruct o; intros w H. Qed.

Lemma preserves_get_world : preserves P get_world.
Proof. by intros w H. Qed.

Lemma preserves_self_get self : preserves P (self_get self).
Proof. intros w H. unfold self_get. by destruct (entities w !! self). Qed.

Lemma preserves_modify_world f :
  (forall w, P w -> P (f w)) -> preserves P (modify_world f).
Proof. intros Hf w H. by apply Hf. Qed.

Lemma preserves_self_set self f :
  (forall w e, P w -> entities w !! self = Some e -> P (upd self (f e) w)) ->
  preserves P (self_set self f).
Proof.
  intros Hf w H. destruct (entities w !! self) as [e|] eqn:He.
  - rewrite (self_set_ok _ _ _ _ He). by apply Hf.
  - by rewrite (self_set_missing _ _ _ He).
Qed.

Lemma preserves_self_last_target_temperature self :
  preserves P (self_last_target_temperature self).
Proof.
  unfold self_last_target_temperature.
  apply preserves_bind; [apply preserves_self_get | intros e].
  apply preserves_bind; [apply preserves_get_world | intros w'].
  apply preserves_ret.
Qed.

Lemma preserves_stage_temperature t : preserves P (stage_temperature t).
Proof.
  unfold stage_temperature.
  destruct (is_integer t); [destruct (to_int t) |]; by intros w H.
Qed.

Lemma preserves_stage_hvac_mode self m : preserves P (stage_hvac_mode self m).
Proof.
  unfold stage_hvac_mode.
  apply preserves_bind; [apply preserves_table | intros mode].
  case_decide; [apply preserves_ret |].
  apply preserves_bind;
    [apply preserves_self_last_target_temperature | intros d].
  destruct (d !! mode); [case_decide |]; apply preserves_ret.
Qed.

Lemma preserves_set_temperature_data self t m :
  preserves P (set_temperature_data self t m).
Proof.
  unfold set_temperature_data.
  apply preserves_bind.
  - destruct m; [apply preserves_stage_hvac_mode | apply preserves_ret].
  - intros data. destruct t as [x|]; [| apply preserves_ret].
    apply preserves_bind; [apply preserves_stage_temperature | intros str].
    apply preserves_ret.
Qed.
End Preserves.

(** The parts of a method that neither read nor write the property at
    hand are walked through by [preserve]. *)
Ltac preserve_step :=
  lazymatch goal with
  | |- preserves _ (mret _) => apply preserves_ret
  | |- preserves _ (raise _) => apply preserves_raise
  | |- preserves _ (getitem _ _) => apply preserves_getitem
  | |- preserves _ (table _ _) => apply preserves_table
  | |- preserves _ get_world => apply preserves_get_world
  | |- preserves _ (self_get _) => apply preserves_self_get
  | |- preserves _ (self_last_target_temperature _) =>
      apply preserves_self_last_target_temperature
  | |- preserves _ (set_temperature_data _ _ _) =>
      apply preserves_set_temperature_data
  | |- preserves _ (mbind _ _) => apply preserves_bind; [| intros ?]
  | |- preserves _ (match ?x with _ => _ end) => destruct x eqn:?
  end.

Ltac preserve := repeat preserve_step.

(** ** The recorded targets and what may change them *)

Lemma targets_view_upd self e e' w :
  entities w !! self = Some e ->
  _last_target_temperature e' = _last_target_temperature e ->
  targets_view (upd self e' w) = targets_view w.
Proof.
  intros He Heq. unfold targets_view, upd. simpl. f_equal.
  rewrite fmap_insert. apply insert_id.
  by rewrite lookup_fmap, He, Heq.
Qed.

Lemma targets_view_lookup w w' self e' :
  targets_view w' = targets_view w ->
  entities w' !! self = Some e' ->
  exists e, entities w !! self = Some e /\
            last_target_temperature_of w' e' = last_target_temperature_of w e.
Proof.
  unfold targets_view. intros [= Hc Hm] He'.
  assert (H := f_equal (fun m => m !! self) Hm). simpl in H.
  rewrite !lookup_fmap, He' in H.
  destruct (entities w !! self) as [e|]; [| done].
  exists e. split; [done |]. simpl in H. injection H as H.
  unfold last_target_temperature_of. by rewrite H, Hc.
Qed.

Lemma keeps_targets_eq {A} (m : M A) w :
  keeps_targets m -> targets_view (snd (m w)) = targets_view w.
Proof. intros H. by apply (H (targets_view w) w). Qed.

Lemma preserves_view {A} (Q : _ -> Prop) (m : M A) :
  keeps_targets m -> preserves (fun w => Q (targets_view w)) m.
Proof. intros H w HQ. by rewrite (keeps_targets_eq _ _ H). Qed.

Lemma keeps_targets_self_set self f :
  (forall e, _last_target_temperature (f e) = _last_target_temperature e) ->
  keeps_targets (self_set self f).
Proof.
  intros Hf v. apply preserves_self_set. intros w e <- He.
  by apply (targets_view_upd _ e).
Qed.

Lemma keeps_targets_modify_world f :
  (forall w, class_last_target_temperature (f w) = class_last_target_temperature w) ->
  (forall w, entities (f w) = entities w) ->
  keeps_targets (modify_world f).
Proof.
  intros Hc He v. apply preserves_modify_world. intros w <-.
  unfold targets_view. by rewrite Hc, He.
Qed.

Lemma keeps_targets_async_call_later delay self :
  keeps_targets (async_call_later delay self).
Proof. by intros v w <-. Qed.

Lemma keeps_targets_cancel h : keeps_targets (cancel h).
Proof. by apply keeps_targets_modify_world. Qed.

Ltac keep :=
  preserve;
  try first
    [ by apply keeps_targets_self_set
    | by apply keeps_targets_modify_world
    | apply keeps_targets_async_call_later
    | apply keeps_targets_cancel ].

Lemma keeps_targets__set_settings self data :
  keeps_targets (_set_settings self data).
Proof. intros v. unfold _set_settings. keep. Qed.

Lemma keeps_targets_set_temperature self t m :
  keeps_targets (set_temperature self t m).
Proof.
  intros v. unfold set_temperature. keep. apply keeps_targets__set_settings.
Qed.

Lemma keeps_targets_issue self c : keeps_targets (issue self c).
Proof.
  destruct c; simpl;
    first [ apply keeps_targets_set_temperature
          | apply keeps_targets__set_settings ].
Qed.

Lemma keeps_targets__on_post self : keeps_targets (_on_post self).
Proof. intros v. unfold _on_post. keep. Qed.

Lemma keeps_targets_async_remove self : keeps_targets (async_remove self).
Proof. intros v. unfold async_remove. keep. Qed.

Lemma targets_view_tick w : targets_view (tick w) = targets_view w.
Proof.
  unfold tick.
  set (w1 := with_now _ _).
  change (targets_view w) with (targets_view w1).
  generalize w1. clear w1.
  induction (filter _ (timers w)) as [|c l IH]; intros w1; simpl; [done |].
  rewrite IH. apply keeps_targets_eq, keeps_targets__on_post.
Qed.

(** A confirmed update whose [temp] does not parse keeps the targets. *)
Lemma keeps_targets__on_settings_update self ac_settings :
  ac_settings !! "temp" ≫= PyFloat.of_str = None ->
  keeps_targets (_on_settings_update self ac_settings).
Proof.
  intros Htemp v. unfold _on_settings_update.
  destruct (ac_settings !! "temp") as [t|] eqn:Ht; simpl in Htemp.
  - rewrite Htemp. keep.
  - keep.
Qed.

(** *** What a command stages

    The fields staged by a command depend on the world through the
    targets of the instance only, and staging changes nothing. *)

Lemma self_last_target_temperature_eq self w :
  self_last_target_temperature self w = (targets_read self w, w).
Proof.
  unfold self_last_target_temperature, targets_read. rewrite bind_eq.
  unfold self_get. by destruct (entities w !! self).
Qed.

Lemma stage_hvac_mode_eq self m w :
  stage_hvac_mode self m w = (staged_hvac_mode (targets_read self w) m, w).
Proof.
  unfold stage_hvac_mode, staged_hvac_mode. rewrite bind_eq.
  destruct (MODE_HA_TO_REMO m) as [mode|]; simpl; [| done].
  case_decide; [done |].
  rewrite bind_eq, self_last_target_temperature_eq.
  destruct (targets_read self w) as [d|x]; [| done].
  fold (default_fields m {[ "operation_mode" := VStr mode ]}).
  destruct (d !! mode); [by case_decide | done].
Qed.

Lemma stage_temperature_eq t w :
  stage_temperature t w = (staged_temperature t, w).
Proof.
  unfold stage_temperature, staged_temperature.
  destruct (is_integer t); [destruct (to_int t) |]; done.
Qed.

Lemma set_temperature_data_eq self t m w :
  set_temperature_data self t m w =
  (staged_data (targets_read self w) t m, w).
Proof.
  unfold set_temperature_data, staged_data. rewrite bind_eq.
  assert ((match m with
           | Some m0 => stage_hvac_mode self m0
           | None => mret ∅
           end) w =
          (match m with
           | Some m0 => staged_hvac_mode (targets_read self w) m0
           | None => Ok ∅
           end, w)) as ->.
  { destruct m; [apply stage_hvac_mode_eq | done]. }
  destruct (match m with Some _ => _ | None => _ end) as [data|x]; [| done].
  destruct t as [x|]; [| done].
  rewrite bind_eq, stage_temperature_eq.
  by destruct (staged_temperature x).
Qed.

Lemma targets_read_same_targets self w w' :
  targets_view w' = targets_view w -> targets_read self w' = targets_read self w.
Proof.
  intros Hv. unfold targets_read.
  destruct (entities w' !! self) as [e'|] eqn:He'.
  - by destruct (targets_view_lookup _ _ _ _ Hv He') as (e & -> & ->).
  - assert (H := f_equal (fun v => snd v !! self) Hv). simpl in H.
    rewrite !lookup_fmap, He' in H.
    by destruct (entities w !! self).
Qed.

(** *** Every recorded target is a string that [float] accepts *)

Lemma recorded_ok_insert d k t x :
  PyFloat.of_str t = Some x -> recorded_ok d -> recorded_ok (<[k := t]> d).
Proof.
  intros Ht Hd k' t'. rewrite lookup_insert. case_decide.
  - intros [= <-]. by rewrite Ht.
  - apply Hd.
Qed.

Lemma recorded_fresh : recorded fresh.
Proof.
  split; [by intros k t |]. intros self d. simpl.
  by rewrite fmap_empty, lookup_empty.
Qed.

Lemma recorded_read w self d :
  recorded w -> targets_read self w = Ok d -> recorded_ok d.
Proof.
  intros [Hc He]. unfold targets_read, last_target_temperature_of.
  destruct (entities w !! self) as [e|] eqn:Hs; [| done].
  destruct (_last_target_temperature e) as [d'|] eqn:Hd; intros [= <-].
  - apply (He self). simpl. by rewrite lookup_fmap, Hs, <-Hd.
  - apply Hc.
Qed.

Lemma preserves_recorded_setitem self k t x :
  PyFloat.of_str t = Some x ->
  preserves recorded (setitem_last_target_temperature self k t).
Proof.
  intros Ht w Hw. unfold setitem_last_target_temperature. rewrite bind_eq.
  destruct (entities w !! self) as [e|] eqn:He;
    [rewrite (self_get_ok _ _ _ He) | by rewrite (self_get_missing _ _ He)].
  destruct Hw as [Hc Hi].
  destruct (_last_target_temperature e) as [d|] eqn:Hd.
  - rewrite (self_set_ok _ _ _ _ He). split; [done |].
    intros self' d'. simpl. rewrite fmap_insert, lookup_insert.
    case_decide as Hs.
    + intros [= <-]. apply (recorded_ok_insert _ _ _ _ Ht).
      apply (Hi self). simpl. by rewrite lookup_fmap, He, <-Hd.
    + apply Hi.
  - split; [| done]. simpl. by apply (recorded_ok_insert _ _ _ x).
Qed.

Lemma preserves_recorded__on_settings_update self ac_settings :
  preserves recorded (_on_settings_update self ac_settings).
Proof.
  unfold _on_settings_update. preserve;
    try (apply (preserves_view recorded_view);
         by apply keeps_targets_self_set).
  by eapply preserves_recorded_setitem.
Qed.

Lemma preserves_recorded_async_added_to_hass self a d :
  a !! "previous_target_temperature" = Some d -> recorded_ok d ->
  preserves recorded (async_added_to_hass self (Some a)).
Proof.
  intros Ha Hd w Hw. unfold async_added_to_hass, getitem. rewrite Ha.
  change (recorded
            (snd (self_set self (set_last_target_temperature (Some d)) w))).
  revert w Hw. apply preserves_self_set. intros w e [Hc Hi] He.
  split; [done |].
  intros self' d'. simpl. rewrite fmap_insert, lookup_insert.
  case_decide; [by intros [= <-] | apply Hi].
Qed.

Lemma recorded_exec w ev : recorded w -> recorded (exec w ev).
Proof.
  destruct ev as [self c| |self s|self]; simpl.
  - apply (preserves_view recorded_view _ (keeps_targets_issue self c)).
  - unfold recorded. by rewrite targets_view_tick.
  - apply preserves_recorded__on_settings_update.
  - apply (preserves_view recorded_view _ (keeps_targets_async_remove self)).
Qed.

Lemma recorded_run evs w : recorded w -> recorded (run evs w).
Proof.
  revert w. induction evs as [|ev evs IH]; intros w Hw; simpl; [done |].
  by apply IH, recorded_exec.
Qed.

Lemma recorded_init appliance : preserves recorded (init appliance).
Proof.
  unfold init.
  apply preserves_bind; [| intros _; apply preserves_bind; [| intros _]].
  - apply preserves_modify_world. intros w [Hc Hi]. split; [done |].
    intros self d. simpl. rewrite fmap_insert, lookup_insert.
    case_decide; [done | apply Hi].
  - apply (preserves_view recorded_view).
    by apply keeps_targets_modify_world.
  - apply preserves_recorded__on_settings_update.
Qed.

Lemma of_str_empty : PyFloat.of_str "" = None.
Proof. reflexivity. Qed.

(** ** Mode change without a temperature (C4) *)

(** C4. A command that changes the HVAC mode to a mode other than off,
    with no target temperature, stages the vendor mode as
    [operation_mode] and, as [temperature], the target recorded for that
    vendor mode when there is one, and the default 23 otherwise. The
    recorded targets are those the entity itself recorded: strings that
    [float] accepted, a property every method keeps ([recorded_exec],
    [recorded_init]). *)
Theorem C4_mode_change_stages_recorded_or_default
    (w : World) (self : string) (e : AirconEntity)
    (hvac_mode : HVACMode) (mode : string) :
  recorded w ->
  entities w !! self = Some e ->
  MODE_HA_TO_REMO hvac_mode = Some mode ->
  mode ≠ "power-off" ->
  exists data,
    set_temperature_data self None (Some hvac_mode) w = (Ok data, w) /\
    set_temperature self None (Some hvac_mode) w = _set_settings self data w /\
    data !! "operation_mode" = Some (VStr mode) /\
    data !! "temperature" =
      Some match last_target_temperature_of w e !! mode with
           | Some t => VStr t
           | None => VInt 23
           end.
Proof.
  intros Hw He Hm Hoff.
  assert (Hd : DEFAULT_TEMP hvac_mode = Some 23).
  { destruct hvac_mode; simpl in *; congruence. }
  assert (Hr : targets_read self w = Ok (last_target_temperature_of w e)).
  { unfold targets_read. by rewrite He. }
  assert (Hok := recorded_read _ _ _ Hw Hr).
  pose (data0 := {[ "operation_mode" := VStr mode ]} : gmap string value).
  exists (match last_target_temperature_of w e !! mode with
          | Some t => <["temperature" := VStr t]> data0
          | None => <["temperature" := VInt 23]> data0
          end).
  assert (Hdata :
    set_temperature_data self None (Some hvac_mode) w =
    (Ok match last_target_temperature_of w e !! mode with
        | Some t => <["temperature" := VStr t]> data0
        | None => <["temperature" := VInt 23]> data0
        end, w)).
  { rewrite set_temperature_data_eq, Hr. unfold staged_data, staged_hvac_mode.
    rewrite Hm. rewrite decide_False by done.
    unfold default_fields. rewrite Hd. simpl.
    destruct (last_target_temperature_of w e !! mode) as [t|] eqn:Ht; [| done].
    rewrite decide_False; [done |].
    intros ->. destruct (Hok _ _ Ht) as [x Hx]. by rewrite of_str_empty in Hx. }
  split; [done |]. split.
  { unfold set_temperature. by rewrite bind_eq, Hdata. }
  destruct (last_target_temperature_of w e !! mode); subst data0;
    by rewrite lookup_insert_ne, ?lookup_insert_eq, ?lookup_singleton_eq.
Qed.

(** ** A confirmed update whose temperature does not parse (C10) *)

(** C10. When the [temp] of a confirmed update is missing or is not
    accepted by [float], the update leaves every [_last_target_temperature]
    as it was, the dict of the class and that of each instance, whether or
    not the update then fails on another field; so what a later mode change
    stages, for any instance and any mode, is what it staged before. *)
Theorem C10_unparsed_temp_keeps_targets
    (w : World) (self : string) (ac_settings : gmap string string) :
  ac_settings !! "temp" ≫= PyFloat.of_str = None ->
  let w' := snd (_on_settings_update self ac_settings w) in
  class_last_target_temperature w' = class_last_target_temperature w /\
  (forall other,
     _last_target_temperature <$> entities w' !! other =
     _last_target_temperature <$> entities w !! other) /\
  (forall other hvac_mode,
     fst (set_temperature_data other None (Some hvac_mode) w') =
     fst (set_temperature_data other None (Some hvac_mode) w)).
Proof.
  intros Htemp w'.
  assert (Hv : targets_view w' = targets_view w).
  { apply keeps_targets_eq. by apply keeps_targets__on_settings_update. }
  split; [| split].
  - by injection Hv.
  - intros other. injection Hv as _ Hm.
    assert (H := f_equal (fun m => m !! other) Hm). simpl in H.
    by rewrite !lookup_fmap in H.
  - intros other hvac_mode. rewrite !set_temperature_data_eq. simpl.
    by rewrite (targets_read_same_targets _ _ _ Hv).
Qed.

(** ** Running a method on a known instance *)

Lemma step_ret {A B} (a : A) (k : A -> M B) w : (mret a ≫= k) w = k a w.
Proof. reflexivity. Qed.

Lemma step_raise {A B} x (k : A -> M B) w : (raise x ≫= k) w = (Raise x, w).
Proof. reflexivity. Qed.

Lemma getitem_some {A} (d : gmap string A) k v :
  d !! k = Some v -> getitem d k = mret v.
Proof. intros H. unfold getitem. by rewrite H. Qed.

Lemma getitem_none {A} (d : gmap string A) k :
  d !! k = None -> getitem d k = raise (KeyError k).
Proof. intros H. unfold getitem. by rewrite H. Qed.

Lemma self_set_upd self f e w :
  self_set self f (upd self e w) = (Ok tt, upd self (f e) w).
Proof. rewrite (self_set_ok _ _ e), upd_upd; [done | apply lookup_upd]. Qed.

Lemma step_self_set {B} self f e w (k : unit -> M B) :
  (self_set self f ≫= k) (upd self e w) = k tt (upd self (f e) w).
Proof. by rewrite bind_eq, self_set_upd. Qed.

Lemma self_get_upd self e w : self_get self (upd self e w) = (Ok e, upd self e w).
Proof. apply self_get_ok, lookup_upd. Qed.

Lemma step_self_get {B} self e w (k : AirconEntity -> M B) :
  (self_get self ≫= k) (upd self e w) = k e (upd self e w).
Proof. by rewrite bind_eq, self_get_upd. Qed.

Lemma step_modify_world {B} f w (k : unit -> M B) :
  (modify_world f ≫= k) w = k tt (f w).
Proof. reflexivity. Qed.

Lemma setitem_upd self k t e w :
  setitem_last_target_temperature self k t (upd self e w) =
  (Ok tt, record_target self k t e w).
Proof.
  unfold setitem_last_target_temperature, record_target.
  rewrite step_self_get.
  destruct (_last_target_temperature e); [apply self_set_upd | done].
Qed.

Lemma step_setitem {B} self k t e w (f : unit -> M B) :
  (setitem_last_target_temperature self k t ≫= f) (upd self e w) =
  f tt (record_target self k t e w).
Proof. by rewrite bind_eq, setitem_upd. Qed.

(** One step of a method run on [upd self e w]. *)
Ltac mstep :=
  first
    [ rewrite bind_assoc
    | rewrite step_ret
    | rewrite step_raise
    | rewrite step_self_set
    | rewrite step_self_get
    | rewrite step_setitem
    | rewrite step_modify_world
    | rewrite self_set_upd
    | rewrite setitem_upd
    | match goal with
      | H : ?d !! ?k = Some _ |- context [getitem ?d ?k] =>
          rewrite (getitem_some d k _ H)
      | H : ?d !! ?k = None |- context [getitem ?d ?k] =>
          rewrite (getitem_none d k H)
      end ].

(** ** A confirmed update whose temperature does not parse (C8) *)

(** C8. When the [temp] of a confirmed update is missing or is not
    accepted by [float], and the other fields are those of a well-formed
    settings object (the keys are there, the unit is in the unit table,
    and the mode is in the mode table unless the button says off), the
    update does not raise: the target temperature is left undefined and
    the mode, HVAC mode, fan, swing, unit and timestamp are applied from
    the settings, nothing else in the world changing. *)
Theorem C8_unparsed_temp_is_tolerated
    (w : World) (self : string) (e : AirconEntity)
    (ac_settings : gmap string string)
    (mode button v d u a : string) (tu : UnitOfTemperature) :
  entities w !! self = Some e ->
  ac_settings !! "temp" ≫= PyFloat.of_str = None ->
  ac_settings !! "mode" = Some mode ->
  ac_settings !! "button" = Some button ->
  ac_settings !! "vol" = Some v ->
  ac_settings !! "dir" = Some d ->
  ac_settings !! "temp_unit" = Some u ->
  ac_settings !! "updated_at" = Some a ->
  TEMP_UNIT_REMO_TO_HA u = Some tu ->
  button = "power-off" \/ is_Some (MODE_REMO_TO_HA mode) ->
  exists e',
    _on_settings_update self ac_settings w = (Ok tt, upd self e' w) /\
    _attr_target_temperature e' = None /\
    _remo_mode e' = Some mode /\
    _attr_hvac_mode e' =
      (if decide (button = "power-off") then Some OFF
       else MODE_REMO_TO_HA mode) /\
    _attr_fan_mode e' = or_None v /\
    _attr_swing_mode e' = or_None d /\
    _attr_temperature_unit e' = Some tu /\
    _updated_at e' = or_None a /\
    _last_target_temperature e' = _last_target_temperature e /\
    _next_settings e' = _next_settings e /\
    _post_cancel e' = _post_cancel e /\
    _modes e' = _modes e /\
    _remo_id e' = _remo_id e.
Proof.
  intros He Htemp Hmode Hbutton Hvol Hdir Hu Ha Hunit Hhvac.
  exists (set_updated_at (or_None a)
           (set_attr_temperature_unit (Some tu)
             (set_attr_swing_mode (or_None d)
               (set_attr_fan_mode (or_None v)
                 (set_attr_hvac_mode
                    (if decide (button = "power-off") then Some OFF
                     else MODE_REMO_TO_HA mode)
                    (set_attr_target_temperature None
                       (set_remo_mode (Some mode) e))))))).
  split; [| done].
  rewrite <-(upd_id self e w He) at 1.
  unfold _on_settings_update.
  assert (Hrest : forall (k : unit -> M unit) w1 e1,
    ((match ac_settings !! "temp" with
      | Some t =>
          match PyFloat.of_str t with
          | Some x =>
              self_set self (set_attr_target_temperature (Some x));;
              setitem_last_target_temperature self mode t
          | None => self_set self (set_attr_target_temperature None)
          end
      | None => self_set self (set_attr_target_temperature None)
      end) ≫= k) (upd self e1 w1) =
    k tt (upd self (set_attr_target_temperature None e1) w1)).
  { intros k w1 e1. destruct (ac_settings !! "temp") as [t|]; simpl in Htemp.
    - rewrite Htemp. by mstep.
    - by mstep. }
  repeat mstep. rewrite Hrest. repeat mstep.
  case_decide as Hoff.
  - repeat mstep. rewrite Hunit. simpl. by repeat mstep.
  - destruct Hhvac as [? | [m Hm]]; [done |].
    rewrite Hm. simpl. repeat mstep. rewrite Hunit. simpl. by repeat mstep.
Qed.

Lemma table_some {A} (v : A) k : table (Some v) k = mret v.
Proof. reflexivity. Qed.

Lemma table_none {A} k : table (None (A := A)) k = raise (KeyError k).
Proof. reflexivity. Qed.

Lemma step_self_set_missing {B} self f w (k : unit -> M B) :
  entities w !! self = None ->
  (self_set self f ≫= k) w = (Raise ReferenceError, w).
Proof. intros H. by rewrite bind_eq, self_set_missing. Qed.

(** Case analysis on the key that the method looks up next. *)
Ltac msplit :=
  match goal with
  | |- context [mbind _ (getitem ?d ?k) _] =>
      lazymatch goal with
      | H : d !! k = _ |- _ => fail
      | _ => destruct (d !! k) eqn:?
      end
  end.

(** ** Applying confirmed settings twice (C5) *)

(** C5. Applying the same confirmed settings a second time changes
    nothing: the second application ends as the first did, in the same
    world, whatever the settings; so it leaves the mode, the target
    temperature, the recorded targets, the HVAC mode, the fan, the swing,
    the unit and the timestamp as the first application set them. *)
Theorem C5_on_settings_update_idempotent
    (w : World) (self : string) (ac_settings : gmap string string) :
  _on_settings_update self ac_settings
    (snd (_on_settings_update self ac_settings w)) =
  _on_settings_update self ac_settings w.
Proof.
  destruct (entities w !! self) as [e|] eqn:He.
  - rewrite <-(upd_id self e w He).
    unfold _on_settings_update.
    msplit; repeat mstep; [| done].
    destruct (ac_settings !! "temp") as [t|];
      [destruct (PyFloat.of_str t) as [x|] |];
      repeat mstep; unfold record_target; simpl;
      destruct (_last_target_temperature e) as [d|] eqn:Hd;
      repeat first
        [ mstep | msplit | case_decide
        | rewrite table_some | rewrite table_none
        | progress cbn [snd]
        | match goal with
          | H : ?f ?u = _ |- context [table (?f ?u) _] => rewrite H
          | |- context [table (?f ?u) _ ≫= _] => destruct (f u) eqn:?
          end
        | progress (unfold record_target; simpl (_last_target_temperature _);
                    rewrite ?Hd) ].
    all: try done.
    all: try (f_equal; unfold upd, with_entities,
                with_class_last_target_temperature; simpl;
              rewrite ?insert_insert_eq; reflexivity).
  - unfold _on_settings_update.
    destruct (ac_settings !! "mode") as [mode|] eqn:Hmode.
    + rewrite (getitem_some _ _ _ Hmode), !step_ret.
      by rewrite !(step_self_set_missing _ _ _ _ He).
    + by rewrite (getitem_none _ _ Hmode), !step_raise.
Qed.

(** ** The order of floats *)

Lemma ltb_finite s1 m1 e1 s2 m2 e2 :
  ltb (S754_finite s1 m1 e1) (S754_finite s2 m2 e2) =
  match s1, s2 with
  | true, false => true
  | false, true => false
  | false, false =>
      bool_decide (e1 < e2 \/ (e1 = e2 /\ (m1 < m2)%positive))
  | true, true =>
      bool_decide (e2 < e1 \/ (e1 = e2 /\ (m2 < m1)%positive))
  end.
Proof.
  unfold ltb, SFltb. simpl. destruct s1, s2; try done;
    change (Pos.compare_cont Eq m1 m2) with (m1 ?= m2)%positive;
    destruct (Z.compare_spec e1 e2); destruct (Pos.compare_spec m1 m2);
    simpl; symmetry;
    first [ apply bool_decide_eq_true | apply bool_decide_eq_false ]; lia.
Qed.

Lemma ltb_trans x y z : ltb x y = true -> ltb y z = true -> ltb x z = true.
Proof.
  destruct x as [sx|sx| |sx mx ex], y as [sy|sy| |sy my ey],
           z as [sz|sz| |sz mz ez];
    rewrite ?ltb_finite; try done;
    try (destruct sx, sy, sz; done);
    try (destruct sx, sy; done); try (destruct sy, sz; done);
    try (destruct sx, sz; done).
  all: destruct sx, sy, sz; try done;
    rewrite ?bool_decide_eq_true; lia.
Qed.

Lemma leb_finite s1 m1 e1 s2 m2 e2 :
  leb (S754_finite s1 m1 e1) (S754_finite s2 m2 e2) =
  match s1, s2 with
  | true, false => true
  | false, true => false
  | false, false =>
      bool_decide (e1 < e2 \/ (e1 = e2 /\ (m1 <= m2)%positive))
  | true, true =>
      bool_decide (e2 < e1 \/ (e1 = e2 /\ (m2 <= m1)%positive))
  end.
Proof.
  unfold leb, SFleb. simpl. destruct s1, s2; try done;
    change (Pos.compare_cont Eq m1 m2) with (m1 ?= m2)%positive;
    destruct (Z.compare_spec e1 e2); destruct (Pos.compare_spec m1 m2);
    simpl; symmetry;
    first [ apply bool_decide_eq_true | apply bool_decide_eq_false ]; lia.
Qed.

(** Two floats neither of which is a NaN are comparable. *)
Lemma leb_total x y :
  is_nan x = false -> is_nan y = false -> ltb y x = false -> leb x y = true.
Proof.
  destruct x as [sx|sx| |sx mx ex], y as [sy|sy| |sy my ey];
    rewrite ?ltb_finite, ?leb_finite; try done;
    try (by destruct sx); try (by destruct sy); try (by destruct sx, sy).
  destruct sx, sy; try done;
    rewrite bool_decide_eq_false, bool_decide_eq_true; lia.
Qed.

Lemma eqb_finite_eq x s m e :
  eqb x (S754_finite s m e) = true -> x = S754_finite s m e.
Proof.
  unfold eqb, SFeqb.
  destruct x as [sx|sx| |sx mx ex]; simpl; try done;
    try (by destruct sx); try (by destruct s); try (by destruct sx, s).
  change (Pos.compare_cont Eq mx m) with (mx ?= m)%positive.
  destruct sx, s; try done;
    destruct (Z.compare_spec ex e); destruct (Pos.compare_spec mx m);
    try done; by subst.
Qed.

Lemma ltb_irrefl x : ltb x x = false.
Proof.
  destruct x as [s|s| |s m e]; try done; try (by destruct s).
  rewrite ltb_finite. destruct s; apply bool_decide_eq_false; lia.
Qed.

(** *** [min] and [max] *)

Lemma py_min_elem x xs : py_min x xs ∈ x :: xs.
Proof.
  revert x. induction xs as [|y xs IH]; intros x; simpl.
  - apply list_elem_of_here.
  - specialize (IH (if ltb y x then y else x)).
    apply elem_of_cons in IH as [-> | IH].
    + destruct (ltb y x); [apply list_elem_of_further |]; apply list_elem_of_here.
    + by do 2 apply list_elem_of_further.
Qed.

Lemma py_max_elem x xs : py_max x xs ∈ x :: xs.
Proof.
  revert x. induction xs as [|y xs IH]; intros x; simpl.
  - apply list_elem_of_here.
  - specialize (IH (if gtb y x then y else x)).
    apply elem_of_cons in IH as [-> | IH].
    + destruct (gtb y x); [apply list_elem_of_further |]; apply list_elem_of_here.
    + by do 2 apply list_elem_of_further.
Qed.

(** Nothing that [min] has seen is strictly below what it keeps. *)
Lemma py_min_seen best xs (seen : list float) :
  (forall z, z ∈ seen -> ltb z best = false) ->
  forall z, z ∈ seen ++ xs -> ltb z (py_min best xs) = false.
Proof.
  revert best seen.
  induction xs as [|y xs IH]; intros best seen Hseen z Hz; simpl.
  - rewrite app_nil_r in Hz. by apply Hseen.
  - apply (IH _ (seen ++ [y])); [| by rewrite <-app_assoc].
    intros z' Hz'. apply elem_of_app in Hz' as [Hz' | Hz'].
    + specialize (Hseen _ Hz').
      destruct (ltb y best) eqn:Hy; [| done].
      destruct (ltb z' y) eqn:Hzy; [| done].
      by rewrite (ltb_trans _ _ _ Hzy Hy) in Hseen.
    + apply list_elem_of_singleton in Hz' as ->.
      destruct (ltb y best) eqn:Hy; [apply ltb_irrefl | done].
Qed.

(** Nothing that [max] has seen is strictly above what it keeps. *)
Lemma py_max_seen best xs (seen : list float) :
  (forall z, z ∈ seen -> gtb z best = false) ->
  forall z, z ∈ seen ++ xs -> gtb z (py_max best xs) = false.
Proof.
  revert best seen.
  induction xs as [|y xs IH]; intros best seen Hseen z Hz; simpl.
  - rewrite app_nil_r in Hz. by apply Hseen.
  - apply (IH _ (seen ++ [y])); [| by rewrite <-app_assoc].
    intros z' Hz'. apply elem_of_app in Hz' as [Hz' | Hz'].
    + specialize (Hseen _ Hz').
      destruct (gtb y best) eqn:Hy; [| done].
      destruct (gtb z' y) eqn:Hzy; [| done].
      pose proof (ltb_trans _ _ _ Hy Hzy) as Ht.
      unfold gtb, ltb in *. congruence.
    + apply list_elem_of_singleton in Hz' as ->.
      destruct (gtb y best) eqn:Hy; [apply ltb_irrefl | done].
Qed.

Lemma py_min_least x xs z : z ∈ x :: xs -> ltb z (py_min x xs) = false.
Proof.
  apply (py_min_seen x xs [x]). intros z' Hz'.
  apply list_elem_of_singleton in Hz' as ->. apply ltb_irrefl.
Qed.

Lemma py_max_greatest x xs z : z ∈ x :: xs -> gtb z (py_max x xs) = false.
Proof.
  apply (py_max_seen x xs [x]). intros z' Hz'.
  apply list_elem_of_singleton in Hz' as ->. apply ltb_irrefl.
Qed.

Lemma current_mode_temp_range_eq e mode r :
  _remo_mode e = Some mode -> _modes e !! mode = Some r ->
  _current_mode_temp_range e =
  match mapM PyFloat.of_str (filter (fun s => s ≠ "") (temp r)) with
  | Some xs => Ok xs
  | None => Raise ValueError
  end.
Proof. intros Hm Hr. unfold _current_mode_temp_range. by rewrite Hm, Hr. Qed.

(** ** The temperature range of the current mode (C7) *)

(** C7. For the temperatures that the capability table lists for the
    current mode, the empty strings left out: when none remains,
    [min_temp] and [max_temp] are both the int 0; when they parse to the
    floats [x :: xs], [min_temp] and [max_temp] are [min] and [max] of
    these floats, which are two of them, with none of them strictly below
    the first nor strictly above the second, so that they bound all of
    them when none is a NaN. *)
Theorem C7_temperature_range
    (e : AirconEntity) (mode : string) (r : ModeRange) :
  _remo_mode e = Some mode ->
  _modes e !! mode = Some r ->
  let strs := filter (fun s => s ≠ "") (temp r) in
  (strs = [] -> min_temp e = Ok (NInt 0) /\ max_temp e = Ok (NInt 0)) /\
  (forall x xs,
     mapM PyFloat.of_str strs = Some (x :: xs) ->
     let lo := py_min x xs in
     let hi := py_max x xs in
     min_temp e = Ok (NFloat lo) /\ max_temp e = Ok (NFloat hi) /\
     lo ∈ x :: xs /\ hi ∈ x :: xs /\
     (forall z, z ∈ x :: xs ->
        PyFloat.ltb z lo = false /\ PyFloat.gtb z hi = false) /\
     (Forall (fun z => PyFloat.is_nan z = false) (x :: xs) ->
      forall z, z ∈ x :: xs ->
        PyFloat.leb lo z = true /\ PyFloat.leb z hi = true)).
Proof.
  intros Hm Hr strs. split.
  - intros Hs. unfold min_temp, max_temp.
    rewrite (current_mode_temp_range_eq _ _ _ Hm Hr).
    fold strs. by rewrite Hs.
  - intros x xs Hxs lo hi. unfold min_temp, max_temp.
    rewrite (current_mode_temp_range_eq _ _ _ Hm Hr).
    fold strs. rewrite Hxs.
    split; [done |]. split; [done |].
    split; [apply py_min_elem |]. split; [apply py_max_elem |].
    split.
    + intros z Hz. split; [by apply py_min_least | by apply py_max_greatest].
    + intros Hnan z Hz. rewrite Forall_forall in Hnan. split.
      * apply leb_total; [apply Hnan, py_min_elem | by apply Hnan |].
        by apply py_min_least.
      * apply leb_total; [by apply Hnan | apply Hnan, py_max_elem |].
        by apply py_max_greatest.
Qed.

(** ** The temperature step of the current mode (C6) *)

Lemma eqb_one x : PyFloat.eqb x one = true <-> x = one.
Proof. split; [apply eqb_finite_eq | by intros ->]. Qed.

Lemma eqb_half x : PyFloat.eqb x half = true <-> x = half.
Proof. split; [apply eqb_finite_eq | by intros ->]. Qed.

(** C6. For the temperatures [xs] that the capability table lists for the
    current mode, empty strings left out and the others parsed: when there
    are two at least, the step is [round(xs[1] - xs[0], 1)] if that float
    is 1.0 or 0.5, and the int 1 if it is neither; when there are fewer
    than two, the step is the int 1. *)
Theorem C6_temperature_step
    (e : AirconEntity) (mode : string) (r : ModeRange) (xs : list float) :
  _remo_mode e = Some mode ->
  _modes e !! mode = Some r ->
  mapM PyFloat.of_str (filter (fun s => s ≠ "") (temp r)) = Some xs ->
  match xs with
  | t0 :: t1 :: _ =>
      let step := PyFloat.round1 (PyFloat.sub t1 t0) in
      (step = one \/ step = half ->
       target_temperature_step e = Ok (NFloat step)) /\
      (step <> one -> step <> half ->
       target_temperature_step e = Ok (NInt 1))
  | _ => target_temperature_step e = Ok (NInt 1)
  end.
Proof.
  intros Hm Hr Hxs. unfold target_temperature_step.
  rewrite (current_mode_temp_range_eq _ _ _ Hm Hr), Hxs.
  destruct xs as [|t0 [|t1 rest]]; [done | done |].
  simpl. split.
  - intros [H | H].
    + apply eqb_one in H. by rewrite H.
    + apply eqb_half in H. rewrite H. by rewrite orb_true_r.
  - intros H1 H2.
    destruct (PyFloat.eqb _ one) eqn:E1; [by apply eqb_one in E1 |].
    destruct (PyFloat.eqb _ half) eqn:E2; [by apply eqb_half in E2 | done].
Qed.

Example step_of_whole_degrees :
  target_temperature_step (table_of ["18"; "19"; "20"]) = Ok (NFloat one).
Proof. vm_compute. reflexivity. Qed.

Example step_of_half_degrees :
  target_temperature_step (table_of ["18"; "18.5"; "19"]) = Ok (NFloat half).
Proof. vm_compute. reflexivity. Qed.

Example step_of_two_degrees :
  target_temperature_step (table_of ["18"; "20"; "22"]) = Ok (NInt 1).
Proof. vm_compute. reflexivity. Qed.

Example step_of_one_temperature :
  target_temperature_step (table_of [""; "18"]) = Ok (NInt 1).
Proof. vm_compute. reflexivity. Qed.

Example range_of_no_temperature :
  min_temp (table_of [""]) = Ok (NInt 0) /\ max_temp (table_of [""]) = Ok (NInt 0).
Proof. vm_compute. done. Qed.

Lemma C6_witness :
  target_temperature_step (table_of ["18"; "18.5"; "19"]) = Ok (NFloat half).
Proof.
  pose proof (C6_temperature_step (table_of ["18"; "18.5"; "19"]) "cool"
                {| temp := ["18"; "18.5"; "19"]; vol := []; dir := [] |}
                [PyFloat.of_Z 18; PyFloat.of_decimal false 185 (-1); PyFloat.of_Z 19]
                eq_refl eq_refl eq_refl) as [H _].
  apply H. right. vm_compute. reflexivity.
Defined.

(** ** Temperature commands (C9) *)

Lemma forallb_digits_uint d :
  forallb PyFloat.is_digit (list_ascii_of_string (NilEmpty.string_of_uint d)) = true.
Proof. induction d; simpl; by rewrite ?IHd. Qed.

Lemma all_digits_uint d :
  all_digits (list_ascii_of_string (NilZero.string_of_uint d)) = true.
Proof.
  destruct d; try done; unfold all_digits; simpl;
    by rewrite forallb_digits_uint.
Qed.

Lemma int_literal_str_of_int n : int_literal (PyFloat.str_of_int n) = true.
Proof.
  unfold int_literal, PyFloat.str_of_int, NilZero.string_of_int.
  destruct (Z.to_int n) as [d|d].
  - pose proof (all_digits_uint d) as H.
    destruct (list_ascii_of_string (NilZero.string_of_uint d)) as [|c r] eqn:E;
      [done |].
    destruct (PyFloat.is_char "-" c) eqn:Hc; [| done].
    apply Ascii.eqb_eq in Hc. subst c. done.
  - simpl. apply all_digits_uint.
Qed.

(** A string with a character that is neither a digit nor a minus sign is
    no int literal. *)
Lemma int_literal_false l c :
  c ∈ l -> PyFloat.is_digit c = false -> c ≠ "-"%char ->
  int_literal (string_of_list_ascii l) = false.
Proof.
  intros Hc Hd Hm. unfold int_literal.
  rewrite list_ascii_of_string_of_list_ascii.
  assert (Hall : forall l', c ∈ l' -> all_digits l' = false).
  { intros l' Hl'. unfold all_digits. destruct l' as [|a r]; [done |].
    apply not_true_is_false. intros H.
    rewrite forallb_forall in H. apply list_elem_of_In in Hl'.
    specialize (H _ Hl'). congruence. }
  destruct l as [|a r]; [done |].
  destruct (PyFloat.is_char "-" a) eqn:Ha.
  - apply Hall. apply elem_of_cons in Hc as [-> | Hc]; [| done].
    apply Ascii.eqb_eq in Ha. congruence.
  - by apply Hall.
Qed.

Lemma layout_mark ds decpt :
  "."%char ∈ PyFloat.layout ds decpt \/ "e"%char ∈ PyFloat.layout ds decpt.
Proof.
  unfold PyFloat.layout.
  destruct (_ || _)%bool.
  - right. rewrite !elem_of_app. right. right. apply list_elem_of_here.
  - left. destruct (decpt <=? 0).
    + apply list_elem_of_further, list_elem_of_here.
    + destruct (_ <=? decpt).
      * rewrite !elem_of_app. right. right. apply list_elem_of_here.
      * rewrite elem_of_app. right. apply list_elem_of_here.
Qed.

Lemma repr_abs_mark x :
  exists c, c ∈ PyFloat.repr_abs x /\ PyFloat.is_digit c = false /\ c ≠ "-"%char.
Proof.
  destruct x as [s|s| |s m e].
  - exists "."%char. split; [| done]. apply list_elem_of_further, list_elem_of_here.
  - exists "i"%char. split; [| done]. apply list_elem_of_here.
  - exists "n"%char. split; [| done]. apply list_elem_of_here.
  - unfold PyFloat.repr_abs.
    match goal with
    | |- context [PyFloat.shortest ?a ?b ?c ?d ?n ?f] =>
        destruct (PyFloat.shortest a b c d n f) as [dg nd]
    end.
    match goal with
    | |- context [PyFloat.layout ?a ?b] =>
        destruct (layout_mark a b) as [H | H]
    end.
    + by exists "."%char.
    + by exists "e"%char.
Qed.

Lemma int_literal_repr x : int_literal (PyFloat.repr x) = false.
Proof.
  destruct (repr_abs_mark x) as (c & Hc & Hd & Hm).
  unfold PyFloat.repr. apply (int_literal_false _ c); [| done | done].
  destruct (PyFloat.sign_of x); [by apply list_elem_of_further | done].
Qed.

Lemma is_integer_to_int t :
  PyFloat.is_integer t = true -> is_Some (PyFloat.to_int t).
Proof. destruct t; simpl; try done; by eexists. Qed.

(** C9. A temperature command stages, as [temperature], the string of the
    int [int(t)] when the commanded float [t] is whole, an int literal,
    which the [repr] of a float never is; and the [repr] of the float when
    it is not whole. That string overwrites what the mode branch staged. *)
Theorem C9_whole_temperature_is_staged_as_int
    (w : World) (self : string) (t : float) (hvac_mode : option HVACMode) :
  exists s,
    stage_temperature t w = (Ok s, w) /\
    (if PyFloat.is_integer t
     then exists n, PyFloat.to_int t = Some n /\ s = PyFloat.str_of_int n /\
                    int_literal s = true
     else s = PyFloat.repr t) /\
    int_literal (PyFloat.repr t) = false /\
    set_temperature_data self (Some t) None w =
      (Ok {[ "temperature" := VStr s ]}, w) /\
    (forall data,
       fst (set_temperature_data self (Some t) hvac_mode w) = Ok data ->
       data !! "temperature" = Some (VStr s)).
Proof.
  assert (Hs : exists s, staged_temperature t = Ok s /\
    if PyFloat.is_integer t
    then exists n, PyFloat.to_int t = Some n /\ s = PyFloat.str_of_int n /\
                   int_literal s = true
    else s = PyFloat.repr t).
  { unfold staged_temperature.
    destruct (PyFloat.is_integer t) eqn:Hi.
    - destruct (is_integer_to_int _ Hi) as [n Hn]. rewrite Hn.
      exists (PyFloat.str_of_int n). split; [done |]. exists n.
      split; [done |]. split; [done |]. apply int_literal_str_of_int.
    - by eexists. }
  destruct Hs as (s & Hs & Hshape). exists s.
  split; [by rewrite stage_temperature_eq, Hs |].
  split; [done |]. split; [apply int_literal_repr |]. split.
  - rewrite set_temperature_data_eq. unfold staged_data. by rewrite Hs.
  - intros data. rewrite set_temperature_data_eq. unfold staged_data. simpl.
    destruct (match hvac_mode with Some _ => _ | None => _ end); [| done].
    rewrite Hs. intros [= <-]. apply lookup_insert_eq.
Qed.

Example whole_temperature :
  fst (set_temperature_data "A" (Some (PyFloat.of_Z 24)) None fresh) =
  Ok {[ "temperature" := VStr "24" ]}.
Proof. vm_compute. reflexivity. Qed.

Example fractional_temperature :
  fst (set_temperature_data "A" (Some (PyFloat.of_decimal false 245 (-1)))
         None fresh) =
  Ok {[ "temperature" := VStr "24.5" ]}.
Proof. vm_compute. reflexivity. Qed.

Example whole_temperature_repr : PyFloat.repr (PyFloat.of_Z 24) = "24.0".
Proof. vm_compute. reflexivity. Qed.

(** ** Two entities (C3) *)

(** X20. An instance that has no [_last_target_temperature] of its own
    reads what a confirmed update of another such instance records: both
    use the dict of the class. *)
Lemma targets_shared_through_class
    (w : World) (a b : string) (ea eb : AirconEntity)
    (ac_settings : gmap string string) (mode t : string) (x : float) :
  a ≠ b ->
  entities w !! a = Some ea ->
  entities w !! b = Some eb ->
  _last_target_temperature ea = None ->
  _last_target_temperature eb = None ->
  ac_settings !! "mode" = Some mode ->
  ac_settings !! "temp" = Some t ->
  PyFloat.of_str t = Some x ->
  targets_read b (snd (_on_settings_update a ac_settings w)) =
  Ok (<[mode := t]> (class_last_target_temperature w)).
Proof.
  intros Hab Ha Hb Hla Hlb Hmode Htemp Hx.
  rewrite <-(upd_id a ea w Ha) at 1.
  unfold _on_settings_update. rewrite Htemp, Hx.
  repeat mstep. unfold record_target. simpl. rewrite Hla.
  match goal with
  | |- targets_read b (snd (?k ?w1)) = _ =>
      transitivity (targets_read b w1);
      [apply targets_read_same_targets, (keeps_targets_eq k);
       intros v; keep |]
  end.
  unfold targets_read. rewrite lookup_upd_ne by done. simpl. rewrite Hb.
  unfold last_target_temperature_of. by rewrite Hlb.
Qed.

(** X21. An instance whose [_last_target_temperature] was restored by
    [async_added_to_hass] keeps it through the confirmed updates of the
    other instances. *)
Lemma targets_own_when_restored
    (w : World) (a b : string) (eb : AirconEntity)
    (ac_settings : gmap string string) (d : gmap string string) :
  a ≠ b ->
  entities w !! b = Some eb ->
  _last_target_temperature eb = Some d ->
  targets_read b (snd (_on_settings_update a ac_settings w)) = Ok d.
Proof.
  intros Hab Hb Hlb.
  pose (P := fun w' : World =>
    exists eb', entities w' !! b = Some eb' /\
                _last_target_temperature eb' = Some d).
  assert (HP : preserves P (_on_settings_update a ac_settings)).
  { assert (Hset : forall f, preserves P (self_set a f)).
    { intros f. apply preserves_self_set. intros w' e (eb' & H1 & H2) He.
      exists eb'. by rewrite lookup_upd_ne. }
    unfold _on_settings_update. preserve; try apply Hset.
    unfold setitem_last_target_temperature. preserve; try apply Hset.
    apply preserves_modify_world. intros w' (eb' & H1 & H2). by exists eb'. }
  destruct (HP w) as (eb' & H1 & H2); [by exists eb |].
  unfold targets_read, last_target_temperature_of. by rewrite H1, H2.
Qed.

(** C3. The code at the failing input: with the living room and the
    bedroom constructed and nothing restored, the bedroom has no target
    for cool; a confirmed update of the living room, cool at 27, gives
    the bedroom that target, and a change of the bedroom to cool then
    stages 27, not the default 23. *)
Theorem C3_targets_are_shared_between_entities :
  let w := two_rooms in
  let w' := snd (_on_settings_update "living" (ac_settings_of "cool" "27") w) in
  target_read "bedroom" "cool" w = None /\
  target_read "bedroom" "cool" w' = Some "27" /\
  fst (set_temperature_data "bedroom" None (Some COOL) w) =
    Ok {[ "operation_mode" := VStr "cool"; "temperature" := VInt 23 ]} /\
  fst (set_temperature_data "bedroom" None (Some COOL) w') =
    Ok {[ "operation_mode" := VStr "cool"; "temperature" := VStr "27" ]}.
Proof. cbv zeta. repeat split; vm_compute; exact eq_refl. Qed.

(** ** Removal with a dispatch armed (C2) *)

Lemma async_remove_keeps_timers self w :
  timers (snd (async_remove self w)) = timers w /\
  entities (snd (async_remove self w)) = entities w /\
  posted (snd (async_remove self w)) = posted w.
Proof. done. Qed.

(** C2. The code at the failing input: a fan command arms the timer; the
    entity is removed 50 ms later, which leaves the timer on the loop and
    the command pending; 50 ms later the timer fires and the request is
    sent. *)
Theorem C2_removal_leaves_the_timer_armed :
  let w1 := run ([Command "living" (SetFanMode "auto")] ++ ticks 50
                   ++ [Remove "living"]) one_room in
  let w2 := run (ticks 50) w1 in
  ("living" ∉ device_listeners w1) /\
  timers w1 = [{| handle := 0%nat; due := 100%nat; owner := "living" |}] /\
  (_next_settings <$> entities w1 !! "living") =
    Some (Some {[ "air_volume" := VStr "auto" ]}) /\
  posted w1 = [] /\
  posted w2 = [("appliances/living/aircon_settings",
                Some {[ "air_volume" := VStr "auto" ]})].
Proof.
  cbv zeta. repeat split; vm_compute; first [exact eq_refl | discriminate].
Qed.

(** ** A burst of commands within one quiet interval (C1) *)

Lemma merged_snoc ds d : merged (ds ++ [d]) = d ∪ merged ds.
Proof. unfold merged. by rewrite fold_left_app. Qed.

Lemma last_write_snoc k ds d :
  last_write k (ds ++ [d]) =
  match d !! k with Some v => Some v | None => last_write k ds end.
Proof.
  induction ds as [|d' ds IH]; simpl.
  - by destruct (d !! k).
  - rewrite IH. by destruct (d !! k), (last_write k ds).
Qed.

Lemma merged_lookup ds k : merged ds !! k = last_write k ds.
Proof.
  induction ds as [|d ds IH] using rev_ind; [done |].
  rewrite merged_snoc, last_write_snoc, lookup_union, IH.
  by destruct (d !! k), (last_write k ds).
Qed.

Lemma step_cancel {B} h self e w (k : unit -> M B) :
  (cancel h ≫= k) (upd self e w) =
  k tt (upd self e (with_timers (filter (fun t => handle t ≠ h) (timers w)) w)).
Proof. reflexivity. Qed.

Lemma step_async_call_later {B} delay self e w (k : nat -> M B) :
  (async_call_later delay self ≫= k) (upd self e w) =
  k (next_handle w)
    (upd self e
       (with_next_handle (S (next_handle w))
          (with_timers
             (timers w ++ [{| handle := next_handle w;
                              due := (now w + delay)%nat; owner := self |}])
             w))).
Proof. reflexivity. Qed.

Lemma set_settings_upd self data e w :
  _set_settings self data (upd self e w) =
  (Ok tt,
   upd self
     (pending (match _next_settings e with
               | Some d => data ∪ d
               | None => data
               end) (next_handle w) e)
     (with_next_handle (S (next_handle w))
        (with_timers
           (match _post_cancel e with
            | Some h => filter (fun t => handle t ≠ h) (timers w)
            | None => timers w
            end ++ [{| handle := next_handle w; due := (now w + 100)%nat;
                       owner := self |}])
           w))).
Proof.
  unfold _set_settings. rewrite step_self_get.
  destruct (_next_settings e) as [d|]; rewrite step_self_set;
    (destruct (_post_cancel e) as [h|];
     [rewrite step_cancel | rewrite step_ret];
     rewrite step_async_call_later, self_set_upd; reflexivity).
Qed.

Lemma issue_staged self c w e d :
  entities w !! self = Some e ->
  staged (last_target_temperature_of w e) c = Ok d ->
  issue self c w = _set_settings self d w.
Proof.
  intros He Hd.
  assert (Hr : targets_read self w = Ok (last_target_temperature_of w e)).
  { unfold targets_read. by rewrite He. }
  destruct c as [t m|m|f|s]; simpl in *.
  - unfold set_temperature. by rewrite bind_eq, set_temperature_data_eq, Hr, Hd.
  - unfold set_hvac_mode, set_temperature.
    by rewrite bind_eq, set_temperature_data_eq, Hr, Hd.
  - by injection Hd as <-.
  - by injection Hd as <-.
Qed.

(** The first command of a burst arms the timer. *)
Lemma issue_idle w self e c d :
  entities w !! self = Some e ->
  _next_settings e = None ->
  _post_cancel e = None ->
  timers w = [] ->
  staged (last_target_temperature_of w e) c = Ok d ->
  armed w self e d (now w + 100) (exec w (Command self c)) /\
  now (exec w (Command self c)) = now w.
Proof.
  intros He Hn Hp Ht Hd. simpl.
  rewrite (issue_staged _ _ _ _ _ He Hd).
  pose proof (set_settings_upd self d e w) as Hrun.
  rewrite (upd_id _ _ _ He), Hn, Hp, Ht in Hrun. rewrite Hrun. simpl.
  split; [| done]. by exists (next_handle w).
Qed.

(** A further command merges its fields and arms the timer anew. *)
Lemma issue_armed w0 self e acc due w c d :
  armed w0 self e acc due w ->
  staged (last_target_temperature_of w0 e) c = Ok d ->
  armed w0 self e (d ∪ acc) (now w + 100) (exec w (Command self c)) /\
  now (exec w (Command self c)) = now w.
Proof.
  intros Ha Hd.
  destruct Ha as (h & Hents & Ht & Hc & Hp).
  assert (He : entities w !! self = Some (pending acc h e)).
  { rewrite Hents. apply lookup_insert_eq. }
  assert (Hl : last_target_temperature_of w (pending acc h e) =
               last_target_temperature_of w0 e).
  { unfold last_target_temperature_of. simpl. by rewrite Hc. }
  simpl. rewrite <-Hl in Hd.
  rewrite (issue_staged _ _ _ _ _ He Hd).
  pose proof (set_settings_upd self d (pending acc h e) w) as Hrun.
  rewrite (upd_id _ _ _ He) in Hrun. rewrite Hrun. simpl. rewrite Ht.
  rewrite filter_cons_False by (simpl; intros H; by apply H).
  rewrite filter_nil.
  split; [| done]. exists (next_handle w). simpl.
  split; [| done].
  rewrite Hents. by rewrite insert_insert_eq.
Qed.

Lemma on_post_upd self e w :
  _on_post self (upd self e w) =
  (Ok tt,
   upd self (set_next_settings None (set_post_cancel None e))
     (with_posted (posted w ++ [(request_path e, _next_settings e)]) w)).
Proof.
  unfold _on_post. by rewrite step_self_set, step_self_get, step_self_set.
Qed.

(** A millisecond with the timer armed: the timer stays when it is not due,
    and fires when it is. *)
Lemma tick_armed w0 self e acc due w :
  armed w0 self e acc due w ->
  ((S (now w) < due)%nat -> armed w0 self e acc due (tick w)) /\
  ((due <= S (now w))%nat ->
   settled w0 self e [(request_path e, Some acc)] (tick w)) /\
  now (tick w) = S (now w).
Proof.
  intros Ha.
  destruct Ha as (h & Hents & Ht & Hc & Hp).
  assert (He : entities w !! self = Some (pending acc h e)).
  { rewrite Hents. apply lookup_insert_eq. }
  unfold tick. rewrite Ht.
  destruct (decide (due <= S (now w))%nat) as [Hdue | Hdue].
  - rewrite filter_cons_True, filter_nil by done.
    rewrite filter_cons_False, filter_nil by (simpl; intros H; by apply H).
    simpl.
    set (w1 := with_now _ _).
    assert (He1 : entities w1 !! self = Some (pending acc h e)) by done.
    pose proof (on_post_upd self (pending acc h e) w1) as Hrun.
    rewrite (upd_id _ _ _ He1) in Hrun. rewrite Hrun. simpl.
    split; [lia |]. split; [| done]. intros _.
    unfold settled. subst w1. simpl.
    by rewrite Hents, insert_insert_eq, Hp, Hc.
  - rewrite filter_cons_False, filter_nil by done.
    rewrite filter_cons_True, filter_nil by done.
    simpl.
    split; [| split; [lia | done]].
    intros _. by exists h.
Qed.

Lemma tick_settled w0 self e sent w :
  settled w0 self e sent w ->
  settled w0 self e sent (tick w) /\ now (tick w) = S (now w).
Proof.
  intros (He & Ht & Hc & Hp). unfold tick. rewrite Ht, !filter_nil. done.
Qed.

Lemma run_app evs1 evs2 w : run (evs1 ++ evs2) w = run evs2 (run evs1 w).
Proof. apply fold_left_app. Qed.

Lemma ticks_settled w0 self e sent n w :
  settled w0 self e sent w -> settled w0 self e sent (run (ticks n) w).
Proof.
  revert w. induction n as [|n IH]; intros w Hs; [done |].
  simpl. apply IH. by apply tick_settled.
Qed.

(** Time passing with the timer armed: nothing is sent before the timer
    is due, and exactly the pending fields are sent once it is. *)
Lemma ticks_armed w0 self e acc due n w :
  armed w0 self e acc due w ->
  (now w < due)%nat ->
  ((now w + n < due)%nat ->
   armed w0 self e acc due (run (ticks n) w) /\
   now (run (ticks n) w) = (now w + n)%nat) /\
  ((due <= now w + n)%nat ->
   settled w0 self e [(request_path e, Some acc)] (run (ticks n) w)).
Proof.
  revert w. induction n as [|n IH]; intros w Ha Hnow.
  - split; [| lia]. intros _. simpl. split; [done | lia].
  - destruct (tick_armed _ _ _ _ _ _ Ha) as (Hkeep & Hfire & Hclock).
    change (run (ticks (S n)) w) with (run (ticks n) (tick w)).
    destruct (decide (S (now w) < due)%nat) as [Hlt | Hge].
    + destruct (IH (tick w) (Hkeep Hlt)) as [IH1 IH2]; [lia |].
      rewrite Hclock in *. split.
      * intros H. destruct IH1 as [? ->]; [lia |]. split; [done | lia].
      * intros H. apply IH2. lia.
    + split; [lia |]. intros _. apply ticks_settled, Hfire. lia.
Qed.

(** The further commands of a burst, each fewer than 100 ms after the one
    before, leave the timer armed for the merge of all the fields. *)
Lemma burst_armed w0 self e rest :
  forall ds acc w,
    armed w0 self e acc (now w + 100) w ->
    Forall (fun gc => (fst gc < 100)%nat) rest ->
    Forall2 (fun gc d => staged (last_target_temperature_of w0 e) (snd gc) = Ok d)
            rest ds ->
    let w' :=
      run (flat_map (fun gc => ticks (fst gc) ++ [Command self (snd gc)]) rest)
          w in
    armed w0 self e (fold_left (fun acc d => d ∪ acc) ds acc) (now w' + 100) w'.
Proof.
  induction rest as [|[gap c] rest IH]; intros ds acc w Ha Hgaps Hds.
  - by inversion Hds.
  - inversion Hds as [|? d ? ds' Hd Hds' ]; subst. clear Hds.
    inversion Hgaps as [|? ? Hgap Hgaps']; subst. clear Hgaps.
    simpl in *. rewrite <-app_assoc, run_app. simpl.
    destruct (ticks_armed _ _ _ _ _ gap _ Ha) as [[Hk Hclock] _]; [lia | lia |].
    destruct (issue_armed _ _ _ _ _ _ c d Hk Hd) as [Ha' Hclock'].
    apply IH; [| done | done].
    simpl in Hclock'. rewrite Hclock'. exact Ha'.
Qed.

(** C1. From an instance with nothing pending and a loop with nothing
    scheduled, for a first command and any further commands that each
    arrive fewer than 100 ms after the one before, all accepted, followed
    by a quiet time of 100 ms or more: one request is sent, no more; its
    data is the merge of the staged fields in arrival order, which for
    each field holds the value of the last command that staged it; and
    nothing is left pending or scheduled. *)
Theorem C1_burst_sends_one_merged_request
    (w : World) (self : string) (e : AirconEntity) (c0 : command)
    (rest : list (nat * command)) (quiet : nat)
    (ds : list (gmap string value)) :
  entities w !! self = Some e ->
  _next_settings e = None ->
  _post_cancel e = None ->
  timers w = [] ->
  Forall (fun gc => (fst gc < 100)%nat) rest ->
  (100 <= quiet)%nat ->
  Forall2 (fun c d => staged (last_target_temperature_of w e) c = Ok d)
          (c0 :: map snd rest) ds ->
  let w' := run (burst self c0 rest quiet) w in
  posted w' = posted w ++ [(request_path e, Some (merged ds))] /\
  timers w' = [] /\
  _next_settings <$> entities w' !! self = Some None /\
  forall k, merged ds !! k = last_write k ds.
Proof.
  intros He Hn Hp Ht Hgaps Hquiet Hds w'.
  inversion Hds as [|? d0 ? ds' Hd0 Hds']; subst. clear Hds.
  apply Forall2_fmap_l in Hds'.
  destruct (issue_idle _ _ _ _ _ He Hn Hp Ht Hd0) as [Ha Hclock].
  rewrite <-Hclock in Ha.
  pose proof (burst_armed _ _ _ rest ds' d0 _ Ha Hgaps Hds') as Ha'.
  cbv zeta in Ha'.
  match type of Ha' with
  | armed _ _ _ _ _ ?w2 =>
      destruct (ticks_armed _ _ _ _ _ quiet w2 Ha') as [_ Hfire]; [lia |];
      specialize (Hfire ltac:(lia))
  end.
  assert (Hw' : settled w self e
                  [(request_path e, Some (merged (d0 :: ds')))] w').
  { unfold w', burst. rewrite app_comm_cons, run_app.
    change (run (Command self c0 :: ?l) w)
      with (run l (exec w (Command self c0))).
    unfold merged. simpl.
    by rewrite (right_id_L ∅ (∪) d0). }
  destruct Hw' as (Hents & Htimers & _ & Hposted).
  split; [done |]. split; [done |]. split.
  - by rewrite Hents, lookup_insert_eq.
  - intros k. apply merged_lookup.
Qed.

(** ** The properties at work on one unit *)

Lemma recorded_cooled : recorded cooled.
Proof.
  apply preserves_recorded__on_settings_update, recorded_init, recorded_fresh.
Qed.

Lemma C1_witness :
  posted (run (burst "living" (SetTemperature (Some (PyFloat.of_Z 24)) (Some COOL))
                 temperature_taps 100) cooled) =
  [("appliances/living/aircon_settings",
    Some (merged [ {[ "operation_mode" := VStr "cool";
                     "temperature" := VStr "24" ]};
                   {[ "temperature" := VStr "25" ]};
                   {[ "temperature" := VStr "25.5" ]};
                   {[ "air_volume" := VStr "auto" ]} ]))].
Proof.
  destruct (entities cooled !! "living") as [e|] eqn:He;
    [| by vm_compute in He].
  assert (Hid : request_path e = "appliances/living/aircon_settings"
                /\ _next_settings e = None /\ _post_cancel e = None
                /\ last_target_temperature_of cooled e = {[ "cool" := "25"; "warm" := "20" ]}).
  { vm_compute in He. injection He as <-. vm_compute.
    repeat split; exact eq_refl. }
  destruct Hid as (Hpath & Hn & Hp & Hl).
  rewrite <-Hpath.
  apply (C1_burst_sends_one_merged_request cooled "living" e _ temperature_taps
           100 _ He Hn Hp eq_refl).
  - repeat constructor.
  - lia.
  - rewrite Hl. repeat constructor.
Defined.

Example merged_temperature_taps :
  merged [ {[ "operation_mode" := VStr "cool"; "temperature" := VStr "24" ]};
           {[ "temperature" := VStr "25" ]};
           {[ "temperature" := VStr "25.5" ]};
           {[ "air_volume" := VStr "auto" ]} ] =
  {[ "operation_mode" := VStr "cool"; "temperature" := VStr "25.5";
     "air_volume" := VStr "auto" ]}.
Proof. vm_compute. exact eq_refl. Qed.

(** No target was recorded for dry: the default is staged. *)
Lemma C4_witness :
  exists data,
    set_temperature_data "living" None (Some DRY) cooled = (Ok data, cooled) /\
    data !! "temperature" = Some (VInt 23).
Proof.
  destruct (entities cooled !! "living") as [e|] eqn:He;
    [| by vm_compute in He].
  destruct (C4_mode_change_stages_recorded_or_default
              cooled "living" e DRY "dry" recorded_cooled He eq_refl
              ltac:(discriminate))
    as (data & Hdata & _ & _ & Htemp).
  exists data. split; [exact Hdata |]. rewrite Htemp.
  vm_compute in He. injection He as <-. vm_compute. exact eq_refl.
Defined.

(** The targets recorded for cool and for warm are staged again. *)
Example mode_change_restores_cool :
  fst (set_temperature_data "living" None (Some COOL) cooled) =
  Ok {[ "operation_mode" := VStr "cool"; "temperature" := VStr "25" ]}.
Proof. vm_compute. exact eq_refl. Qed.

Example mode_change_restores_heat :
  fst (set_temperature_data "living" None (Some HEAT) cooled) =
  Ok {[ "operation_mode" := VStr "warm"; "temperature" := VStr "20" ]}.
Proof. vm_compute. exact eq_refl. Qed.

Example mode_change_to_off :
  fst (set_temperature_data "living" None (Some OFF) cooled) =
  Ok {[ "button" := VStr "power-off" ]}.
Proof. vm_compute. exact eq_refl. Qed.

Lemma C7_witness :
  min_temp (table_of ["19"; ""; "18"; "20.5"]) = Ok (NFloat (PyFloat.of_Z 18)) /\
  max_temp (table_of ["19"; ""; "18"; "20.5"]) =
    Ok (NFloat (PyFloat.of_decimal false 205 (-1))).
Proof.
  destruct (C7_temperature_range (table_of ["19"; ""; "18"; "20.5"]) "cool"
              {| temp := ["19"; ""; "18"; "20.5"]; vol := []; dir := [] |}
              eq_refl eq_refl) as [_ H].
  destruct (H (PyFloat.of_Z 19)
              [PyFloat.of_Z 18; PyFloat.of_decimal false 205 (-1)] eq_refl)
    as (Hmin & Hmax & _).
  split; [exact Hmin | exact Hmax].
Defined.

Lemma C8_witness :
  exists e',
    fst (_on_settings_update "living" (ac_settings_of "cool" "") cooled) = Ok tt /\
    entities (snd (_on_settings_update "living" (ac_settings_of "cool" "") cooled))
      !! "living" = Some e' /\
    _attr_target_temperature e' = None /\
    _remo_mode e' = Some "cool" /\
    _attr_hvac_mode e' = Some COOL.
Proof.
  destruct (entities cooled !! "living") as [e|] eqn:He;
    [| by vm_compute in He].
  destruct (C8_unparsed_temp_is_tolerated
              cooled "living" e (ac_settings_of "cool" "")
              "cool" "" "auto" "" "c" "2024-01-01T00:00:00Z" CELSIUS
              He eq_refl eq_refl eq_refl eq_refl eq_refl eq_refl eq_refl eq_refl
              (or_intror (ex_intro _ COOL eq_refl)))
    as (e' & Hrun & Htarget & Hmode & Hhvac & _).
  exists e'. rewrite Hrun. simpl.
  split; [reflexivity |]. split; [apply lookup_upd |].
  split; [exact Htarget |]. split; [exact Hmode | exact Hhvac].
Defined.

Lemma C10_witness :
  class_last_target_temperature
    (snd (_on_settings_update "living" (ac_settings_of "warm" "") cooled)) =
  class_last_target_temperature cooled.
Proof.
  apply (C10_unparsed_temp_keeps_targets cooled "living"
           (ac_settings_of "warm" "") eq_refl).
Defined.

(** * The rest of the entity *)

(** ** The mode tables and the advertised modes *)

Lemma MODE_REMO_TO_HA_inv s m :
  MODE_REMO_TO_HA s = Some m -> MODE_HA_TO_REMO m = Some s.
Proof.
  unfold MODE_REMO_TO_HA.
  repeat (match goal with
          | |- context [match ?x with _ => _ end] => destruct x
          end; try discriminate).
  all: by intros [= <-].
Qed.

(** X1. The two mode tables are inverse to each other: a vendor mode that
    [MODE_HA_TO_REMO] gives for an HVAC mode is translated back to that
    HVAC mode by [MODE_REMO_TO_HA], and the other way round. *)
Theorem mode_tables_round_trip :
  (forall m s, MODE_HA_TO_REMO m = Some s -> MODE_REMO_TO_HA s = Some m) /\
  (forall s m, MODE_REMO_TO_HA s = Some m -> MODE_HA_TO_REMO m = Some s).
Proof.
  split; [| apply MODE_REMO_TO_HA_inv].
  intros m s. destruct m; simpl; intros [= <-]; reflexivity.
Qed.

Lemma translate_modes_ok remo_modes ms :
  translate_modes remo_modes = Ok ms <->
  Forall2 (fun k m => MODE_REMO_TO_HA k = Some m) remo_modes ms.
Proof.
  revert ms. induction remo_modes as [|k r IH]; intros ms; simpl.
  - split; [intros [= <-]; constructor | by inversion 1].
  - destruct (MODE_REMO_TO_HA k) as [m|] eqn:Hk.
    + destruct (translate_modes r) as [ms'|x] eqn:Hr.
      * split.
        -- intros [= <-]. constructor; [done | by apply IH].
        -- inversion 1 as [|? m' ? ms'' Hm Hrest]; subst.
           apply IH in Hrest. congruence.
      * split; [done |].
        inversion 1 as [|? m' ? ms'' Hm Hrest]; subst.
        by apply IH in Hrest.
    + split; [done |]. inversion 1; congruence.
Qed.

Lemma translate_modes_raise remo_modes x :
  translate_modes remo_modes = Raise x <->
  exists known k rest,
    remo_modes = known ++ k :: rest /\
    Forall (fun k' => is_Some (MODE_REMO_TO_HA k')) known /\
    MODE_REMO_TO_HA k = None /\ x = KeyError k.
Proof.
  revert x. induction remo_modes as [|k r IH]; intros x; simpl.
  - split; [done |]. intros (known & k & rest & H & _). by destruct known.
  - split.
    + destruct (MODE_REMO_TO_HA k) as [m|] eqn:Hk.
      * destruct (translate_modes r) as [ms'|x'] eqn:Hr; [done |].
        intros [= <-].
        destruct (proj1 (IH x') eq_refl)
          as (known & k' & rest & -> & Hkn & Hk' & ->).
        exists (k :: known), k', rest. split; [done |].
        split; [| done]. constructor; [by rewrite Hk | done].
      * intros [= <-]. by exists [], k, r.
    + intros (known & k' & rest & H & Hkn & Hk' & ->).
      destruct known as [|k0 known]; injection H as -> ->.
      * by rewrite Hk'.
      * inversion Hkn as [|? ? [m Hm] Hkn']; subst. rewrite Hm.
        assert (Hr : translate_modes (known ++ k' :: rest) = Raise (KeyError k')).
        { apply IH. by exists known, k', rest. }
        by rewrite Hr.
Qed.

(** X2. [hvac_modes] returns the translations of the keys of the
    capability table, in the order of the keys, followed by [HVACMode.OFF],
    and returns only that; it raises exactly when a key is not a vendor
    mode of [MODE_REMO_TO_HA], and then the [KeyError] of the first such
    key. *)
Theorem hvac_modes_lists_table_then_off (remo_modes : list string) :
  (forall ms,
     hvac_modes remo_modes = Ok ms <->
     exists ts, ms = ts ++ [OFF] /\
                Forall2 (fun k m => MODE_REMO_TO_HA k = Some m) remo_modes ts) /\
  (forall x,
     hvac_modes remo_modes = Raise x <->
     exists known k rest,
       remo_modes = known ++ k :: rest /\
       Forall (fun k' => is_Some (MODE_REMO_TO_HA k')) known /\
       MODE_REMO_TO_HA k = None /\ x = KeyError k).
Proof.
  unfold hvac_modes. split.
  - intros ms. destruct (translate_modes remo_modes) as [ts|x] eqn:Ht.
    + apply translate_modes_ok in Ht. split.
      * intros [= <-]. by exists ts.
      * intros (ts' & -> & Hts'). do 2 f_equal.
        clear -Ht Hts'. revert ts' Hts'.
        induction Ht; intros ts' Hts'; inversion Hts'; subst; [done |].
        f_equal; [congruence | eauto].
    + split; [done |]. intros (ts & -> & Hts).
      apply translate_modes_ok in Hts. congruence.
  - intros x. rewrite <-translate_modes_raise.
    destruct (translate_modes remo_modes); split; congruence.
Qed.

(** X3. Every mode that [hvac_modes] advertises is accepted by a mode
    change, whatever the order of the keys of the capability table: none
    is [HEAT_COOL], the one mode without a vendor name; staging it does not
    raise and changes nothing; off stages the button [power-off] alone, and
    any other mode stages as [operation_mode] a key of the table that
    translates to it, and no button. *)
Theorem advertised_mode_is_accepted
    (w : World) (self : string) (e : AirconEntity)
    (remo_modes : list string) (ms : list HVACMode) (m : HVACMode) :
  entities w !! self = Some e ->
  hvac_modes remo_modes = Ok ms ->
  m ∈ ms ->
  m ≠ HEAT_COOL /\
  exists data,
    set_temperature_data self None (Some m) w = (Ok data, w) /\
    (m = OFF -> data = {[ "button" := VStr "power-off" ]}) /\
    (m ≠ OFF ->
     exists k, k ∈ remo_modes /\ MODE_REMO_TO_HA k = Some m /\
               data !! "operation_mode" = Some (VStr k) /\
               data !! "button" = None).
Proof.
  intros He Hms Hm.
  unfold hvac_modes in Hms.
  destruct (translate_modes remo_modes) as [ts|] eqn:Hts; [| done].
  injection Hms as <-. apply translate_modes_ok in Hts.
  assert (Hk : m = OFF \/ exists k, k ∈ remo_modes /\ MODE_REMO_TO_HA k = Some m).
  { apply elem_of_app in Hm as [Hm | Hm].
    - right. apply list_elem_of_lookup in Hm as [i Hi].
      destruct (Forall2_lookup_r _ _ _ _ _ Hts Hi) as (k & Hk & Hkm).
      exists k. split; [| done]. apply list_elem_of_lookup. by exists i.
    - left. by apply list_elem_of_singleton in Hm. }
  assert (Hr : targets_read self w = Ok (last_target_temperature_of w e)).
  { unfold targets_read. by rewrite He. }
  assert (Hacc : is_Some (MODE_HA_TO_REMO m)).
  { destruct Hk as [-> | (k & _ & Hk)]; [by eexists |].
    apply MODE_REMO_TO_HA_inv in Hk. by eexists. }
  split; [by intros ->; destruct Hacc |].
  rewrite set_temperature_data_eq, Hr. unfold staged_data, staged_hvac_mode.
  destruct (decide (m = OFF)) as [-> | Hoff].
  - simpl. eexists. split; [reflexivity |]. split; [done | done].
  - destruct Hk as [? | (k & Hin & Hk)]; [done |].
    rewrite (MODE_REMO_TO_HA_inv _ _ Hk).
    assert (Hne : k ≠ "power-off") by (intros ->; simpl in Hk; congruence).
    rewrite decide_False by done.
    assert (Hshape : forall data : gmap string value,
      data = default_fields m {[ "operation_mode" := VStr k ]} \/
      (exists t, data = <["temperature" := VStr t]> {[ "operation_mode" := VStr k ]}) ->
      data !! "operation_mode" = Some (VStr k) /\ data !! "button" = None).
    { intros data [-> | [t ->]].
      - unfold default_fields. destruct (DEFAULT_TEMP m) as [n|]; [case_decide |];
          by rewrite ?lookup_insert_ne, ?lookup_singleton_eq, ?lookup_singleton_ne.
      - by rewrite !lookup_insert_ne, lookup_singleton_eq, lookup_singleton_ne. }
    destruct (last_target_temperature_of w e !! k) as [t|]; [case_decide |];
      (eexists; split; [reflexivity |]; split; [done |]; intros _;
       exists k; split; [done |]; split; [done |]; apply Hshape; eauto).
Qed.

(** ** The capabilities when the table is at fault *)

(** X4. Whatever the capability table holds, a step that
    [target_temperature_step] returns is the int 1, the float 1.0 or the
    float 0.5. *)
Theorem step_is_one_or_half (e : AirconEntity) (n : number) :
  target_temperature_step e = Ok n ->
  n = NInt 1 \/ n = NFloat one \/ n = NFloat half.
Proof.
  unfold target_temperature_step.
  destruct (_current_mode_temp_range e) as [[|t0 [|t1 rest]]|x];
    [intros [= <-]; by left | intros [= <-]; by left | | done].
  destruct (PyFloat.eqb _ one) eqn:E1; simpl.
  - apply eqb_one in E1. rewrite E1. intros [= <-]. right. by left.
  - destruct (PyFloat.eqb _ half) eqn:E2.
    + apply eqb_half in E2. rewrite E2. intros [= <-]. right. by right.
    + intros [= <-]. by left.
Qed.

Lemma mapM_of_str_bad (strs : list string) (t : string) :
  t ∈ strs -> PyFloat.of_str t = None -> mapM PyFloat.of_str strs = None.
Proof.
  intros Hin Ht. apply mapM_None. apply Exists_exists. by exists t.
Qed.

(** X5. When the capability table lists, for the current mode, a
    nonempty temperature that [float] does not accept, [min_temp],
    [max_temp] and [target_temperature_step] raise [ValueError], while
    [fan_modes] and [swing_modes] still answer from the table. *)
Theorem bad_temperature_fails_the_range
    (e : AirconEntity) (mode t : string) (r : ModeRange) :
  _remo_mode e = Some mode ->
  _modes e !! mode = Some r ->
  t ∈ temp r -> t ≠ "" -> PyFloat.of_str t = None ->
  min_temp e = Raise ValueError /\
  max_temp e = Raise ValueError /\
  target_temperature_step e = Raise ValueError /\
  fan_modes e = Ok (vol r) /\
  swing_modes e = Ok (dir r).
Proof.
  intros Hm Hr Hin Hne Ht.
  assert (Hrange : _current_mode_temp_range e = Raise ValueError).
  { rewrite (current_mode_temp_range_eq _ _ _ Hm Hr).
    rewrite (mapM_of_str_bad _ t); [done | | done].
    by apply list_elem_of_filter. }
  unfold min_temp, max_temp, target_temperature_step, fan_modes, swing_modes.
  by rewrite Hrange, Hm, Hr.
Qed.

(** X6. When the current vendor mode is not a key of the capability
    table, [min_temp], [max_temp], [target_temperature_step], [fan_modes]
    and [swing_modes] all raise the [KeyError] of that mode. *)
Theorem unknown_current_mode_fails_the_capabilities
    (e : AirconEntity) (mode : string) :
  _remo_mode e = Some mode ->
  _modes e !! mode = None ->
  min_temp e = Raise (KeyError mode) /\
  max_temp e = Raise (KeyError mode) /\
  target_temperature_step e = Raise (KeyError mode) /\
  fan_modes e = Raise (KeyError mode) /\
  swing_modes e = Raise (KeyError mode).
Proof.
  intros Hm Hr.
  unfold min_temp, max_temp, target_temperature_step, fan_modes, swing_modes,
    _current_mode_temp_range.
  by rewrite Hm, Hr.
Qed.

(** ** Commands that fail *)

Lemma set_settings_returns self data w e :
  entities w !! self = Some e -> fst (_set_settings self data w) = Ok tt.
Proof.
  intros He. pose proof (set_settings_upd self data e w) as H.
  rewrite (upd_id _ _ _ He) in H. by rewrite H.
Qed.

Lemma set_settings_missing self data w :
  entities w !! self = None ->
  _set_settings self data w = (Raise ReferenceError, w).
Proof.
  intros He. unfold _set_settings. by rewrite bind_eq, (self_get_missing _ _ He).
Qed.

Lemma staged_temperature_ok t : exists s, staged_temperature t = Ok s.
Proof.
  unfold staged_temperature. destruct (is_integer t) eqn:Hi; [| by eexists].
  destruct (is_integer_to_int _ Hi) as [n ->]. by eexists.
Qed.

(** Staging fails for one mode only, the one without a vendor name. *)
Lemma staged_data_raise d t m x :
  staged_data (Ok d) t m = Raise x ->
  m = Some HEAT_COOL /\ exists k, x = KeyError k.
Proof.
  unfold staged_data.
  assert (Hm : forall y,
    match m with Some m => staged_hvac_mode (Ok d) m | None => Ok ∅ end
      = Raise y ->
    m = Some HEAT_COOL /\ exists k, y = KeyError k).
  { intros y. destruct m as [m|]; [| done].
    unfold staged_hvac_mode, default_fields.
    destruct m; simpl; try done;
      try (destruct (d !! _) as [v|]; [destruct (decide (v = "")) |]; done).
    intros [= <-]. eauto. }
  destruct (match m with Some m => _ | None => _ end) as [data|y].
  - destruct t as [t|]; [| done].
    destruct (staged_temperature_ok t) as [s' ->]. done.
  - intros [= <-]. by apply Hm.
Qed.

(** X7. A command that raises changes nothing: nothing is staged, no
    timer is armed or cancelled. For an instance that exists, the
    exception is a [KeyError], and the command is a mode change to
    [HEAT_COOL], with or without a temperature. *)
Theorem failed_command_changes_nothing
    (w : World) (self : string) (c : command) (x : exn) :
  fst (issue self c w) = Raise x ->
  snd (issue self c w) = w /\
  (forall e, entities w !! self = Some e ->
     (exists k, x = KeyError k) /\
     (c = SetHvacMode HEAT_COOL \/
      exists t, c = SetTemperature t (Some HEAT_COOL))).
Proof.
  intros Hx.
  destruct (entities w !! self) as [e|] eqn:He.
  - assert (Hr : targets_read self w = Ok (last_target_temperature_of w e)).
    { unfold targets_read. by rewrite He. }
    assert (Hst : forall t m,
      fst (set_temperature self t m w) = Raise x ->
      snd (set_temperature self t m w) = w /\
      m = Some HEAT_COOL /\ exists k, x = KeyError k).
    { intros t m. unfold set_temperature.
      rewrite bind_eq, set_temperature_data_eq, Hr.
      destruct (staged_data _ t m) as [data|y] eqn:Hs; simpl.
      - by rewrite (set_settings_returns _ _ _ _ He).
      - intros [= ->]. split; [done |]. by apply (staged_data_raise _ _ _ _ Hs). }
    destruct c as [t m|m|f|s]; simpl in *.
    + destruct (Hst _ _ Hx) as (Hw & -> & Hk). split; [done |].
      intros e' _. split; [done |]. right. by exists t.
    + destruct (Hst _ _ Hx) as (Hw & [= ->] & Hk). split; [done |].
      intros e' _. split; [done |]. by left.
    + unfold set_fan_mode in Hx. by rewrite (set_settings_returns _ _ _ _ He) in Hx.
    + unfold set_swing_mode in Hx. by rewrite (set_settings_returns _ _ _ _ He) in Hx.
  - split; [| done].
    assert (Hr : targets_read self w = Raise ReferenceError).
    { unfold targets_read. by rewrite He. }
    destruct c as [t m|m|f|s]; simpl;
      unfold set_hvac_mode, set_temperature, set_fan_mode, set_swing_mode;
      rewrite ?bind_eq, ?set_temperature_data_eq, ?Hr, ?set_settings_missing;
      try done;
      match goal with
      | |- context [staged_data ?a ?b ?c] => destruct (staged_data a b c)
      end; by rewrite ?set_settings_missing.
Qed.

(** ** What commands and confirmations leave alone *)

Lemma confirmed_view_upd self e e' w :
  entities w !! self = Some e ->
  confirmed_of e' = confirmed_of e ->
  confirmed_view (upd self e' w) = confirmed_view w.
Proof.
  intros He Heq. unfold confirmed_view, upd. simpl. do 3 f_equal.
  rewrite fmap_insert. apply insert_id. by rewrite lookup_fmap, He, Heq.
Qed.

Lemma pending_view_upd self e e' w :
  entities w !! self = Some e ->
  pending_of e' = pending_of e ->
  pending_view (upd self e' w) = pending_view w.
Proof.
  intros He Heq. unfold pending_view, upd. simpl. do 5 f_equal.
  rewrite fmap_insert. apply insert_id. by rewrite lookup_fmap, He, Heq.
Qed.

Lemma keeps_confirmed_self_set v self f :
  (forall e, confirmed_of (f e) = confirmed_of e) ->
  preserves (fun w => confirmed_view w = v) (self_set self f).
Proof.
  intros Hf. apply preserves_self_set. intros w e <- He.
  by apply (confirmed_view_upd _ e).
Qed.

Lemma keeps_pending_self_set v self f :
  (forall e, pending_of (f e) = pending_of e) ->
  preserves (fun w => pending_view w = v) (self_set self f).
Proof.
  intros Hf. apply preserves_self_set. intros w e <- He.
  by apply (pending_view_upd _ e).
Qed.

(** X8. A command, accepted or not, leaves the confirmed state alone: for
    every instance the mode, the target temperature, the HVAC mode, the
    fan, the swing, the unit, the timestamp, the capability table and the
    recorded targets, and with them the targets of the class, the requests
    sent and the listeners. It changes the pending fields and the event
    loop only. *)
Theorem command_keeps_confirmed_state (w : World) (self : string) (c : command) :
  confirmed_view (snd (issue self c w)) = confirmed_view w.
Proof.
  assert (Hset : forall data v,
    preserves (fun w => confirmed_view w = v) (_set_settings self data)).
  { intros data v. unfold _set_settings. preserve;
      try (by apply keeps_confirmed_self_set);
      try (by apply preserves_modify_world; intros w' <-). }
  assert (Hst : forall t m v,
    preserves (fun w => confirmed_view w = v) (set_temperature self t m)).
  { intros t m v. unfold set_temperature. preserve. apply Hset. }
  destruct c as [t m|m|f|s]; simpl;
    first [ by apply (Hst _ _ (confirmed_view w))
          | by apply (Hset _ (confirmed_view w)) ].
Qed.

Lemma on_settings_update_keeps_pending self ac_settings w :
  pending_view (snd (_on_settings_update self ac_settings w)) = pending_view w.
Proof.
  assert (H : preserves (fun w' => pending_view w' = pending_view w)
                (_on_settings_update self ac_settings)).
  { unfold _on_settings_update. preserve;
      try (by apply keeps_pending_self_set).
    unfold setitem_last_target_temperature. preserve;
      try (by apply keeps_pending_self_set).
    by apply preserves_modify_world; intros w' <-. }
  by apply H.
Qed.

(** X9. The confirmation that [_on_post] applies once the transport has
    answered, whether it raises or not, leaves alone the fields pending for
    every instance and the handle of its timer, the calls scheduled on the
    loop, the clock and the requests sent: a command issued while the
    request was in flight is not lost. *)
Theorem confirmation_keeps_pending_commands
    (w : World) (self : string) (ac_settings : gmap string string) :
  pending_view (snd (_on_post_resume self ac_settings w)) = pending_view w.
Proof. apply on_settings_update_keeps_pending. Qed.

(** ** A confirmed update, field by field *)

(** A confirmed update of a known instance up to the HVAC mode: the mode
    and the target are set, and the target recorded when it parses. *)
Lemma on_settings_update_head self ac_settings mode e w :
  ac_settings !! "mode" = Some mode ->
  exists e1 w1,
    _remo_mode e1 = Some mode /\
    _attr_target_temperature e1 = ac_settings !! "temp" ≫= PyFloat.of_str /\
    last_target_temperature_of w1 e1 =
      match ac_settings !! "temp" with
      | Some t =>
          match PyFloat.of_str t with
          | Some _ => <[mode := t]> (last_target_temperature_of w e)
          | None => last_target_temperature_of w e
          end
      | None => last_target_temperature_of w e
      end /\
    pending_of e1 = pending_of e /\
    (_remo_id e1, _modes e1, _attr_hvac_mode e1, _attr_fan_mode e1,
     _attr_swing_mode e1, _attr_temperature_unit e1, _updated_at e1) =
    (_remo_id e, _modes e, _attr_hvac_mode e, _attr_fan_mode e,
     _attr_swing_mode e, _attr_temperature_unit e, _updated_at e) /\
    forall rest : string -> M unit,
      (mode' ← getitem ac_settings "mode";
       self_set self (set_remo_mode (Some mode'));;
       match ac_settings !! "temp" with
       | Some t =>
           match PyFloat.of_str t with
           | Some x =>
               self_set self (set_attr_target_temperature (Some x));;
               setitem_last_target_temperature self mode' t
           | None => self_set self (set_attr_target_temperature None)
           end
       | None => self_set self (set_attr_target_temperature None)
       end;;
       rest mode') (upd self e w) = rest mode (upd self e1 w1).
Proof.
  intros Hmode.
  destruct (ac_settings !! "temp") as [t|] eqn:Ht;
    [destruct (PyFloat.of_str t) as [x|] eqn:Hx |].
  - destruct (_last_target_temperature e) as [d|] eqn:Hd.
    + exists (set_last_target_temperature (Some (<[mode := t]> d))
                (set_attr_target_temperature (Some x)
                   (set_remo_mode (Some mode) e))), w.
      repeat split; simpl; try done.
      * unfold last_target_temperature_of. simpl. by rewrite Hd.
      * intros rest. repeat mstep. unfold record_target. simpl. by rewrite Hd.
    + exists (set_attr_target_temperature (Some x) (set_remo_mode (Some mode) e)),
        (with_class_last_target_temperature
           (<[mode := t]> (class_last_target_temperature w)) w).
      repeat split; simpl; try done.
      * unfold last_target_temperature_of. simpl. by rewrite Hd.
      * intros rest. repeat mstep. unfold record_target. simpl. by rewrite Hd.
  - exists (set_attr_target_temperature None (set_remo_mode (Some mode) e)), w.
    repeat split; simpl; try done. intros rest. by repeat mstep.
  - exists (set_attr_target_temperature None (set_remo_mode (Some mode) e)), w.
    repeat split; simpl; try done. intros rest. by repeat mstep.
Qed.

(** A confirmed update with well-formed settings, for a known instance. *)
Lemma on_settings_update_applied
    (w : World) (self : string) (e : AirconEntity)
    (ac_settings : gmap string string)
    (mode button v d u a : string) (tu : UnitOfTemperature) :
  entities w !! self = Some e ->
  ac_settings !! "mode" = Some mode ->
  ac_settings !! "button" = Some button ->
  ac_settings !! "vol" = Some v ->
  ac_settings !! "dir" = Some d ->
  ac_settings !! "temp_unit" = Some u ->
  ac_settings !! "updated_at" = Some a ->
  TEMP_UNIT_REMO_TO_HA u = Some tu ->
  button = "power-off" \/ is_Some (MODE_REMO_TO_HA mode) ->
  exists e' w',
    _on_settings_update self ac_settings w = (Ok tt, w') /\
    entities w' !! self = Some e' /\
    _remo_mode e' = Some mode /\
    _attr_target_temperature e' = ac_settings !! "temp" ≫= PyFloat.of_str /\
    targets_read self w' =
      Ok match ac_settings !! "temp" with
         | Some t =>
             match PyFloat.of_str t with
             | Some _ => <[mode := t]> (last_target_temperature_of w e)
             | None => last_target_temperature_of w e
             end
         | None => last_target_temperature_of w e
         end /\
    _attr_hvac_mode e' =
      (if decide (button = "power-off") then Some OFF
       else MODE_REMO_TO_HA mode) /\
    _attr_fan_mode e' = or_None v /\
    _attr_swing_mode e' = or_None d /\
    _attr_temperature_unit e' = Some tu /\
    _updated_at e' = or_None a /\
    _modes e' = _modes e /\
    _remo_id e' = _remo_id e.
Proof.
  intros He Hmode Hbutton Hvol Hdir Hu Ha Hunit Hhvac.
  destruct (on_settings_update_head self ac_settings mode e w Hmode)
    as (e1 & w1 & Hm1 & Ht1 & Hl1 & Hp1 & Hf1 & Hrun).
  injection Hf1 as Hid Hmodes _ _ _ _ _.
  pose (e' := set_updated_at (or_None a)
           (set_attr_temperature_unit (Some tu)
             (set_attr_swing_mode (or_None d)
               (set_attr_fan_mode (or_None v)
                 (set_attr_hvac_mode
                    (if decide (button = "power-off") then Some OFF
                     else MODE_REMO_TO_HA mode) e1))))).
  exists e', (upd self e' w1).
  split.
  - rewrite <-(upd_id self e w He) at 1.
    unfold _on_settings_update. rewrite Hrun. repeat mstep. subst e'.
    case_decide as Hoff.
    + repeat mstep. rewrite Hunit. simpl. by repeat mstep.
    + destruct Hhvac as [? | [m Hm]]; [done |].
      rewrite Hm. simpl. repeat mstep. rewrite Hunit. simpl. by repeat mstep.
  - split; [apply lookup_upd |]. repeat split; try done.
    unfold targets_read. rewrite lookup_upd. f_equal. by rewrite <-Hl1.
Qed.

Lemma target_read_eq self mode w d :
  targets_read self w = Ok d -> target_read self mode w = d !! mode.
Proof. intros H. unfold target_read. by rewrite H. Qed.

(** X10. A confirmed update with well-formed settings whose [temp] is
    accepted by [float] does not raise; it sets the target temperature to
    that float and records the string for the confirmed vendor mode, the
    targets recorded for the other modes staying as they were. *)
Theorem confirmed_update_records_target
    (w : World) (self : string) (e : AirconEntity)
    (ac_settings : gmap string string)
    (mode t button v d u a : string) (x : float) (tu : UnitOfTemperature) :
  entities w !! self = Some e ->
  ac_settings !! "mode" = Some mode ->
  ac_settings !! "temp" = Some t ->
  PyFloat.of_str t = Some x ->
  ac_settings !! "button" = Some button ->
  ac_settings !! "vol" = Some v ->
  ac_settings !! "dir" = Some d ->
  ac_settings !! "temp_unit" = Some u ->
  ac_settings !! "updated_at" = Some a ->
  TEMP_UNIT_REMO_TO_HA u = Some tu ->
  button = "power-off" \/ is_Some (MODE_REMO_TO_HA mode) ->
  exists e' w',
    _on_settings_update self ac_settings w = (Ok tt, w') /\
    entities w' !! self = Some e' /\
    _attr_target_temperature e' = Some x /\
    target_read self mode w' = Some t /\
    (forall other, other ≠ mode ->
       target_read self other w' = target_read self other w).
Proof.
  intros He Hmode Htemp Hx Hbutton Hvol Hdir Hu Ha Hunit Hhvac.
  destruct (on_settings_update_applied w self e ac_settings mode button v d u a
              tu He Hmode Hbutton Hvol Hdir Hu Ha Hunit Hhvac)
    as (e' & w' & Hrun & He' & _ & Ht & Hl & _).
  rewrite Htemp in Ht, Hl. simpl in Ht. rewrite Hx in Ht, Hl.
  exists e', w'. split; [done |]. split; [done |]. split; [done |].
  assert (Hr : targets_read self w = Ok (last_target_temperature_of w e)).
  { unfold targets_read. by rewrite He. }
  split.
  - rewrite (target_read_eq _ _ _ _ Hl). apply lookup_insert_eq.
  - intros other Hne.
    rewrite (target_read_eq _ _ _ _ Hl), (target_read_eq _ _ _ _ Hr).
    by apply lookup_insert_ne.
Qed.

(** X11. A confirmed update that says the unit is off gives the HVAC mode
    off, and keeps the vendor mode of the settings as the current mode:
    [fan_modes], [swing_modes] and the temperature range are then those the
    capability table lists for that vendor mode. *)
Theorem capabilities_follow_the_mode_while_off
    (w : World) (self : string) (e : AirconEntity)
    (ac_settings : gmap string string)
    (mode v d u a : string) (tu : UnitOfTemperature) (r : ModeRange) :
  entities w !! self = Some e ->
  ac_settings !! "mode" = Some mode ->
  ac_settings !! "button" = Some "power-off" ->
  ac_settings !! "vol" = Some v ->
  ac_settings !! "dir" = Some d ->
  ac_settings !! "temp_unit" = Some u ->
  ac_settings !! "updated_at" = Some a ->
  TEMP_UNIT_REMO_TO_HA u = Some tu ->
  _modes e !! mode = Some r ->
  exists e' w',
    _on_settings_update self ac_settings w = (Ok tt, w') /\
    entities w' !! self = Some e' /\
    _attr_hvac_mode e' = Some OFF /\
    _remo_mode e' = Some mode /\
    fan_modes e' = Ok (vol r) /\
    swing_modes e' = Ok (dir r) /\
    _current_mode_temp_range e' =
      match mapM PyFloat.of_str (filter (fun s => s ≠ "") (temp r)) with
      | Some xs => Ok xs
      | None => Raise ValueError
      end.
Proof.
  intros He Hmode Hbutton Hvol Hdir Hu Ha Hunit Hr.
  destruct (on_settings_update_applied w self e ac_settings mode "power-off"
              v d u a tu He Hmode Hbutton Hvol Hdir Hu Ha Hunit
              (or_introl eq_refl))
    as (e' & w' & Hrun & He' & Hm & _ & _ & Hh & _ & _ & _ & _ & Hmodes & _).
  exists e', w'. split; [done |]. split; [done |].
  split; [by rewrite Hh |]. split; [done |].
  rewrite <-Hmodes in Hr.
  unfold fan_modes, swing_modes.
  by rewrite (current_mode_temp_range_eq _ _ _ Hm Hr), Hm, Hr.
Qed.

(** X12. After a confirmed update with the unit on, in a vendor mode of
    the mode table and with a [temp] that [float] accepts, the HVAC mode is
    the translation of the vendor mode, and a change to that HVAC mode
    stages that vendor mode and that [temp] again. *)
Theorem resending_the_confirmed_mode
    (w : World) (self : string) (e : AirconEntity)
    (ac_settings : gmap string string)
    (mode t button v d u a : string) (x : float) (m : HVACMode)
    (tu : UnitOfTemperature) :
  entities w !! self = Some e ->
  ac_settings !! "mode" = Some mode ->
  ac_settings !! "temp" = Some t ->
  PyFloat.of_str t = Some x ->
  ac_settings !! "button" = Some button ->
  button ≠ "power-off" ->
  MODE_REMO_TO_HA mode = Some m ->
  mode ≠ "power-off" ->
  ac_settings !! "vol" = Some v ->
  ac_settings !! "dir" = Some d ->
  ac_settings !! "temp_unit" = Some u ->
  ac_settings !! "updated_at" = Some a ->
  TEMP_UNIT_REMO_TO_HA u = Some tu ->
  exists e' w',
    _on_settings_update self ac_settings w = (Ok tt, w') /\
    entities w' !! self = Some e' /\
    _attr_hvac_mode e' = Some m /\
    set_temperature_data self None (Some m) w' =
      (Ok {[ "operation_mode" := VStr mode; "temperature" := VStr t ]}, w').
Proof.
  intros He Hmode Htemp Hx Hbutton Hon Hm Hmode_on Hvol Hdir Hu Ha Hunit.
  destruct (on_settings_update_applied w self e ac_settings mode button v d u a
              tu He Hmode Hbutton Hvol Hdir Hu Ha Hunit
              (or_intror (ex_intro _ m Hm)))
    as (e' & w' & Hrun & He' & _ & _ & Hl & Hh & _).
  rewrite Htemp, Hx in Hl. rewrite decide_False, Hm in Hh by done.
  exists e', w'. split; [done |]. split; [done |]. split; [done |].
  rewrite set_temperature_data_eq, Hl. f_equal.
  unfold staged_data, staged_hvac_mode.
  rewrite (MODE_REMO_TO_HA_inv _ _ Hm), decide_False by done.
  rewrite lookup_insert_eq.
  rewrite decide_False; [| intros ->; by rewrite of_str_empty in Hx].
  reflexivity.
Qed.

(** X13. A confirmed update with the unit on and a vendor mode that the
    mode table does not have raises [KeyError] for that mode, after the
    current mode and the target temperature are set and the target is
    recorded: the HVAC mode, the fan, the swing, the unit and the timestamp
    stay those of the update before. *)
Theorem unknown_mode_fails_after_the_target_is_set
    (w : World) (self : string) (e : AirconEntity)
    (ac_settings : gmap string string) (mode t button : string) (x : float) :
  entities w !! self = Some e ->
  ac_settings !! "mode" = Some mode ->
  MODE_REMO_TO_HA mode = None ->
  ac_settings !! "temp" = Some t ->
  PyFloat.of_str t = Some x ->
  ac_settings !! "button" = Some button ->
  button ≠ "power-off" ->
  exists e' w',
    _on_settings_update self ac_settings w = (Raise (KeyError mode), w') /\
    entities w' !! self = Some e' /\
    _remo_mode e' = Some mode /\
    _attr_target_temperature e' = Some x /\
    target_read self mode w' = Some t /\
    _attr_hvac_mode e' = _attr_hvac_mode e /\
    _attr_fan_mode e' = _attr_fan_mode e /\
    _attr_swing_mode e' = _attr_swing_mode e /\
    _attr_temperature_unit e' = _attr_temperature_unit e /\
    _updated_at e' = _updated_at e.
Proof.
  intros He Hmode Hm Htemp Hx Hbutton Hon.
  destruct (on_settings_update_head self ac_settings mode e w Hmode)
    as (e1 & w1 & Hm1 & Ht1 & Hl1 & Hp1 & Hf1 & Hrun).
  injection Hf1 as _ _ Hh Hf Hs Hu Ha.
  rewrite Htemp in Ht1, Hl1. simpl in Ht1. rewrite Hx in Ht1, Hl1.
  exists e1, (upd self e1 w1). split.
  - rewrite <-(upd_id self e w He) at 1.
    unfold _on_settings_update. rewrite Hrun. repeat mstep.
    rewrite decide_False by done. rewrite Hm. simpl. by repeat mstep.
  - split; [apply lookup_upd |]. repeat split; try done.
    unfold target_read, targets_read. rewrite lookup_upd.
    change (last_target_temperature_of (upd self e1 w1) e1)
      with (last_target_temperature_of w1 e1).
    rewrite Hl1. apply lookup_insert_eq.
Qed.

(** ** The pending fields and the timer *)

Lemma same_handle_same_call (calls : list Timer) (t1 t2 : Timer) :
  NoDup (handle <$> calls) -> t1 ∈ calls -> t2 ∈ calls ->
  handle t1 = handle t2 -> t1 = t2.
Proof.
  intros Hnd H1 H2 Hh.
  apply list_elem_of_lookup in H1 as [i Hi].
  apply list_elem_of_lookup in H2 as [j Hj].
  assert (i = j); [| congruence].
  apply (NoDup_lookup _ i j (handle t1) Hnd).
  - by rewrite list_lookup_fmap, Hi.
  - by rewrite list_lookup_fmap, Hj, Hh.
Qed.

Lemma loop_consistent_fresh : loop_consistent fresh.
Proof.
  split; [constructor |]. split; [by intros t Ht; apply elem_of_nil in Ht |].
  split; [by intros t Ht; apply elem_of_nil in Ht |].
  split; intros self e; simpl; by rewrite lookup_empty.
Qed.

(** A world with the same pending commands and the same loop. *)
Lemma loop_consistent_same_pending w w' :
  pending_view w' = pending_view w -> loop_consistent w -> loop_consistent w'.
Proof.
  unfold pending_view. intros [= Hents Ht Hn _ _ _].
  assert (Hlook : forall self e',
    entities w' !! self = Some e' ->
    exists e, entities w !! self = Some e /\ pending_of e = pending_of e').
  { intros self e' He'.
    assert (H := f_equal (fun m => m !! self) Hents). simpl in H.
    rewrite !lookup_fmap, He' in H.
    destruct (entities w !! self) as [e|]; [| done].
    exists e. split; [done |]. simpl in H. congruence. }
  assert (Hlook' : forall self e,
    entities w !! self = Some e ->
    exists e', entities w' !! self = Some e' /\ pending_of e = pending_of e').
  { intros self e He.
    assert (H := f_equal (fun m => m !! self) Hents). simpl in H.
    rewrite !lookup_fmap, He in H.
    destruct (entities w' !! self) as [e'|]; [| done].
    exists e'. split; [done |]. simpl in H. congruence. }
  unfold loop_consistent. rewrite Ht.
  intros (Hnd & Hlt & Hown & Hkept & Hiff).
  split; [done |]. split; [by rewrite Hn |]. split; [| split].
  - intros t Hin. destruct (Hown t Hin) as (e & He & Hc).
    destruct (Hlook' _ _ He) as (e' & He' & [= _ Hpc]).
    exists e'. split; [done |]. congruence.
  - intros self e' h He' Hc.
    destruct (Hlook _ _ He') as (e & He & [= _ Hpc]).
    apply (Hkept self e h He). congruence.
  - intros self e' He'.
    destruct (Hlook _ _ He') as (e & He & [= Hns Hpc]).
    rewrite <-Hns, <-Hpc. apply (Hiff self e He).
Qed.

(** A command that is accepted. *)
Lemma loop_consistent_set_settings w self e data :
  loop_consistent w ->
  entities w !! self = Some e ->
  loop_consistent (snd (_set_settings self data w)).
Proof.
  intros (Hnd & Hlt & Hown & Hkept & Hiff) He.
  pose proof (set_settings_upd self data e w) as Hrun.
  rewrite (upd_id _ _ _ He) in Hrun. rewrite Hrun. clear Hrun. simpl.
  set (old := match _post_cancel e with
              | Some h => filter (fun t => handle t ≠ h) (timers w)
              | None => timers w
              end).
  set (nh := next_handle w).
  set (new := {| handle := nh; due := (now w + 100)%nat; owner := self |}).
  set (acc := match _next_settings e with
              | Some d => data ∪ d
              | None => data
              end).
  assert (Hold : forall t, t ∈ old <-> t ∈ timers w /\ owner t ≠ self).
  { intros t. subst old. destruct (_post_cancel e) as [h|] eqn:Hc.
    - rewrite list_elem_of_filter. split.
      + intros [Hh Hin]. split; [done |]. intros Ho.
        destruct (Hown t Hin) as (e0 & He0 & Hc0).
        rewrite Ho, He in He0. injection He0 as <-. congruence.
      + intros [Hin Ho]. split; [| done]. intros Hh.
        destruct (Hkept self e h He Hc) as (t' & Hin' & Hh' & Ho').
        assert (t = t') by (apply (same_handle_same_call (timers w)); congruence).
        congruence.
    - split; [| by intros [? _]].
      intros Hin. split; [done |]. intros Ho.
      destruct (Hown t Hin) as (e0 & He0 & Hc0).
      rewrite Ho, He in He0. injection He0 as <-. congruence. }
  assert (Hsub : sublist old (timers w)).
  { subst old. destruct (_post_cancel e); [apply sublist_filter | done]. }
  unfold loop_consistent, consistent_with, upd, pending. simpl.
  fold nh. fold new.
  split; [| split; [| split; [| split]]].
  - rewrite fmap_app. apply NoDup_app. split; [| split].
    + eapply sublist_NoDup; [exact Hnd |]. by apply fmap_sublist.
    + intros x Hx. simpl. intros Hnew. apply list_elem_of_singleton in Hnew.
      apply list_elem_of_fmap in Hx as (t & -> & Hin).
      apply Hold in Hin as [Hin _]. specialize (Hlt t Hin). subst nh. lia.
    + simpl. apply NoDup_singleton.
  - intros t Hin. apply elem_of_app in Hin as [Hin | Hin].
    + apply Hold in Hin as [Hin _]. specialize (Hlt t Hin). lia.
    + apply list_elem_of_singleton in Hin as ->. simpl. lia.
  - intros t Hin. apply elem_of_app in Hin as [Hin | Hin].
    + apply Hold in Hin as [Hin Ho].
      destruct (Hown t Hin) as (e0 & He0 & Hc0).
      exists e0. by rewrite lookup_insert_ne.
    + apply list_elem_of_singleton in Hin as ->. simpl.
      exists (pending acc nh e). by rewrite lookup_insert_eq.
  - intros self' e' h. rewrite lookup_insert. case_decide as Hs.
    + intros [= <-]. simpl. intros [= <-]. exists new.
      split; [| by subst self'].
      apply elem_of_app. right. apply list_elem_of_here.
    + intros He' Hc'. destruct (Hkept self' e' h He' Hc') as (t & Hin & Hh & Ho).
      exists t. split; [| done]. apply elem_of_app. left. apply Hold.
      split; [done | congruence].
  - intros self' e'. rewrite lookup_insert. case_decide as Hs.
    + intros [= <-]. simpl. split; discriminate.
    + apply Hiff.
Qed.

(** A command either fails and changes nothing, or stages some fields. *)
Lemma issue_cases self c w :
  snd (issue self c w) = w \/
  exists e data, entities w !! self = Some e /\
                 snd (issue self c w) = snd (_set_settings self data w).
Proof.
  destruct (entities w !! self) as [e|] eqn:He.
  - rewrite <-He.
    assert (Hr : targets_read self w = Ok (last_target_temperature_of w e)).
    { unfold targets_read. by rewrite He. }
    assert (Hst : forall t m,
      snd (set_temperature self t m w) = w \/
      exists e data, entities w !! self = Some e /\
        snd (set_temperature self t m w) = snd (_set_settings self data w)).
    { intros t m. unfold set_temperature.
      rewrite bind_eq, set_temperature_data_eq.
      destruct (staged_data _ t m) as [d|x]; [| by left].
      right. by exists e, d. }
    destruct c as [t m|m|f|s]; simpl.
    + apply Hst.
    + apply Hst.
    + right. by exists e, {[ "air_volume" := VStr f ]}.
    + right. by exists e, {[ "air_direction" := VStr s ]}.
  - left.
    assert (Hr : targets_read self w = Raise ReferenceError).
    { unfold targets_read. by rewrite He. }
    destruct c as [t m|m|f|s]; simpl;
      unfold set_hvac_mode, set_temperature, set_fan_mode, set_swing_mode;
      rewrite ?bind_eq, ?set_temperature_data_eq, ?Hr, ?set_settings_missing;
      try done;
      match goal with
      | |- context [staged_data ?a ?b ?c] => destruct (staged_data a b c)
      end; by rewrite ?set_settings_missing.
Qed.

Lemma loop_consistent_issue w self c :
  loop_consistent w -> loop_consistent (snd (issue self c w)).
Proof.
  intros Hw. destruct (issue_cases self c w) as [-> | (e & data & He & ->)].
  - done.
  - by apply (loop_consistent_set_settings _ _ e).
Qed.

Lemma consistent_with_perm l1 l2 w :
  l1 ≡ₚ l2 -> consistent_with l1 w -> consistent_with l2 w.
Proof.
  intros Hp (Hnd & Hlt & Hown & Hkept & Hiff).
  split; [| split; [| split; [| split]]].
  - by rewrite <-Hp.
  - intros t Hin. apply Hlt. by rewrite Hp.
  - intros t Hin. apply Hown. by rewrite Hp.
  - intros self e h He Hc.
    destruct (Hkept self e h He Hc) as (t & Hin & Ht).
    exists t. by rewrite <-Hp.
  - done.
Qed.

(** A call that is due runs: its owner is left with nothing pending. *)
Lemma consistent_with_fire c rem w :
  consistent_with (timers w ++ c :: rem) w ->
  consistent_with (timers (snd (_on_post (owner c) w)) ++ rem)
                  (snd (_on_post (owner c) w)).
Proof.
  intros Hw.
  assert (Hw' : consistent_with (c :: timers w ++ rem) w).
  { revert Hw. apply consistent_with_perm.
    symmetry. apply Permutation_middle. }
  clear Hw. destruct Hw' as (Hnd & Hlt & Hown & Hkept & Hiff).
  destruct (Hown c) as (e & He & Hc); [apply list_elem_of_here |].
  pose proof (on_post_upd (owner c) e w) as Hrun.
  rewrite (upd_id _ _ _ He) in Hrun. rewrite Hrun. clear Hrun.
  unfold upd. simpl.
  rewrite fmap_cons in Hnd. apply NoDup_cons in Hnd as [Hc_new Hnd].
  assert (Hother : forall t, t ∈ timers w ++ rem -> owner t ≠ owner c).
  { intros t Hin Ho.
    destruct (Hown t) as (e0 & He0 & Hc0); [by apply list_elem_of_further |].
    rewrite Ho, He in He0. injection He0 as <-.
    apply Hc_new. apply list_elem_of_fmap. exists t. split; [congruence | done]. }
  split; [| split; [| split; [| split]]]; simpl.
  - done.
  - intros t Hin. apply Hlt. by apply list_elem_of_further.
  - intros t Hin.
    destruct (Hown t) as (e0 & He0 & Hc0); [by apply list_elem_of_further |].
    exists e0. rewrite lookup_insert_ne; [done |].
    intros Ho. by apply (Hother t).
  - intros self e' h. rewrite lookup_insert. case_decide as Hs.
    + by intros [= <-].
    + intros He' Hc'. destruct (Hkept self e' h He' Hc') as (t & Hin & Hh & Ho).
      exists t. split; [| done].
      apply elem_of_cons in Hin as [-> | Hin]; [congruence | done].
  - intros self e'. rewrite lookup_insert. case_decide as Hs.
    + by intros [= <-].
    + apply Hiff.
Qed.

Lemma loop_consistent_tick w :
  loop_consistent w -> loop_consistent (tick w).
Proof.
  intros Hw. unfold tick.
  set (t := S (now w)).
  set (ready := filter (fun c => (due c ≤ t)%nat) (timers w)).
  set (later := filter (fun c => ¬ (due c ≤ t)%nat) (timers w)).
  set (w1 := with_now t (with_timers later w)).
  assert (H1 : consistent_with (timers w1 ++ ready) w1).
  { assert (Hp : timers w ≡ₚ later ++ ready).
    { subst later ready. rewrite (comm (++)).
      symmetry. apply filter_app_complement. }
    apply (consistent_with_perm _ _ _ Hp) in Hw.
    exact Hw. }
  clearbody w1 ready. clear Hw later t.
  revert w1 H1. induction ready as [|c rem IH]; intros w1 H1; simpl.
  - unfold loop_consistent. by rewrite app_nil_r in H1.
  - apply IH. by apply consistent_with_fire.
Qed.

Lemma loop_consistent_exec w ev :
  loop_consistent w -> loop_consistent (exec w ev).
Proof.
  intros Hw. destruct ev as [self c| |self ac_settings|self]; simpl.
  - by apply loop_consistent_issue.
  - by apply loop_consistent_tick.
  - revert Hw. apply loop_consistent_same_pending.
    apply on_settings_update_keeps_pending.
  - done.
Qed.

(** ** From the setup on *)

Lemma at_rest_loop_consistent w : at_rest w -> loop_consistent w.
Proof.
  intros [Ht Hq]. unfold loop_consistent. rewrite Ht.
  split; [| split; [| split; [| split]]].
  - apply NoDup_nil_2.
  - intros t Hin. by apply elem_of_nil in Hin.
  - intros t Hin. by apply elem_of_nil in Hin.
  - intros self e h He Hc. destruct (Hq self e He) as [_ Hp]. congruence.
  - intros self e He. destruct (Hq self e He) as [-> ->]. done.
Qed.

Lemma at_rest_same_pending w w' :
  pending_view w' = pending_view w -> at_rest w -> at_rest w'.
Proof.
  unfold pending_view. intros [= Hents Ht _ _ _ _] [Hq1 Hq2].
  split; [congruence |].
  intros self e He.
  assert (H : (pending_of <$> entities w) !! self = Some (pending_of e)).
  { by rewrite <-Hents, lookup_fmap, He. }
  rewrite lookup_fmap in H.
  destruct (entities w !! self) as [e0|] eqn:He0; [| done].
  simpl in H. injection H as H1 H2.
  destruct (Hq2 self e0 He0). split; congruence.
Qed.

Lemma at_rest_init a w : at_rest w -> at_rest (snd (init a w)).
Proof.
  intros [Ht Hq]. unfold init.
  rewrite !step_modify_world.
  apply (at_rest_same_pending _ _ (on_settings_update_keeps_pending _ _ _)).
  split; [done |]. simpl.
  intros self e. rewrite lookup_insert. case_decide.
  - by intros [= <-].
  - apply Hq.
Qed.

Lemma at_rest_added self attributes w :
  at_rest w -> at_rest (snd (async_added_to_hass self attributes w)).
Proof.
  intros Hw. unfold async_added_to_hass.
  destruct attributes as [a|]; [| done].
  rewrite bind_eq. unfold getitem.
  destruct (a !! "previous_target_temperature") as [d|]; [| done].
  simpl. destruct (entities w !! self) as [e|] eqn:He.
  - rewrite (self_set_ok _ _ _ _ He). simpl.
    revert Hw. apply at_rest_same_pending. by apply (pending_view_upd _ e).
  - by rewrite (self_set_missing _ _ _ He).
Qed.

Lemma at_rest_setup apps : at_rest (setup apps).
Proof.
  unfold setup.
  assert (H : at_rest fresh).
  { split; [done |]. intros self e He. simpl in He. by rewrite lookup_empty in He. }
  revert H. generalize fresh.
  induction apps as [|a apps IH]; intros w Hw; [done |].
  simpl. apply IH. by apply at_rest_added, at_rest_init.
Qed.

Lemma loop_consistent_run evs w :
  loop_consistent w -> loop_consistent (run evs w).
Proof.
  revert w. induction evs as [|ev evs IH]; intros w Hw; [done |].
  simpl. apply IH. by apply loop_consistent_exec.
Qed.

Lemma filter_none {A} (P : A -> Prop) `{forall x, Decision (P x)} (l : list A) :
  (forall x, x ∈ l -> ¬ P x) -> filter P l = [].
Proof.
  induction l as [|a l IH]; intros Hall; [done |].
  rewrite filter_cons_False by (apply Hall, list_elem_of_here).
  apply IH. intros x Hx. by apply Hall, list_elem_of_further.
Qed.

Lemma filter_unique {A} (P : A -> Prop) `{forall x, Decision (P x)}
    (l : list A) (t : A) :
  NoDup l -> t ∈ l -> P t -> (forall x, x ∈ l -> P x -> x = t) ->
  filter P l = [t].
Proof.
  induction l as [|a l IH]; intros Hnd Hin Ht Hall.
  - by apply elem_of_nil in Hin.
  - apply NoDup_cons in Hnd as [Ha Hnd].
    destruct (decide (P a)) as [Pa | Pa].
    + assert (a = t) as -> by (apply Hall; [apply list_elem_of_here | done]).
      rewrite filter_cons_True by done. f_equal.
      apply filter_none. intros x Hx Px.
      assert (x = t) as -> by (apply Hall; [by apply list_elem_of_further | done]).
      done.
    + rewrite filter_cons_False by done.
      apply IH; [done | | done |].
      * apply elem_of_cons in Hin as [-> | Hin]; done.
      * intros x Hx. apply Hall. by apply list_elem_of_further.
Qed.

(** X14. At any time after the platform is set up, whatever the host
    does, each instance either has no fields pending, no handle and no call
    scheduled on the loop, or has fields pending, and then exactly one call
    scheduled, the one whose handle it holds. *)
Theorem pending_fields_have_exactly_one_timer
    (apps : list (Appliance * option (gmap string (gmap string string))))
    (evs : list event) (self : string) (e : AirconEntity) :
  let w := run evs (setup apps) in
  entities w !! self = Some e ->
  match _next_settings e with
  | None =>
      _post_cancel e = None /\
      filter (fun t => owner t = self) (timers w) = []
  | Some _ =>
      exists t, _post_cancel e = Some (handle t) /\
                filter (fun t => owner t = self) (timers w) = [t]
  end.
Proof.
  intros w He.
  assert (Hw : loop_consistent w).
  { apply loop_consistent_run, at_rest_loop_consistent, at_rest_setup. }
  destruct Hw as (Hnd & Hlt & Hown & Hkept & Hiff).
  destruct (_next_settings e) as [d|] eqn:Hn.
  - destruct (_post_cancel e) as [h|] eqn:Hc.
    + destruct (Hkept self e h He Hc) as (t & Hin & Hh & Ho).
      exists t. split; [by rewrite Hh |].
      apply filter_unique; [by apply NoDup_fmap_1 in Hnd | done | done |].
      intros x Hx Hox.
      destruct (Hown x Hx) as (e0 & He0 & Hc0).
      rewrite Hox, He in He0. injection He0 as <-.
      apply (same_handle_same_call (timers w)); [done | done | done | congruence].
    + apply (Hiff self e He) in Hc. congruence.
  - assert (Hc : _post_cancel e = None) by by apply (Hiff self e He).
    split; [done |].
    apply filter_none. intros x Hx Hox.
    destruct (Hown x Hx) as (e0 & He0 & Hc0).
    rewrite Hox, He in He0. injection He0 as <-. congruence.
Qed.

(** ** What is sent, and when *)

Lemma set_settings_posted self data w :
  posted (snd (_set_settings self data w)) = posted w /\
  now (snd (_set_settings self data w)) = now w.
Proof.
  destruct (entities w !! self) as [e|] eqn:He.
  - pose proof (set_settings_upd self data e w) as Hrun.
    rewrite (upd_id _ _ _ He) in Hrun. by rewrite Hrun.
  - by rewrite set_settings_missing.
Qed.

Lemma issue_posted self c w :
  posted (snd (issue self c w)) = posted w /\
  now (snd (issue self c w)) = now w.
Proof.
  destruct (issue_cases self c w) as [-> | (e & data & He & ->)]; [done |].
  apply set_settings_posted.
Qed.

Lemma fire_sends_fields c rem w :
  consistent_with (timers w ++ c :: rem) w ->
  sends_fields w ->
  sends_fields (snd (_on_post (owner c) w)).
Proof.
  intros (Hnd & Hlt & Hown & Hkept & Hiff) Hp.
  destruct (Hown c) as (e & He & Hc).
  { apply elem_of_app. right. apply list_elem_of_here. }
  pose proof (on_post_upd (owner c) e w) as Hrun.
  rewrite (upd_id _ _ _ He) in Hrun. rewrite Hrun. clear Hrun.
  unfold sends_fields, upd. simpl.
  apply Forall_app. split; [done |].
  apply Forall_singleton. simpl.
  destruct (_next_settings e) as [d|] eqn:Hn; [by exists d |].
  apply (Hiff _ _ He) in Hn. congruence.
Qed.

Lemma sends_fields_tick w :
  loop_consistent w -> sends_fields w -> sends_fields (tick w).
Proof.
  intros Hw Hs. unfold tick.
  set (t := S (now w)).
  set (ready := filter (fun c => (due c ≤ t)%nat) (timers w)).
  set (later := filter (fun c => ¬ (due c ≤ t)%nat) (timers w)).
  set (w1 := with_now t (with_timers later w)).
  assert (H1 : consistent_with (timers w1 ++ ready) w1).
  { assert (Hp : timers w ≡ₚ later ++ ready).
    { subst later ready. rewrite (comm (++)).
      symmetry. apply filter_app_complement. }
    apply (consistent_with_perm _ _ _ Hp) in Hw.
    exact Hw. }
  assert (H2 : sends_fields w1) by done.
  clearbody w1 ready. clear Hw Hs later t.
  revert w1 H1 H2. induction ready as [|c rem IH]; intros w1 H1 H2; simpl.
  - done.
  - apply IH.
    + by apply consistent_with_fire.
    + by apply (fire_sends_fields c rem).
Qed.

Lemma sends_fields_exec w ev :
  loop_consistent w -> sends_fields w -> sends_fields (exec w ev).
Proof.
  intros Hw Hs. destruct ev as [self c| |self ac_settings|self]; simpl.
  - unfold sends_fields. by rewrite (proj1 (issue_posted self c w)).
  - by apply sends_fields_tick.
  - pose proof (on_settings_update_keeps_pending self ac_settings w) as H.
    unfold pending_view in H. injection H as _ _ _ _ H _.
    unfold sends_fields, _on_post_resume. by rewrite H.
  - done.
Qed.

Lemma posted_init a w : posted (snd (init a w)) = posted w.
Proof.
  unfold init. rewrite !step_modify_world.
  pose proof (on_settings_update_keeps_pending (id a) (settings a)
    (with_device_listeners ({[id a]} ∪ device_listeners w)
       (with_entities
          (<[id a := {| _remo_id := id a; _modes := range_modes a;
                        _remo_mode := None; _attr_target_temperature := None;
                        _attr_hvac_mode := None; _attr_fan_mode := None;
                        _attr_swing_mode := None;
                        _attr_temperature_unit := None;
                        _updated_at := None;
                        _last_target_temperature := None;
                        _next_settings := None; _post_cancel := None |}]>
             (entities w)) w))) as H.
  unfold pending_view in H. by injection H as _ _ _ _ H _.
Qed.

Lemma posted_added self attributes w :
  posted (snd (async_added_to_hass self attributes w)) = posted w.
Proof.
  unfold async_added_to_hass.
  destruct attributes as [a|]; [| done].
  rewrite bind_eq. unfold getitem.
  destruct (a !! "previous_target_temperature") as [d|]; [| done].
  simpl. destruct (entities w !! self) as [e|] eqn:He.
  - by rewrite (self_set_ok _ _ _ _ He).
  - by rewrite (self_set_missing _ _ _ He).
Qed.

Lemma posted_setup apps : posted (setup apps) = [].
Proof.
  unfold setup.
  assert (H : posted fresh = []) by done.
  revert H. generalize fresh.
  induction apps as [|a apps IH]; intros w Hw; [done |].
  simpl. apply IH. by rewrite posted_added, posted_init.
Qed.

(** X15. At any time after the platform is set up, whatever the host
    does, every request that was sent carries fields: [_on_post] never
    posts [None]. *)
Theorem every_request_carries_fields
    (apps : list (Appliance * option (gmap string (gmap string string))))
    (evs : list event) (path : string) (data : option (gmap string value)) :
  (path, data) ∈ posted (run evs (setup apps)) -> is_Some data.
Proof.
  assert (H : loop_consistent (setup apps) /\ sends_fields (setup apps)).
  { split; [apply at_rest_loop_consistent, at_rest_setup |].
    unfold sends_fields. by rewrite posted_setup. }
  revert H. generalize (setup apps).
  induction evs as [|ev evs IH]; intros w [Hw Hs] Hin.
  - unfold sends_fields in Hs. rewrite Forall_forall in Hs.
    by apply (Hs (path, data)).
  - simpl in Hin. revert Hin. apply IH. split.
    + by apply loop_consistent_exec.
    + by apply sends_fields_exec.
Qed.

Lemma on_post_keeps_clock self w :
  timers (snd (_on_post self w)) = timers w /\
  now (snd (_on_post self w)) = now w.
Proof.
  destruct (entities w !! self) as [e|] eqn:He.
  - pose proof (on_post_upd self e w) as Hrun.
    rewrite (upd_id _ _ _ He) in Hrun. by rewrite Hrun.
  - unfold _on_post. by rewrite bind_eq, (self_set_missing _ _ _ He).
Qed.

Lemma fire_all_keeps_clock ready w :
  timers (fold_left (fun w c => snd (_on_post (owner c) w)) ready w) = timers w /\
  now (fold_left (fun w c => snd (_on_post (owner c) w)) ready w) = now w.
Proof.
  revert w. induction ready as [|c rem IH]; intros w; [done |].
  simpl. destruct (on_post_keeps_clock (owner c) w) as [<- <-]. apply IH.
Qed.

Lemma tick_clock w :
  timers (tick w) = filter (fun c => ¬ (due c ≤ S (now w))%nat) (timers w) /\
  now (tick w) = S (now w).
Proof. unfold tick. apply fire_all_keeps_clock. Qed.

Lemma due_within_tick k w : due_within k w -> due_within (pred k) (tick w).
Proof.
  intros Hw t. destruct (tick_clock w) as [-> ->].
  rewrite list_elem_of_filter. intros [Hd Hin].
  specialize (Hw t Hin). lia.
Qed.

Lemma due_within_mono k k' w :
  (k <= k')%nat -> due_within k w -> due_within k' w.
Proof. intros Hk Hw t Hin. specialize (Hw t Hin). lia. Qed.

Lemma due_within_set_settings self data w :
  due_within 100 w -> due_within 100 (snd (_set_settings self data w)).
Proof.
  intros Hw. destruct (entities w !! self) as [e|] eqn:He.
  - pose proof (set_settings_upd self data e w) as Hrun.
    rewrite (upd_id _ _ _ He) in Hrun. rewrite Hrun. clear Hrun.
    unfold due_within, upd. simpl. intros t Hin.
    apply elem_of_app in Hin as [Hin | Hin].
    + apply Hw. destruct (_post_cancel e); [| done].
      by apply list_elem_of_filter in Hin as [_ Hin].
    + apply list_elem_of_singleton in Hin as ->. simpl. lia.
  - by rewrite set_settings_missing.
Qed.

Lemma due_within_exec w ev :
  due_within 100 w -> due_within 100 (exec w ev).
Proof.
  intros Hw. destruct ev as [self c| |self ac_settings|self]; simpl.
  - destruct (issue_cases self c w) as [-> | (e & data & He & ->)]; [done |].
    by apply due_within_set_settings.
  - apply (due_within_mono 99); [lia |]. by apply (due_within_tick 100).
  - pose proof (on_settings_update_keeps_pending self ac_settings w) as H.
    unfold pending_view in H. injection H as _ Ht _ Hn _ _.
    unfold due_within, _on_post_resume. by rewrite Ht, Hn.
  - done.
Qed.

Lemma due_within_quiet_time rest :
  forall k w,
    forallb (fun ev => negb (is_command ev)) rest = true ->
    (k <= elapsed rest)%nat ->
    due_within k w -> due_within 0 (run rest w).
Proof.
  induction rest as [|ev rest IH]; intros k w Hq Hk Hw.
  - simpl in *. apply (due_within_mono k); [| done].
    unfold elapsed in Hk. simpl in Hk. lia.
  - simpl in Hq. apply andb_prop in Hq as [Hev Hq].
    destruct ev as [self c| |self ac_settings|self]; simpl in *.
    + discriminate.
    + apply (IH (pred k)); [done | | by apply due_within_tick].
      unfold elapsed in *. simpl in Hk. lia.
    + apply (IH k); [done | done |].
      pose proof (on_settings_update_keeps_pending self ac_settings w) as H.
      unfold pending_view in H. injection H as _ Ht _ Hn _ _.
      unfold due_within, _on_post_resume. by rewrite Ht, Hn.
    + by apply (IH k).
Qed.

(** X16. After the platform is set up and whatever the host did, once
    100 ms have passed with no command, confirmations and removals apart,
    nothing is pending for any instance and nothing is scheduled on the
    loop. *)
Theorem quiet_time_leaves_nothing_pending
    (apps : list (Appliance * option (gmap string (gmap string string))))
    (evs rest : list event) :
  forallb (fun ev => negb (is_command ev)) rest = true ->
  (100 <= elapsed rest)%nat ->
  at_rest (run (evs ++ rest) (setup apps)).
Proof.
  intros Hq Hk. rewrite run_app.
  assert (H : loop_consistent (setup apps) /\ due_within 100 (setup apps)).
  { split; [apply at_rest_loop_consistent, at_rest_setup |].
    intros t Hin. destruct (at_rest_setup apps) as [Ht _].
    rewrite Ht in Hin. by apply elem_of_nil in Hin. }
  assert (H1 : loop_consistent (run evs (setup apps)) /\
               due_within 100 (run evs (setup apps))).
  { revert H. generalize (setup apps).
    induction evs as [|ev evs IH]; intros w [Hw Hd]; [done |].
    simpl. apply IH. split.
    - by apply loop_consistent_exec.
    - by apply due_within_exec. }
  clear H. destruct H1 as [Hw Hd].
  apply (loop_consistent_run rest) in Hw.
  apply (due_within_quiet_time rest 100 _ Hq Hk) in Hd.
  assert (Ht : timers (run rest (run evs (setup apps))) = []).
  { destruct (timers _) as [|t ts] eqn:Ht; [done |].
    specialize (Hd t). rewrite Ht in Hd.
    specialize (Hd (list_elem_of_here _ _)). lia. }
  split; [done |].
  destruct Hw as (Hnd & Hlt & Hown & Hkept & Hiff).
  intros self e He.
  assert (Hc : _post_cancel e = None).
  { destruct (_post_cancel e) as [h|] eqn:Hc; [| done].
    destruct (Hkept self e h He Hc) as (t & Hin & _).
    rewrite Ht in Hin. by apply elem_of_nil in Hin. }
  split; [| done]. by apply (Hiff self e He).
Qed.

(** ** Bursts *)

(** A burst from an idle instance ends settled, with one request sent. *)
Lemma burst_settled w self e c0 rest quiet ds :
  entities w !! self = Some e ->
  _next_settings e = None ->
  _post_cancel e = None ->
  timers w = [] ->
  Forall (fun gc => (fst gc < 100)%nat) rest ->
  (100 <= quiet)%nat ->
  Forall2 (fun c d => staged (last_target_temperature_of w e) c = Ok d)
          (c0 :: map snd rest) ds ->
  settled w self e [(request_path e, Some (merged ds))]
          (run (burst self c0 rest quiet) w).
Proof.
  intros He Hn Hp Ht Hgaps Hquiet Hds.
  inversion Hds as [|? d0 ? ds' Hd0 Hds']; subst. clear Hds.
  apply Forall2_fmap_l in Hds'.
  destruct (issue_idle _ _ _ _ _ He Hn Hp Ht Hd0) as [Ha Hclock].
  rewrite <-Hclock in Ha.
  pose proof (burst_armed _ _ _ rest ds' d0 _ Ha Hgaps Hds') as Ha'.
  cbv zeta in Ha'.
  match type of Ha' with
  | armed _ _ _ _ _ ?w2 =>
      destruct (ticks_armed _ _ _ _ _ quiet w2 Ha') as [_ Hfire]; [lia |];
      specialize (Hfire ltac:(lia))
  end.
  unfold burst. rewrite app_comm_cons, run_app.
  change (run (Command self c0 :: ?l) w)
    with (run l (exec w (Command self c0))).
  unfold merged. simpl.
  by rewrite (right_id_L ∅ (∪) d0).
Qed.

(** X17. Two bursts of commands for an instance, the second starting 100
    ms or more after the last command of the first, are sent as two
    requests, in that order, each with the merge of the fields of its own
    burst; no confirmation arriving in between, the fields of the second
    burst are staged from the same recorded targets as those of the
    first. *)
Theorem separated_bursts_are_sent_separately
    (w : World) (self : string) (e : AirconEntity)
    (c1 c2 : command) (rest1 rest2 : list (nat * command))
    (quiet1 quiet2 : nat) (ds1 ds2 : list (gmap string value)) :
  entities w !! self = Some e ->
  _next_settings e = None ->
  _post_cancel e = None ->
  timers w = [] ->
  Forall (fun gc => (fst gc < 100)%nat) rest1 ->
  Forall (fun gc => (fst gc < 100)%nat) rest2 ->
  (100 <= quiet1)%nat ->
  (100 <= quiet2)%nat ->
  Forall2 (fun c d => staged (last_target_temperature_of w e) c = Ok d)
          (c1 :: map snd rest1) ds1 ->
  Forall2 (fun c d => staged (last_target_temperature_of w e) c = Ok d)
          (c2 :: map snd rest2) ds2 ->
  posted (run (burst self c1 rest1 quiet1 ++ burst self c2 rest2 quiet2) w) =
  posted w ++ [(request_path e, Some (merged ds1));
               (request_path e, Some (merged ds2))].
Proof.
  intros He Hn Hp Ht Hg1 Hg2 Hq1 Hq2 Hds1 Hds2.
  rewrite run_app.
  pose proof (burst_settled w self e c1 rest1 quiet1 ds1
                He Hn Hp Ht Hg1 Hq1 Hds1) as (Hents & Htimers & Hclass & Hposted).
  set (w1 := run (burst self c1 rest1 quiet1) w) in *.
  assert (He1 : entities w1 !! self = Some (idle e)).
  { rewrite Hents. apply lookup_insert_eq. }
  assert (Hl : last_target_temperature_of w1 (idle e) =
               last_target_temperature_of w e).
  { unfold last_target_temperature_of. simpl. by rewrite Hclass. }
  rewrite <-Hl in Hds2.
  pose proof (burst_settled w1 self (idle e) c2 rest2 quiet2 ds2
                He1 eq_refl eq_refl Htimers Hg2 Hq2 Hds2) as (_ & _ & _ & ->).
  rewrite Hposted, <-app_assoc. done.
Qed.

Lemma staged_data_button d t m data :
  staged_data (Ok d) t m = Ok data ->
  data !! "button" =
    match m with Some OFF => Some (VStr "power-off") | _ => None end.
Proof.
  unfold staged_data.
  assert (Hm : forall data0,
    match m with Some m => staged_hvac_mode (Ok d) m | None => Ok ∅ end
      = Ok data0 ->
    data0 !! "button" =
      match m with Some OFF => Some (VStr "power-off") | _ => None end).
  { intros data0. destruct m as [m|]; [| by intros [= <-]].
    unfold staged_hvac_mode, default_fields.
    destruct m; simpl; try done; try (by intros [= <-]);
      (destruct (d !! _) as [x|]; [destruct (decide (x = "")) |]);
      by intros [= <-]. }
  destruct (match m with Some m => _ | None => _ end) as [data0|x]; [| done].
  specialize (Hm data0 eq_refl).
  destruct t as [t|].
  - destruct (staged_temperature t); [| done].
    intros [= <-]. by rewrite lookup_insert_ne.
  - by intros [= <-].
Qed.

Lemma staged_button d c data :
  staged d c = Ok data ->
  data !! "button" =
    if turns_off c then Some (VStr "power-off") else None.
Proof.
  destruct c as [t m|m|f|s]; simpl.
  - intros H. rewrite (staged_data_button _ _ _ _ H).
    by destruct m as [[]|].
  - intros H. rewrite (staged_data_button _ _ _ _ H). by destruct m.
  - by intros [= <-].
  - by intros [= <-].
Qed.

Lemma last_write_button d cs ds :
  Forall2 (fun c data => staged d c = Ok data) cs ds ->
  last_write "button" ds =
    if existsb turns_off cs then Some (VStr "power-off") else None.
Proof.
  induction 1 as [|c data cs ds Hc Hds IH]; [done |].
  simpl. rewrite IH, (staged_button _ _ _ Hc).
  by destruct (existsb turns_off cs), (turns_off c).
Qed.

(** X18. The request sent for a burst of commands has the button
    [power-off] exactly when a command of the burst turns the unit off:
    no later command of the burst takes the button back, and no command
    stages another button. *)
Theorem off_stays_in_the_merged_request
    (w : World) (self : string) (e : AirconEntity) (c0 : command)
    (rest : list (nat * command)) (quiet : nat)
    (ds : list (gmap string value)) :
  entities w !! self = Some e ->
  _next_settings e = None ->
  _post_cancel e = None ->
  timers w = [] ->
  Forall (fun gc => (fst gc < 100)%nat) rest ->
  (100 <= quiet)%nat ->
  Forall2 (fun c d => staged (last_target_temperature_of w e) c = Ok d)
          (c0 :: map snd rest) ds ->
  exists data,
    posted (run (burst self c0 rest quiet) w) =
      posted w ++ [(request_path e, Some data)] /\
    data !! "button" =
      if existsb turns_off (c0 :: map snd rest)
      then Some (VStr "power-off") else None.
Proof.
  intros He Hn Hp Ht Hgaps Hquiet Hds.
  pose proof (burst_settled w self e c0 rest quiet ds
                He Hn Hp Ht Hgaps Hquiet Hds) as (_ & _ & _ & Hposted).
  exists (merged ds). split; [done |].
  rewrite merged_lookup. by apply (last_write_button _ _ _ Hds).
Qed.

(** ** Restored instances *)

(** A restored instance records its targets in its own dict. *)
Lemma restored_records_privately self ac_settings w e d :
  entities w !! self = Some e ->
  _last_target_temperature e = Some d ->
  let w' := snd (_on_settings_update self ac_settings w) in
  class_last_target_temperature w' = class_last_target_temperature w /\
  (exists e' d', entities w' !! self = Some e' /\
                 _last_target_temperature e' = Some d') /\
  (forall other, other ≠ self ->
     (_last_target_temperature <$> entities w' !! other) =
     (_last_target_temperature <$> entities w !! other)).
Proof.
  intros He Hl.
  pose (P := fun w' : World =>
    class_last_target_temperature w' = class_last_target_temperature w /\
    (exists e' d', entities w' !! self = Some e' /\
                   _last_target_temperature e' = Some d') /\
    (forall other, other ≠ self ->
       (_last_target_temperature <$> entities w' !! other) =
       (_last_target_temperature <$> entities w !! other))).
  assert (HP : preserves P (_on_settings_update self ac_settings)).
  { assert (Hset : forall f,
      (forall e, _last_target_temperature (f e) = _last_target_temperature e) ->
      preserves P (self_set self f)).
    { intros f Hf. apply preserves_self_set.
      intros w' e0 (Hc & (e' & d' & He' & Hd') & Ho) He0.
      split; [done |]. split.
      - exists (f e0), d'. rewrite lookup_upd. split; [done |].
        rewrite Hf. congruence.
      - intros other Hne. rewrite lookup_upd_ne by done. by apply Ho. }
    unfold _on_settings_update. preserve; try (by apply Hset).
    unfold setitem_last_target_temperature.
    intros w' HP'. rewrite bind_eq.
    destruct HP' as (Hc & (e' & d' & He' & Hd') & Ho).
    rewrite (self_get_ok _ _ _ He'), Hd', (self_set_ok _ _ _ _ He'). simpl.
    split; [done |]. split.
    - eexists _, _. rewrite lookup_upd. split; [done |]. done.
    - intros other Hne. rewrite lookup_upd_ne by done. by apply Ho. }
  apply HP. split; [done |]. split; [by exists e, d | done].
Qed.

(** X19. Once [async_added_to_hass] has restored the targets of an
    instance from a saved state, the instance reads the restored targets,
    and its confirmed updates, however many, leave the targets of the class
    and what every other instance reads as they were before the
    restoration. *)
Theorem restored_instance_is_isolated
    (w : World) (self : string) (e : AirconEntity)
    (attributes : gmap string (gmap string string)) (d : gmap string string)
    (updates : list (gmap string string)) :
  entities w !! self = Some e ->
  attributes !! "previous_target_temperature" = Some d ->
  let w1 := snd (async_added_to_hass self (Some attributes) w) in
  let w2 := confirmations self updates w1 in
  targets_read self w1 = Ok d /\
  class_last_target_temperature w2 = class_last_target_temperature w /\
  forall other, other ≠ self -> targets_read other w2 = targets_read other w.
Proof.
  intros He Ha w1 w2.
  assert (Hw1 : w1 = upd self (set_last_target_temperature (Some d) e) w).
  { unfold w1, async_added_to_hass, getitem. rewrite bind_eq, Ha. simpl.
    by rewrite (self_set_ok _ _ _ _ He). }
  split.
  { rewrite Hw1. unfold targets_read. by rewrite lookup_upd. }
  assert (H1 : class_last_target_temperature w1 = class_last_target_temperature w /\
    (exists e' d', entities w1 !! self = Some e' /\
                   _last_target_temperature e' = Some d') /\
    (forall other, other ≠ self ->
       (_last_target_temperature <$> entities w1 !! other) =
       (_last_target_temperature <$> entities w !! other))).
  { rewrite Hw1. split; [done |]. split.
    - eexists _, d. by rewrite lookup_upd.
    - intros other Hne. by rewrite lookup_upd_ne. }
  assert (H2 : class_last_target_temperature w2 = class_last_target_temperature w /\
    (exists e' d', entities w2 !! self = Some e' /\
                   _last_target_temperature e' = Some d') /\
    (forall other, other ≠ self ->
       (_last_target_temperature <$> entities w2 !! other) =
       (_last_target_temperature <$> entities w !! other))).
  { unfold w2, confirmations. clearbody w1. clear Hw1 w2.
    revert w1 H1. induction updates as [|ac updates IH]; intros w1 H1; [done |].
    simpl. apply IH.
    destruct H1 as (Hc & (e' & d' & He' & Hd') & Ho).
    destruct (restored_records_privately self ac w1 e' d' He' Hd')
      as (Hc2 & Hs2 & Ho2).
    split; [congruence |]. split; [done |].
    intros other Hne. rewrite Ho2 by done. by apply Ho. }
  destruct H2 as (Hc & _ & Ho).
  split; [done |].
  intros other Hne. specialize (Ho other Hne).
  unfold targets_read, last_target_temperature_of.
  destruct (entities w2 !! other) as [e2|], (entities w !! other) as [e0|];
    simpl in Ho; try done.
  injection Ho as ->. by rewrite Hc.
Qed.

(** X22. The state attributes that an instance saves restore its
    recorded targets: [async_added_to_hass], given the attributes that
    [extra_state_attributes] returned, does not raise, makes the instance
    read the targets it read when the attributes were taken, and leaves the
    targets of the class alone. *)
Theorem saved_targets_are_restored
    (w w' : World) (self : string) (e e' : AirconEntity) :
  entities w !! self = Some e ->
  entities w' !! self = Some e' ->
  exists saved,
    extra_state_attributes self w = (Ok saved, w) /\
    let w'' := snd (async_added_to_hass self (Some (restorable saved)) w') in
    fst (async_added_to_hass self (Some (restorable saved)) w') = Ok tt /\
    targets_read self w'' = targets_read self w /\
    class_last_target_temperature w'' = class_last_target_temperature w'.
Proof.
  intros He He'.
  exists {[ "previous_target_temperature" :=
              Targets (last_target_temperature_of w e);
            "updated_at" := UpdatedAt (_updated_at e) ]}.
  split.
  - unfold extra_state_attributes, self_last_target_temperature.
    rewrite bind_eq, bind_eq, (self_get_ok _ _ _ He). simpl.
    by rewrite bind_eq, (self_get_ok _ _ _ He).
  - assert (Hl : restorable
        {[ "previous_target_temperature" :=
             Targets (last_target_temperature_of w e);
           "updated_at" := UpdatedAt (_updated_at e) ]}
        !! "previous_target_temperature" =
        Some (last_target_temperature_of w e)).
    { unfold restorable. rewrite lookup_omap.
      by rewrite lookup_insert_eq. }
    unfold async_added_to_hass, getitem. rewrite bind_eq, Hl. simpl.
    rewrite (self_set_ok _ _ _ _ He'). simpl.
    split; [done |]. split; [| done].
    unfold targets_read. by rewrite lookup_upd, He.
Qed.

(** ** The further properties at work on the sample units *)

Lemma cooled_idle :
  exists e,
    entities cooled !! "living" = Some e /\
    request_path e = "appliances/living/aircon_settings" /\
    _next_settings e = None /\ _post_cancel e = None /\
    last_target_temperature_of cooled e = {[ "cool" := "25"; "warm" := "20" ]} /\
    timers cooled = [] /\ posted cooled = [].
Proof.
  eexists. split; [vm_compute; exact eq_refl |].
  repeat split; vm_compute; exact eq_refl.
Qed.

Lemma one_room_living :
  exists e,
    entities one_room !! "living" = Some e /\
    _modes e !! "cool" =
      Some {| temp := ["18"; "19"; "20"]; vol := ["auto"]; dir := [""] |}.
Proof.
  eexists. split; [vm_compute; exact eq_refl |]. vm_compute. exact eq_refl.
Qed.

Lemma two_rooms_unrestored :
  exists ea eb,
    entities two_rooms !! "living" = Some ea /\
    entities two_rooms !! "bedroom" = Some eb /\
    _last_target_temperature ea = None /\
    _last_target_temperature eb = None.
Proof.
  eexists _, _. split; [vm_compute; exact eq_refl |].
  split; [vm_compute; exact eq_refl |].
  split; vm_compute; exact eq_refl.
Qed.

Lemma bedroom_restored_own :
  exists eb,
    entities bedroom_restored !! "bedroom" = Some eb /\
    _last_target_temperature eb = Some {[ "cool" := "26" ]}.
Proof.
  eexists. split; [vm_compute; exact eq_refl |]. vm_compute. exact eq_refl.
Qed.

Lemma platform_fan_command :
  exists e,
    entities (run [Command "living" (SetFanMode "auto")] platform) !! "living" =
      Some e /\
    _next_settings e = Some {[ "air_volume" := VStr "auto" ]}.
Proof.
  eexists. split; [vm_compute; exact eq_refl |]. vm_compute. exact eq_refl.
Qed.

Lemma switched_off_fields :
  switched_off !! "mode" = Some "cool" /\
  switched_off !! "button" = Some "power-off" /\
  switched_off !! "vol" = Some "auto" /\
  switched_off !! "dir" = Some "" /\
  switched_off !! "temp_unit" = Some "c" /\
  switched_off !! "updated_at" = Some "2024-01-01T00:00:00Z".
Proof. repeat split; vm_compute; exact eq_refl. Qed.

Lemma ac_settings_of_fields mode t :
  ac_settings_of mode t !! "mode" = Some mode /\
  ac_settings_of mode t !! "temp" = Some t /\
  ac_settings_of mode t !! "button" = Some "" /\
  ac_settings_of mode t !! "vol" = Some "auto" /\
  ac_settings_of mode t !! "dir" = Some "" /\
  ac_settings_of mode t !! "temp_unit" = Some "c" /\
  ac_settings_of mode t !! "updated_at" = Some "2024-01-01T00:00:00Z".
Proof. repeat split; reflexivity. Qed.

Lemma of_str_samples :
  PyFloat.of_str "25" = Some (PyFloat.of_Z 25) /\
  PyFloat.of_str "27" = Some (PyFloat.of_Z 27) /\
  PyFloat.of_str "30" = Some (PyFloat.of_Z 30) /\
  PyFloat.of_str "warm" = None.
Proof. repeat split; vm_compute; exact eq_refl. Qed.


Lemma advertised_mode_is_accepted_witness :
  exists data,
    set_temperature_data "living" None (Some COOL) cooled = (Ok data, cooled) /\
    data !! "button" = None.
Proof.
  destruct cooled_idle as (e & He & _).
  assert (Hms : hvac_modes ["cool"; "warm"] = Ok [COOL; HEAT; OFF]).
  { vm_compute. exact eq_refl. }
  destruct (advertised_mode_is_accepted cooled "living" e ["cool"; "warm"]
              [COOL; HEAT; OFF] COOL He Hms (list_elem_of_here _ _))
    as [_ (data & Hdata & _ & Hon)].
  exists data. split; [exact Hdata |].
  destruct (Hon ltac:(discriminate)) as (k & _ & _ & _ & Hb).
  exact Hb.
Defined.

Lemma step_is_one_or_half_witness :
  NFloat half = NInt 1 \/ NFloat half = NFloat one \/ NFloat half = NFloat half.
Proof.
  apply (step_is_one_or_half (table_of ["18"; "18.5"]) (NFloat half)).
  vm_compute. exact eq_refl.
Defined.

Lemma bad_temperature_fails_the_range_witness :
  min_temp (table_of ["18"; "warm"]) = Raise ValueError /\
  max_temp (table_of ["18"; "warm"]) = Raise ValueError /\
  target_temperature_step (table_of ["18"; "warm"]) = Raise ValueError /\
  fan_modes (table_of ["18"; "warm"]) = Ok [] /\
  swing_modes (table_of ["18"; "warm"]) = Ok [].
Proof.
  destruct of_str_samples as (_ & _ & _ & Hbad).
  apply (bad_temperature_fails_the_range (table_of ["18"; "warm"]) "cool" "warm"
           {| temp := ["18"; "warm"]; vol := []; dir := [] |} eq_refl eq_refl).
  - apply list_elem_of_further, list_elem_of_here.
  - discriminate.
  - exact Hbad.
Defined.

Lemma unknown_current_mode_fails_the_capabilities_witness :
  min_temp (set_remo_mode (Some "dry") (table_of ["18"])) = Raise (KeyError "dry") /\
  max_temp (set_remo_mode (Some "dry") (table_of ["18"])) = Raise (KeyError "dry") /\
  target_temperature_step (set_remo_mode (Some "dry") (table_of ["18"])) =
    Raise (KeyError "dry") /\
  fan_modes (set_remo_mode (Some "dry") (table_of ["18"])) = Raise (KeyError "dry") /\
  swing_modes (set_remo_mode (Some "dry") (table_of ["18"])) = Raise (KeyError "dry").
Proof.
  apply (unknown_current_mode_fails_the_capabilities
           (set_remo_mode (Some "dry") (table_of ["18"])) "dry" eq_refl eq_refl).
Defined.

Lemma failed_command_changes_nothing_witness :
  snd (issue "living" (SetHvacMode HEAT_COOL) cooled) = cooled.
Proof.
  assert (Hx : fst (issue "living" (SetHvacMode HEAT_COOL) cooled) =
               Raise (KeyError "hvac_mode")).
  { vm_compute. exact eq_refl. }
  exact (proj1 (failed_command_changes_nothing cooled "living"
                  (SetHvacMode HEAT_COOL) (KeyError "hvac_mode") Hx)).
Defined.

Lemma confirmed_update_records_target_witness :
  exists w',
    _on_settings_update "living" (ac_settings_of "cool" "25") one_room = (Ok tt, w') /\
    target_read "living" "cool" w' = Some "25" /\
    target_read "living" "warm" w' = target_read "living" "warm" one_room.
Proof.
  destruct one_room_living as (e & He & _).
  destruct (ac_settings_of_fields "cool" "25")
    as (H1 & H2 & H3 & H4 & H5 & H6 & H7).
  destruct of_str_samples as (Hx & _).
  destruct (confirmed_update_records_target one_room "living" e
              (ac_settings_of "cool" "25") "cool" "25" "" "auto" "" "c"
              "2024-01-01T00:00:00Z" (PyFloat.of_Z 25) CELSIUS He
              H1 H2 Hx H3 H4 H5 H6 H7
              eq_refl (or_intror (ex_intro _ COOL eq_refl)))
    as (e' & w' & Hrun & _ & _ & Hrec & Hother).
  exists w'. split; [exact Hrun |]. split; [exact Hrec |].
  apply Hother. discriminate.
Defined.

Lemma capabilities_follow_the_mode_while_off_witness :
  exists e' w',
    _on_settings_update "living" switched_off one_room = (Ok tt, w') /\
    entities w' !! "living" = Some e' /\
    _attr_hvac_mode e' = Some OFF /\
    fan_modes e' = Ok ["auto"].
Proof.
  destruct one_room_living as (e & He & Hm).
  destruct switched_off_fields as (H1 & H2 & H3 & H4 & H5 & H6).
  destruct (capabilities_follow_the_mode_while_off one_room "living" e
              switched_off "cool" "auto" "" "c" "2024-01-01T00:00:00Z" CELSIUS _
              He H1 H2 H3 H4 H5 H6 eq_refl Hm)
    as (e' & w' & Hrun & He' & Hoff & _ & Hfan & _).
  exists e', w'.
  split; [exact Hrun |]. split; [exact He' |]. split; [exact Hoff | exact Hfan].
Defined.

Lemma resending_the_confirmed_mode_witness :
  exists w',
    _on_settings_update "living" (ac_settings_of "cool" "25") one_room = (Ok tt, w') /\
    set_temperature_data "living" None (Some COOL) w' =
      (Ok {[ "operation_mode" := VStr "cool"; "temperature" := VStr "25" ]}, w').
Proof.
  destruct one_room_living as (e & He & _).
  destruct (ac_settings_of_fields "cool" "25")
    as (H1 & H2 & H3 & H4 & H5 & H6 & H7).
  destruct of_str_samples as (Hx & _).
  destruct (resending_the_confirmed_mode one_room "living" e
              (ac_settings_of "cool" "25") "cool" "25" "" "auto" "" "c"
              "2024-01-01T00:00:00Z" (PyFloat.of_Z 25) COOL CELSIUS He
              H1 H2 Hx H3 ltac:(discriminate) eq_refl
              ltac:(discriminate) H4 H5 H6 H7 eq_refl)
    as (e' & w' & Hrun & _ & _ & Hdata).
  exists w'. split; [exact Hrun | exact Hdata].
Defined.

Lemma unknown_mode_fails_after_the_target_is_set_witness :
  exists e' w',
    _on_settings_update "living" (ac_settings_of "turbo" "30") one_room =
      (Raise (KeyError "turbo"), w') /\
    entities w' !! "living" = Some e' /\
    _remo_mode e' = Some "turbo" /\
    target_read "living" "turbo" w' = Some "30".
Proof.
  destruct one_room_living as (e & He & _).
  destruct (ac_settings_of_fields "turbo" "30")
    as (H1 & H2 & H3 & _).
  destruct of_str_samples as (_ & _ & Hx & _).
  destruct (unknown_mode_fails_after_the_target_is_set one_room "living" e
              (ac_settings_of "turbo" "30") "turbo" "30" "" (PyFloat.of_Z 30) He
              H1 eq_refl H2 Hx H3 ltac:(discriminate))
    as (e' & w' & Hrun & He' & Hmode & _ & Hrec & _).
  exists e', w'.
  split; [exact Hrun |]. split; [exact He' |]. split; [exact Hmode | exact Hrec].
Defined.

Lemma pending_fields_have_exactly_one_timer_witness :
  exists t,
    filter (fun t => owner t = "living")
           (timers (run [Command "living" (SetFanMode "auto")] platform)) = [t].
Proof.
  destruct platform_fan_command as (e & He & Hn).
  pose proof (pending_fields_have_exactly_one_timer [(living_room, None)]
                [Command "living" (SetFanMode "auto")] "living" e He) as H.
  rewrite Hn in H. destruct H as (t & _ & H). exists t. exact H.
Defined.

Lemma every_request_carries_fields_witness :
  is_Some (Some ({[ "air_volume" := VStr "auto" ]} : gmap string value)).
Proof.
  apply (every_request_carries_fields [(living_room, None)]
           (Command "living" (SetFanMode "auto") :: ticks 100)
           "appliances/living/aircon_settings").
  assert (Hp : posted (run (Command "living" (SetFanMode "auto") :: ticks 100)
                         (setup [(living_room, None)])) =
               [("appliances/living/aircon_settings",
                 Some {[ "air_volume" := VStr "auto" ]})]).
  { vm_compute. exact eq_refl. }
  rewrite Hp. apply list_elem_of_here.
Defined.

Lemma quiet_time_leaves_nothing_pending_witness :
  at_rest (run ([Command "living" (SetFanMode "auto")] ++ ticks 100) platform).
Proof.
  apply (quiet_time_leaves_nothing_pending [(living_room, None)]
           [Command "living" (SetFanMode "auto")] (ticks 100)).
  - vm_compute. exact eq_refl.
  - vm_compute. apply le_n.
Defined.

Lemma separated_bursts_are_sent_separately_witness :
  posted (run (burst "living" (SetFanMode "auto") [] 100 ++
               burst "living" (SetSwingMode "") [] 100) cooled) =
  [("appliances/living/aircon_settings",
    Some (merged [ {[ "air_volume" := VStr "auto" ]} ]));
   ("appliances/living/aircon_settings",
    Some (merged [ {[ "air_direction" := VStr "" ]} ]))].
Proof.
  destruct cooled_idle as (e & He & Hpath & Hn & Hp & _ & Ht & Hposted).
  rewrite <-Hpath.
  change [(request_path e, Some (merged [ {[ "air_volume" := VStr "auto" ]} ]));
          (request_path e, Some (merged [ {[ "air_direction" := VStr "" ]} ]))]
    with ([] ++ [(request_path e,
                  Some (merged [ ({[ "air_volume" := VStr "auto" ]}
                                  : gmap string value) ]));
                 (request_path e,
                  Some (merged [ ({[ "air_direction" := VStr "" ]}
                                  : gmap string value) ]))]).
  rewrite <-Hposted.
  apply (separated_bursts_are_sent_separately cooled "living" e
           (SetFanMode "auto") (SetSwingMode "") [] [] 100 100
           _ _ He Hn Hp Ht).
  - constructor.
  - constructor.
  - lia.
  - lia.
  - repeat constructor.
  - repeat constructor.
Defined.

Lemma off_stays_in_the_merged_request_witness :
  exists data,
    posted (run (burst "living" (SetHvacMode OFF)
                   [(10%nat, SetHvacMode COOL)] 100) cooled) =
      [("appliances/living/aircon_settings", Some data)] /\
    data !! "button" = Some (VStr "power-off").
Proof.
  destruct cooled_idle as (e & He & Hpath & Hn & Hp & Hl & Ht & Hposted).
  assert (Hds : Forall2
            (fun c d => staged (last_target_temperature_of cooled e) c = Ok d)
            [SetHvacMode OFF; SetHvacMode COOL]
            [ {[ "button" := VStr "power-off" ]};
              {[ "operation_mode" := VStr "cool"; "temperature" := VStr "25" ]} ]).
  { rewrite Hl.
    constructor; [vm_compute; exact eq_refl |].
    constructor; [vm_compute; exact eq_refl | constructor]. }
  destruct (off_stays_in_the_merged_request cooled "living" e (SetHvacMode OFF)
              [(10%nat, SetHvacMode COOL)] 100 _ He Hn Hp Ht
              ltac:(repeat constructor) ltac:(lia) Hds)
    as (data & Hsent & Hbutton).
  exists data. split; [| exact Hbutton].
  rewrite Hsent, Hposted, Hpath. exact eq_refl.
Defined.

Lemma restored_instance_is_isolated_witness :
  targets_read "bedroom" bedroom_restored = Ok {[ "cool" := "26" ]} /\
  class_last_target_temperature
    (confirmations "bedroom" [ac_settings_of "cool" "27"] bedroom_restored) =
    class_last_target_temperature two_rooms /\
  targets_read "living"
    (confirmations "bedroom" [ac_settings_of "cool" "27"] bedroom_restored) =
    targets_read "living" two_rooms.
Proof.
  destruct two_rooms_unrestored as (_ & e & _ & He & _).
  destruct (restored_instance_is_isolated two_rooms "bedroom" e saved_attributes
              {[ "cool" := "26" ]} [ac_settings_of "cool" "27"] He eq_refl)
    as (Hown & Hclass & Hother).
  split; [exact Hown |]. split; [exact Hclass |].
  apply Hother. discriminate.
Defined.

Lemma targets_shared_through_class_witness :
  targets_read "bedroom"
    (snd (_on_settings_update "living" (ac_settings_of "cool" "27") two_rooms)) =
  Ok (<["cool" := "27"]> (class_last_target_temperature two_rooms)).
Proof.
  destruct two_rooms_unrestored as (ea & eb & Ha & Hb & Hla & Hlb).
  destruct (ac_settings_of_fields "cool" "27") as (H1 & H2 & _).
  destruct of_str_samples as (_ & Hx & _).
  exact (targets_shared_through_class two_rooms "living" "bedroom" ea eb
           (ac_settings_of "cool" "27") "cool" "27" (PyFloat.of_Z 27)
           ltac:(discriminate) Ha Hb Hla Hlb H1 H2 Hx).
Defined.

Lemma targets_own_when_restored_witness :
  targets_read "bedroom"
    (snd (_on_settings_update "living" (ac_settings_of "cool" "27")
            bedroom_restored)) =
  Ok {[ "cool" := "26" ]}.
Proof.
  destruct bedroom_restored_own as (eb & Hb & Hlb).
  exact (targets_own_when_restored bedroom_restored "living" "bedroom" eb
           (ac_settings_of "cool" "27") {[ "cool" := "26" ]}
           ltac:(discriminate) Hb Hlb).
Defined.

Lemma saved_targets_are_restored_witness :
  exists saved,
    extra_state_attributes "living" cooled = (Ok saved, cooled) /\
    targets_read "living"
      (snd (async_added_to_hass "living" (Some (restorable saved)) one_room)) =
    targets_read "living" cooled.
Proof.
  destruct cooled_idle as (e & He & _).
  destruct one_room_living as (e' & He' & _).
  destruct (saved_targets_are_restored cooled one_room "living" e e' He He')
    as (saved & Hsaved & _ & Hread & _).
  exists saved. split; [exact Hsaved | exact Hread].
Defined.
